(** * ML pipeline web orchestrator ([web_app.py]): model and properties

    The orchestrator keeps one process-wide status record, runs each
    pipeline stage as a [docker] subprocess, checks the stage's output file
    and broadcasts every status change.  The model below follows the source
    function by function.  Everything outside the program (subprocesses,
    HTTP, the clock, faults of the operating system) is a parameter of type
    [Runtime]; the filesystem is a finite map from paths to nodes; the
    status record is threaded through a small state, trace and exception
    monad.  After the orchestrator come the handlers that only read
    ([dataset_preview], [model_info], [get_status], [handle_connect]), the
    loop that makes the data folders when the program starts, and the
    loop of the test script that waits for a run ([wait_for_pipeline] of
    [test.py]). *)

From Stdlib Require Import ZArith Ascii String.
From Corelib Require Import SpecFloat.
From stdpp Require Import base strings list gmap.

Open Scope string_scope.
Open Scope list_scope.

(** ** Strings, the way the source uses them *)

(** [s.endswith(suffix)] *)
Definition endswith (s suffix : string) : bool :=
  let n := String.length s in
  let m := String.length suffix in
  bool_decide (m ≤ n)%nat && String.eqb (String.substring (n - m) m s) suffix.

(** [needle in hay] on strings *)
Fixpoint contains (needle hay : string) : bool :=
  String.prefix needle hay ||
  match hay with
  | EmptyString => false
  | String _ rest => contains needle rest
  end.

(** ASCII white space, as removed by [str.strip()] *)
Definition is_space (c : ascii) : bool :=
  let n := nat_of_ascii c in
  bool_decide (n = 32)%nat || (bool_decide (9 ≤ n)%nat && bool_decide (n ≤ 13)%nat)
  || (bool_decide (28 ≤ n)%nat && bool_decide (n ≤ 31)%nat).

Fixpoint lstrip (s : string) : string :=
  match s with
  | String c rest => if is_space c then lstrip rest else s
  | EmptyString => EmptyString
  end.

Fixpoint rstrip (s : string) : string :=
  match s with
  | String c rest =>
      match rstrip rest with
      | EmptyString => if is_space c then EmptyString else String c EmptyString
      | rest' => String c rest'
      end
  | EmptyString => EmptyString
  end.

Definition strip (s : string) : string := rstrip (lstrip s).

(** [s.split('\n')]: never the empty list *)
Fixpoint split_lines (s : string) : list string :=
  match s with
  | EmptyString => [EmptyString]
  | String c rest =>
      if bool_decide (nat_of_ascii c = 10)%nat then EmptyString :: split_lines rest
      else match split_lines rest with
           | l :: ls => String c l :: ls
           | [] => [String c EmptyString]
           end
  end.

(** Truth value of a Python string *)
Definition truthy (s : string) : bool := negb (String.eqb s "").

(** ** The status record *)

Inductive Phase := upload | conversion | cleaning | training | inference.

Inductive Status := pending | running | completed | error.

Module Level.
Inductive t := info | warning | error.
End Level.

Global Instance Phase_eq_dec : EqDecision Phase.
Proof. solve_decision. Defined.

Global Instance Status_eq_dec : EqDecision Status.
Proof. solve_decision. Defined.

(** The fixed sequence of the phases, in the order of the dictionary *)
Definition all_phases : list Phase :=
  [upload; conversion; cleaning; training; inference].

Definition phase_index (p : Phase) : nat :=
  match p with
  | upload => 0 | conversion => 1 | cleaning => 2 | training => 3 | inference => 4
  end.

Definition phase_name (p : Phase) : string :=
  match p with
  | upload => "upload" | conversion => "conversion" | cleaning => "cleaning"
  | training => "training" | inference => "inference"
  end.

Definition status_name (s : Status) : string :=
  match s with
  | pending => "pending" | running => "running"
  | completed => "completed" | error => "error"
  end.

Record PhaseState := {
  status : Status;
  timestamp : option string;
  message : string
}.

Record LogEntry := {
  log_timestamp : string;
  log_message : string;
  log_level : Level.t
}.

(** ['current_phase'] holds ['idle'] or the name of a phase *)
Inductive CurrentPhase := idle | at_phase (p : Phase).

Record PipelineStatus := {
  current_phase : CurrentPhase;
  phases : Phase → PhaseState;
  model_ready : bool;
  logs : list LogEntry
}.

(** [{'status': 'pending', 'timestamp': None, 'message': ''}] *)
Definition pending_state : PhaseState :=
  {| status := pending; timestamp := None; message := "" |}.

(** The module-level value of [pipeline_status] *)
Definition initial_status : PipelineStatus :=
  {| current_phase := idle;
     phases := λ _, pending_state;
     model_ready := false;
     logs := [] |}.

(** [phases[p] = v] *)
Definition set_phase (p : Phase) (v : PhaseState) (f : Phase → PhaseState)
  : Phase → PhaseState :=
  λ q, if decide (q = p) then v else f q.

(** ** JSON values and HTTP answers of the handlers *)

#[warnings="-register-all"]
Inductive json :=
| JNull
| JBool (b : bool)
| JNum (n : Z)
| JFloat (x : spec_float)     (* a float, as IEEE 754 gives it *)
| JStr (s : string)
| JArr (l : list json)
| JObj (fields : list (string * json)).

Record HttpResponse := {
  body : json;
  code : nat
}.

(** [jsonify(x)] and [jsonify(x), c] *)
Definition jsonify (x : json) : HttpResponse := {| body := x; code := 200 |}.
Definition jsonify_with (x : json) (c : nat) : HttpResponse := {| body := x; code := c |}.

(** ** The filesystem *)

(** A path is the list of its components below the root:
    [/app/data/raw] is [["app"; "data"; "raw"]]. *)
Abbreviation path := (list string).

Inductive node := File (content : string) | Dir.

Abbreviation FS := (gmap path node).

(** [os.path.join(d, name)] for a [name] that is one component *)
Definition path_join (d : path) (names : list string) : path := d ++ names.

Definition exists_fs (p : path) (fs : FS) : bool :=
  match fs !! p with Some _ => true | None => false end.

Definition isfile_fs (p : path) (fs : FS) : bool :=
  match fs !! p with Some (File _) => true | _ => false end.

Fixpoint strip_prefix (pre p : path) : option path :=
  match pre, p with
  | [], _ => Some p
  | a :: pre', b :: p' => if decide (a = b) then strip_prefix pre' p' else None
  | _ :: _, [] => None
  end.

(** The names directly inside a directory *)
Definition children (d : path) (fs : FS) : list string :=
  omap (λ p, match strip_prefix d p with
             | Some [name] => Some name
             | _ => None
             end) (map fst (map_to_list fs)).

(** Whether anything lies below [d] *)
Definition has_descendant (d : path) (fs : FS) : bool :=
  existsb (λ p, match strip_prefix d p with
                | Some (_ :: _) => true
                | _ => false
                end) (map fst (map_to_list fs)).

(** Move the subtree rooted at [src] to [dst] *)
Definition move_subtree (src dst : path) (fs : FS) : FS :=
  list_to_map
    (map (λ e : path * node,
            match strip_prefix src e.1 with
            | Some rest => (dst ++ rest, e.2)
            | None => e
            end)
         (map_to_list fs)).

(** ** Exceptions and what the outside returns *)

Inductive exn :=
| TimeoutExpired (msg : string)       (* subprocess.TimeoutExpired *)
| RequestException (msg : string)     (* requests.exceptions.RequestException *)
| OSError (msg : string)              (* FileNotFoundError, PermissionError, ... *)
| OtherException (msg : string).      (* any other subclass of Exception *)

(** [str(e)] *)
Definition exn_str (e : exn) : string :=
  match e with
  | TimeoutExpired m | RequestException m | OSError m | OtherException m => m
  end.

(** [subprocess.CompletedProcess] *)
Record CompletedProcess := {
  returncode : Z;
  stdout : string;
  stderr : string
}.

(** [requests.Response] *)
Record Response := {
  status_code : nat;
  text : string
}.

(** The operations of [os] that may fail *)
Inductive FsOp :=
| op_remove (p : path)
| op_rename (src dst : path)
| op_makedirs (p : path)
| op_listdir (p : path)
| op_unlink (p : path)
| op_save (p : path).

(** Everything the program asks of its surroundings.  [W] is the state of
    the outside world; a subprocess may change it and the filesystem. *)
Record Runtime (W : Type) := {
  (** [subprocess.run(cmd, capture_output=True, text=True, timeout=t)] *)
  run_process : list string → option nat → W → FS → (exn + CompletedProcess) * W * FS;
  (** [requests.get(url, timeout=t)] *)
  http_get : string → nat → W → (exn + Response) * W;
  (** [requests.post(url, json=data, timeout=t)] *)
  http_post : string → json → nat → W → (exn + Response) * W;
  (** [response.json()] *)
  response_json : Response → exn + json;
  (** [datetime.now().strftime('%H:%M:%S')] *)
  now : W → string;
  (** [time.sleep(n)] *)
  sleep : nat → W → W;
  (** a fault of the operating system (permissions, I/O) other than the
      ones the shape of the filesystem decides *)
  os_fault : FsOp → W → option string;
  (** [werkzeug.utils.secure_filename] *)
  secure_filename : string → string;
  (** [os.environ.get('HOST_DATA_PATH')] *)
  env_HOST_DATA_PATH : option string
}.

Arguments run_process {W}.
Arguments http_get {W}.
Arguments http_post {W}.
Arguments response_json {W}.
Arguments now {W}.
Arguments sleep {W}.
Arguments os_fault {W}.
Arguments secure_filename {W}.
Arguments env_HOST_DATA_PATH {W}.

(** ** State, observable events and the monad *)

Record State (W : Type) := {
  pipeline_status : PipelineStatus;
  fs : FS;
  world : W
}.

Arguments pipeline_status {W}.
Arguments fs {W}.
Arguments world {W}.
Arguments Build_State {W}.

(** What a run does that others can see, in the order it happens *)
Inductive Event :=
| EmitStatus (s : PipelineStatus)            (* socketio.emit('status_update', pipeline_status) *)
| EmitLog (e : LogEntry)                     (* socketio.emit('new_log', log_entry) *)
| Subprocess (cmd : list string) (timeout : option nat) (fs_before : FS)
             (result : exn + CompletedProcess) (fs_after : FS)
| HttpGet (url : string)
| HttpPost (url : string) (data : json).

(** How a block of statements ends: it falls through with a value, the
    enclosing function executes [return], or an exception is raised. *)
Inductive Res (A : Type) :=
| Val (a : A)
| Return
| Raise (e : exn).

Arguments Val {A}.
Arguments Return {A}.
Arguments Raise {A}.

Section Program.

Context {W : Type} (R : Runtime W).

Definition M (A : Type) : Type := State W → Res A * State W * list Event.

Definition ret {A} (a : A) : M A := λ st, (Val a, st, []).

Definition bind {A B} (m : M A) (k : A → M B) : M B := λ st,
  match m st with
  | (Val a, st1, tr1) =>
      match k a st1 with
      | (r, st2, tr2) => (r, st2, tr1 ++ tr2)
      end
  | (Return, st1, tr1) => (Return, st1, tr1)
  | (Raise e, st1, tr1) => (Raise e, st1, tr1)
  end.

(** [return] of the enclosing function *)
Definition early_return {A} : M A := λ st, (Return, st, []).

Definition raise {A} (e : exn) : M A := λ st, (Raise e, st, []).

(** [try: body  except Exception as e: handler e]; a handler for one class
    of exceptions raises the others again. *)
Definition try_except {A} (body : M A) (handler : exn → M A) : M A := λ st,
  match body st with
  | (Raise e, st1, tr1) =>
      match handler e st1 with
      | (r, st2, tr2) => (r, st2, tr1 ++ tr2)
      end
  | other => other
  end.

Notation "x ← m ; k" := (bind m (λ x, k))
  (at level 20, m at level 100, k at level 200, only parsing, right associativity).
Notation "m ;; k" := (bind m (λ _, k))
  (at level 100, k at level 200, only parsing, right associativity).

Definition get_status_record : M PipelineStatus := λ st, (Val (pipeline_status st), st, []).

Definition put_status_record (ps : PipelineStatus) : M unit := λ st,
  (Val tt, {| pipeline_status := ps; fs := fs st; world := world st |}, []).

Definition emit (e : Event) : M unit := λ st, (Val tt, st, [e]).

(** *** Operations of [os] *)

(** An error an operation raises by itself carries the text of the error
    alone; in Python [str(e)] has the number of the error and the paths
    as well.  The properties take the text as it comes ([exn_str e]). *)

Definition os_path_exists (p : path) : M bool := λ st, (Val (exists_fs p (fs st)), st, []).

Definition os_path_isfile (p : path) : M bool := λ st, (Val (isfile_fs p (fs st)), st, []).

Definition put_fs (fs' : FS) : M unit := λ st,
  (Val tt, {| pipeline_status := pipeline_status st; fs := fs'; world := world st |}, []).

Definition with_fault (op : FsOp) (k : M unit) : M unit := λ st,
  match os_fault R op (world st) with
  | Some msg => (Raise (OSError msg), st, [])
  | None => k st
  end.

(** [os.remove(p)] and [os.unlink(p)] *)
Definition remove_fs (p : path) (st : State W) : Res unit * State W * list Event :=
  match fs st !! p with
  | Some (File _) => put_fs (delete p (fs st)) st
  | Some Dir => (Raise (OSError "Is a directory"), st, [])
  | None => (Raise (OSError "No such file or directory"), st, [])
  end.

Definition os_remove (p : path) : M unit := with_fault (op_remove p) (remove_fs p).

Definition os_unlink (p : path) : M unit := with_fault (op_unlink p) (remove_fs p).

(** [os.rename(src, dst)] *)
Definition os_rename (src dst : path) : M unit :=
  with_fault (op_rename src dst) (λ st,
    match fs st !! src with
    | None => (Raise (OSError "No such file or directory"), st, [])
    | Some (File c) =>
        match fs st !! dst with
        | Some Dir => (Raise (OSError "Is a directory"), st, [])
        | _ => put_fs (<[dst := File c]> (delete src (fs st))) st
        end
    | Some Dir =>
        match fs st !! dst with
        | Some (File _) => (Raise (OSError "Not a directory"), st, [])
        | _ =>
            if has_descendant dst (fs st)
            then (Raise (OSError "Directory not empty"), st, [])
            else put_fs (move_subtree src dst (fs st)) st
        end
    end).

(** [os.makedirs(p, exist_ok=True)]: nothing happens when [p] is a
    directory already; otherwise every missing directory on the way is
    created, and a regular file on the way is an error. *)
Fixpoint makedirs_fs (done todo : path) (fs0 : FS) : exn + FS :=
  match todo with
  | [] => inr fs0
  | c :: rest =>
      let p := done ++ [c] in
      match fs0 !! p with
      | Some Dir => makedirs_fs p rest fs0
      | Some (File _) =>
          inl (OSError (match rest with [] => "File exists" | _ => "Not a directory" end))
      | None => makedirs_fs p rest (<[p := Dir]> fs0)
      end
  end.

Definition os_makedirs (p : path) : M unit := λ st,
  match fs st !! p with
  | Some Dir => (Val tt, st, [])
  | _ =>
      with_fault (op_makedirs p) (λ st,
        match makedirs_fs [] p (fs st) with
        | inl e => (Raise e, st, [])
        | inr fs' => put_fs fs' st
        end) st
  end.

(** [os.listdir(p)] *)
Definition os_listdir (p : path) : M (list string) := λ st,
  match os_fault R (op_listdir p) (world st) with
  | Some msg => (Raise (OSError msg), st, [])
  | None =>
      match fs st !! p with
      | Some Dir => (Val (children p (fs st)), st, [])
      | Some (File _) => (Raise (OSError "Not a directory"), st, [])
      | None => (Raise (OSError "No such file or directory"), st, [])
      end
  end.

(** [file.save(p)] of an uploaded file *)
Definition file_save (p : path) (content : string) : M unit :=
  with_fault (op_save p) (λ st,
    match fs st !! p with
    | Some Dir => (Raise (OSError "Is a directory"), st, [])
    | _ =>
        match fs st !! removelast p with
        | Some Dir => put_fs (<[p := File content]> (fs st)) st
        | Some (File _) => (Raise (OSError "Not a directory"), st, [])
        | None => (Raise (OSError "No such file or directory"), st, [])
        end
    end).

(** *** Subprocesses and HTTP *)

Definition subprocess_run (cmd : list string) (timeout : option nat) : M CompletedProcess := λ st,
  match run_process R cmd timeout (world st) (fs st) with
  | (result, w', fs') =>
      let st' := {| pipeline_status := pipeline_status st; fs := fs'; world := w' |} in
      (match result with inl e => Raise e | inr cp => Val cp end,
       st', [Subprocess cmd timeout (fs st) result fs'])
  end.

Definition requests_get (url : string) (timeout : nat) : M Response := λ st,
  match http_get R url timeout (world st) with
  | (result, w') =>
      let st' := {| pipeline_status := pipeline_status st; fs := fs st; world := w' |} in
      (match result with inl e => Raise e | inr resp => Val resp end, st', [HttpGet url])
  end.

Definition requests_post (url : string) (data : json) (timeout : nat) : M Response := λ st,
  match http_post R url data timeout (world st) with
  | (result, w') =>
      let st' := {| pipeline_status := pipeline_status st; fs := fs st; world := w' |} in
      (match result with inl e => Raise e | inr resp => Val resp end, st', [HttpPost url data])
  end.

Definition time_sleep (n : nat) : M unit := λ st,
  (Val tt, {| pipeline_status := pipeline_status st; fs := fs st;
              world := sleep R n (world st) |}, []).

Definition strftime_now : M string := λ st, (Val (now R (world st)), st, []).

(** *** [emit_status_update], [add_log], [update_phase] *)

Definition emit_status_update : M unit :=
  ps ← get_status_record;
  emit (EmitStatus ps).

Definition add_log (msg : string) (level : Level.t) : M unit :=
  t ← strftime_now;
  let log_entry := {| log_timestamp := t; log_message := msg; log_level := level |} in
  ps ← get_status_record;
  put_status_record
    {| current_phase := current_phase ps;
       phases := phases ps;
       model_ready := model_ready ps;
       logs := logs ps ++ [log_entry] |};;
  emit (EmitLog log_entry).

Definition update_phase (phase : Phase) (status : Status) (message : string) : M unit :=
  t ← strftime_now;
  ps ← get_status_record;
  put_status_record
    {| current_phase := at_phase phase;
       phases := set_phase phase
                   {| status := status; timestamp := Some t; message := message |}
                   (phases ps);
       model_ready := model_ready ps;
       logs := logs ps |};;
  add_log ("Fase " +:+ phase_name phase +:+ ": " +:+ status_name status
             +:+ " - " +:+ message)
          (match status with error => Level.error | _ => Level.info end);;
  emit_status_update.

(** [pipeline_status['model_ready'] = b] *)
Definition set_model_ready (b : bool) : M unit :=
  ps ← get_status_record;
  put_status_record
    {| current_phase := current_phase ps;
       phases := phases ps;
       model_ready := b;
       logs := logs ps |}.

(** ** [get_host_data_path], [get_data_path] *)

Definition get_host_data_path : string :=
  match env_HOST_DATA_PATH R with
  | Some host_path => if truthy host_path then host_path else "/app/data"
  | None => "/app/data"
  end.

Definition get_data_path : path := ["app"; "data"].

(** [app.config['UPLOAD_FOLDER']] *)
Definition UPLOAD_FOLDER : path := ["app"; "data"; "raw"].

(** The fixed names of the files the stages exchange *)
Definition raw_file (name : string) : path := path_join get_data_path ["raw"; name].
Definition cleaned_path : path :=
  path_join get_data_path ["processed"; "OnlineRetail_cleaned.csv"].
Definition model_path : path := path_join get_data_path ["model"; "model.pkl"].

(** The command lines *)
Definition converter_cmd (host_data_path : string) : list string :=
  ["docker"; "run"; "--rm";
   "-v"; host_data_path +:+ ":/data";
   "ml-pipeline-converter"].

Definition cleaning_cmd (host_data_path filename : string) : list string :=
  ["docker"; "run"; "--rm";
   "-v"; host_data_path +:+ ":/data";
   "-e"; "DATASET_FILE=" +:+ filename;
   "ml-pipeline-cleaning"].

Definition training_cmd (host_data_path : string) : list string :=
  ["docker"; "run"; "--rm";
   "-v"; host_data_path +:+ ":/data";
   "ml-pipeline-training"].

Definition network_cmd : list string :=
  ["docker"; "network"; "ls"; "--format"; "{{.Name}}";
   "--filter"; "name=ml_pipeline_network"].

Definition inference_cmd (host_data_path network_name : string) : list string :=
  ["docker"; "run"; "-d"; "--name"; "ml_inference_service";
   "--network"; network_name;
   "-v"; host_data_path +:+ ":/data";
   "-p"; "5000:5000";
   "ml-pipeline-inference"].

Definition docker_ps_cmd : list string :=
  ["docker"; "ps"; "--filter"; "name=ml_inference_service"; "--format"; "{{.Status}}"].

Definition predict_url : string := "http://ml_inference_service:5000/predict".

(** ** [run_pipeline] *)

(** The three statements that give a file its fixed name (lines 96-98 and
    142-144): a file already at [dst] is removed, then [src] is renamed. *)
Definition replace_file (src dst : path) : M unit :=
  stale ← os_path_exists dst;
  (if stale then os_remove dst else ret tt);;
  os_rename src dst.

(** Phase 1, the branch of an Excel upload (lines 80-135).  The value is
    the name the next phase reads. *)
Definition convert_excel (host_data_path filename : string) : M string :=
  update_phase conversion running "Conversione Excel in CSV...";;
  let input_file := raw_file filename in
  found ← os_path_exists input_file;
  if negb found then
    update_phase conversion error ("File " +:+ filename +:+ " non trovato");;
    early_return
  else
    let expected_name := "OnlineRetail.xlsx" in
    let expected_path := raw_file expected_name in
    filename ←
      (if negb (String.eqb filename expected_name) then
         add_log ("Rinomino " +:+ filename +:+ " in " +:+ expected_name) Level.info;;
         try_except
           (replace_file input_file expected_path;;
            ret expected_name)
           (λ e,
              add_log ("Errore nel rinominare il file: " +:+ exn_str e) Level.error;;
              update_phase conversion error
                ("Errore nel rinominare il file: " +:+ exn_str e);;
              early_return)
       else ret filename);
    try_except
      (let cmd := converter_cmd host_data_path in
       add_log ("Esecuzione comando: " +:+ String.concat " " cmd) Level.info;;
       result ← subprocess_run cmd (Some 300%nat);
       if (returncode result =? 0)%Z then
         add_log ("Converter output: " +:+ stdout result) Level.info;;
         let csv_path := raw_file "OnlineRetail.csv" in
         created ← os_path_exists csv_path;
         if created then
           update_phase conversion completed "File Excel convertito in CSV";;
           ret "OnlineRetail.csv"
         else
           update_phase conversion error "CSV non creato dopo conversione";;
           early_return
       else
         add_log ("Converter error: " +:+ stderr result) Level.error;;
         update_phase conversion error ("Errore conversione: " +:+ stderr result);;
         early_return)
      (λ e,
         match e with
         | TimeoutExpired _ =>
             update_phase conversion error "Timeout durante la conversione";;
             early_return
         | _ =>
             update_phase conversion error
               ("Errore esecuzione converter: " +:+ exn_str e);;
             early_return
         end).

(** Phase 1, the branch of any other upload (lines 137-148) *)
Definition rename_csv (filename : string) : M string :=
  if negb (String.eqb filename "OnlineRetail.csv") then
    let old_path := raw_file filename in
    let new_path := raw_file "OnlineRetail.csv" in
    try_except
      (replace_file old_path new_path;;
       let filename := "OnlineRetail.csv" in
       add_log ("Rinominato CSV in " +:+ filename) Level.info;;
       ret filename)
      (λ e,
         add_log ("Errore nel rinominare CSV: " +:+ exn_str e) Level.error;;
         ret filename)
  else ret filename.

(** Phase 2 (lines 150-191) *)
Definition phase_cleaning (host_data_path filename : string) : M unit :=
  update_phase cleaning running "Pulizia e trasformazione dati...";;
  let csv_file := raw_file filename in
  found ← os_path_exists csv_file;
  if negb found then
    update_phase cleaning error ("File CSV " +:+ filename +:+ " non trovato");;
    early_return
  else
    os_makedirs (path_join get_data_path ["processed"]);;
    try_except
      (let cmd := cleaning_cmd host_data_path filename in
       add_log ("Esecuzione comando: " +:+ String.concat " " cmd) Level.info;;
       result ← subprocess_run cmd (Some 300%nat);
       if (returncode result =? 0)%Z then
         add_log ("Cleaning output: " +:+ stdout result) Level.info;;
         created ← os_path_exists cleaned_path;
         if created then
           update_phase cleaning completed "Dati puliti e trasformati"
         else
           update_phase cleaning error "File pulito non creato";;
           early_return
       else
         add_log ("Cleaning error: " +:+ stderr result) Level.error;;
         update_phase cleaning error ("Errore pulizia: " +:+ stderr result);;
         early_return)
      (λ e,
         match e with
         | TimeoutExpired _ =>
             update_phase cleaning error "Timeout durante la pulizia";;
             early_return
         | _ =>
             update_phase cleaning error
               ("Errore esecuzione cleaning: " +:+ exn_str e);;
             early_return
         end).

(** Phase 3 (lines 193-227) *)
Definition phase_training (host_data_path : string) : M unit :=
  update_phase training running "Addestramento modello ML...";;
  os_makedirs (path_join get_data_path ["model"]);;
  try_except
    (let cmd := training_cmd host_data_path in
     add_log ("Esecuzione comando: " +:+ String.concat " " cmd) Level.info;;
     result ← subprocess_run cmd (Some 600%nat);
     if (returncode result =? 0)%Z then
       add_log ("Training output: " +:+ stdout result) Level.info;;
       created ← os_path_exists model_path;
       if created then
         update_phase training completed "Modello addestrato con successo"
       else
         update_phase training error "Modello non creato";;
         early_return
     else
       add_log ("Training error: " +:+ stderr result) Level.error;;
       update_phase training error ("Errore training: " +:+ stderr result);;
       early_return)
    (λ e,
       match e with
       | TimeoutExpired _ =>
           update_phase training error "Timeout durante il training";;
           early_return
       | _ =>
           update_phase training error
             ("Errore esecuzione training: " +:+ exn_str e);;
           early_return
       end).

(** Stop and remove the running inference container (lines 233-234 and
    412-413); the results are not looked at. *)
Definition stop_inference_service : M unit :=
  subprocess_run ["docker"; "stop"; "ml_inference_service"] None;;
  subprocess_run ["docker"; "rm"; "ml_inference_service"] None;;
  ret tt.

(** Phase 4 (lines 229-286) *)
Definition phase_inference (host_data_path : string) : M unit :=
  update_phase inference running "Avvio servizio di inferenza...";;
  stop_inference_service;;
  try_except
    (network_result ← subprocess_run network_cmd None;
     let networks := split_lines (strip (stdout network_result)) in
     network_name ←
       (match networks with
        | first :: _ =>
            if truthy first then
              add_log ("Trovata rete Docker: " +:+ first) Level.info;;
              ret first
            else
              let network_name := "ml_pipeline_network" in
              add_log ("Nessuna rete trovata, utilizzo default: " +:+ network_name)
                      Level.warning;;
              ret network_name
        | [] =>
            let network_name := "ml_pipeline_network" in
            add_log ("Nessuna rete trovata, utilizzo default: " +:+ network_name)
                    Level.warning;;
            ret network_name
        end);
     let cmd := inference_cmd host_data_path network_name in
     add_log ("Esecuzione comando: " +:+ String.concat " " cmd) Level.info;;
     result ← subprocess_run cmd None;
     if (returncode result =? 0)%Z then
       time_sleep 5;;
       try_except
         (requests_get predict_url 10;;
          update_phase inference completed "Servizio attivo su porta 5000";;
          set_model_ready true)
         (λ e,
            match e with
            | RequestException _ =>
                check_result ← subprocess_run docker_ps_cmd None;
                if contains "Up" (stdout check_result) then
                  update_phase inference completed "Servizio in avvio su porta 5000";;
                  set_model_ready true
                else
                  update_phase inference error "Servizio non si è avviato correttamente"
            | _ => raise e
            end)
     else
       add_log ("Inference error: " +:+ stderr result) Level.error;;
       update_phase inference error ("Errore inferenza: " +:+ stderr result))
    (λ e, update_phase inference error ("Errore avvio inferenza: " +:+ exn_str e)).

(** The statements inside the outer [try] of [run_pipeline] *)
Definition run_pipeline_body (host_data_path filename : string) : M unit :=
  filename ←
    (if endswith filename ".xlsx"
     then convert_excel host_data_path filename
     else rename_csv filename);
  phase_cleaning host_data_path filename;;
  phase_training host_data_path;;
  phase_inference host_data_path.

(** [run_pipeline(filename)]: the function has no result; it ends in a
    state, having produced a trace. *)
Definition run_pipeline (filename : string) (st : State W) : State W * list Event :=
  let host_data_path := get_host_data_path in
  match run_pipeline_body host_data_path filename st with
  | (Raise e, st1, tr1) =>
      match add_log ("Errore nella pipeline: " +:+ exn_str e) Level.error st1 with
      | (_, st2, tr2) => (st2, tr1 ++ tr2)
      end
  | (_, st1, tr1) => (st1, tr1)
  end.

(** ** The HTTP handlers *)

(** An entry of [request.files] *)
Record FileStorage := {
  filename : option string;
  content : string
}.

(** The reset written out in [upload_file] (lines 306-309) *)
Definition reset_for_upload : M unit :=
  ps ← get_status_record;
  put_status_record
    {| current_phase := current_phase ps;
       phases := λ _, pending_state;
       model_ready := false;
       logs := [] |}.

(** The reset written out in [clear_data] (lines 426-430) *)
Definition reset_for_clear : M unit :=
  ps ← get_status_record;
  put_status_record
    {| current_phase := idle;
       phases := λ _, pending_state;
       model_ready := false;
       logs := [] |}.

Definition error_body (msg : string) : json := JObj [("error", JStr msg)].

(** [upload_file()].  Beside the answer, the value tells whether the
    handler started the thread that runs [run_pipeline], and on which
    name. *)
Definition upload_file (request_file : option FileStorage)
  : M (HttpResponse * option string) :=
  match request_file with
  | None => ret (jsonify_with (error_body "Nessun file selezionato") 400, None)
  | Some file =>
      if bool_decide (filename file = Some "") then
        ret (jsonify_with (error_body "Nessun file selezionato") 400, None)
      else
        match filename file with
        | Some name =>
            if endswith name ".xlsx" || endswith name ".csv" then
              reset_for_upload;;
              let filename := secure_filename R name in
              let filepath := path_join UPLOAD_FOLDER [filename] in
              os_makedirs UPLOAD_FOLDER;;
              file_save filepath (content file);;
              update_phase upload completed
                ("File " +:+ filename +:+ " caricato con successo");;
              ret (jsonify (JObj [("success", JBool true); ("filename", JStr filename)]),
                   Some filename)
            else
              ret (jsonify_with
                     (error_body "Formato file non supportato. Usa .xlsx o .csv") 400,
                   None)
        | None =>
            ret (jsonify_with
                   (error_body "Formato file non supportato. Usa .xlsx o .csv") 400,
                 None)
        end
  end.

(** An upload together with the run it starts: the handler, then the
    thread it has started. *)
Definition upload_and_run (request_file : option FileStorage) (st : State W)
  : Res HttpResponse * State W * list Event :=
  match upload_file request_file st with
  | (Val (resp, Some filename), st1, tr1) =>
      match run_pipeline filename st1 with
      | (st2, tr2) => (Val resp, st2, tr1 ++ tr2)
      end
  | (Val (resp, None), st1, tr1) => (Val resp, st1, tr1)
  | (Return, st1, tr1) => (Return, st1, tr1)
  | (Raise e, st1, tr1) => (Raise e, st1, tr1)
  end.

(** [predict()]; the argument is what [request.json] evaluates to. *)
Definition predict (request_json : exn + json) : M HttpResponse :=
  try_except
    (data ← (match request_json with inl e => raise e | inr data => ret data end);
     try_except
       (response ← requests_post predict_url data 5;
        parsed ← (match response_json R response with
                  | inl e => raise e
                  | inr j => ret j
                  end);
        ret (jsonify parsed))
       (λ e,
          match e with
          | RequestException _ =>
              add_log ("Errore chiamata inferenza: " +:+ exn_str e) Level.error;;
              ret (jsonify_with (error_body "Servizio di inferenza non disponibile") 503)
          | _ => raise e
          end))
    (λ e, ret (jsonify_with (error_body (exn_str e)) 500)).

(** The loops of [clear_data] (lines 417-423) *)
Fixpoint unlink_files (folder_path : path) (names : list string) : M unit :=
  match names with
  | [] => ret tt
  | file :: rest =>
      let file_path := path_join folder_path [file] in
      regular ← os_path_isfile file_path;
      (if regular then os_unlink file_path else ret tt);;
      unlink_files folder_path rest
  end.

Fixpoint clear_folders (data_path : path) (folders : list string) : M unit :=
  match folders with
  | [] => ret tt
  | folder :: rest =>
      let folder_path := path_join data_path [folder] in
      found ← os_path_exists folder_path;
      (if found then
         names ← os_listdir folder_path;
         unlink_files folder_path names
       else ret tt);;
      clear_folders data_path rest
  end.

(** [clear_data()] *)
Definition clear_data : M HttpResponse :=
  try_except
    (stop_inference_service;;
     let data_path := get_data_path in
     clear_folders data_path ["raw"; "processed"; "model"];;
     reset_for_clear;;
     emit_status_update;;
     ret (jsonify (JObj [("success", JBool true)])))
    (λ e, ret (jsonify_with (error_body (exn_str e)) 500)).

End Program.

Arguments M : clear implicits.

(** ** The phase machine the orchestrator implements

    What the status channel and the process table show of a run, and the
    runs the design allows: the stages in their fixed order, each one
    [running] and then [completed] or [error], a stage done only when its
    worker has exited with code 0 and its output file is there, nothing
    after the first failure. *)

(** The image a [docker run] command names: its last word *)
Definition image_of (cmd : list string) : string := List.last cmd "".

Definition stage_image (p : Phase) : option string :=
  match p with
  | conversion => Some "ml-pipeline-converter"
  | cleaning => Some "ml-pipeline-cleaning"
  | training => Some "ml-pipeline-training"
  | _ => None
  end.

Definition stage_of_image (image : string) : option Phase :=
  if String.eqb image "ml-pipeline-converter" then Some conversion
  else if String.eqb image "ml-pipeline-cleaning" then Some cleaning
  else if String.eqb image "ml-pipeline-training" then Some training
  else None.

(** The file a stage has to leave behind *)
Definition stage_artifact (p : Phase) : option path :=
  match p with
  | conversion => Some (raw_file "OnlineRetail.csv")
  | cleaning => Some cleaned_path
  | training => Some model_path
  | _ => None
  end.

(** The message of a stage whose worker exited with code 0 without
    leaving its file *)
Definition missing_output_message (p : Phase) : option string :=
  match p with
  | conversion => Some "CSV non creato dopo conversione"
  | cleaning => Some "File pulito non creato"
  | training => Some "Modello non creato"
  | _ => None
  end.

Definition exited_zero (result : exn + CompletedProcess) : bool :=
  match result with
  | inr cp => (returncode cp =? 0)%Z
  | inl _ => false
  end.

(** Of a phase: its status, and whether its message reports the missing
    output file *)
Definition says_missing (p : Phase) (v : PhaseState) : bool :=
  match missing_output_message p with
  | Some m => String.eqb (message v) m
  | None => false
  end.

Definition View := list (Status * bool).

Definition view (ps : PipelineStatus) : View :=
  map (λ p, (status (phases ps p), says_missing p (phases ps p))) all_phases.

Inductive Mark :=
| Snap (v : View) (ready : bool)                  (* a broadcast of the status *)
| Act (stage : option (Phase * bool * bool)).     (* a subprocess or a probe; for the
                                                     worker of a stage: exit code 0?
                                                     output file there afterwards? *)

Definition mark_of (e : Event) : option Mark :=
  match e with
  | EmitStatus s => Some (Snap (view s) (model_ready s))
  | Subprocess cmd _ _ result fs_after =>
      Some (Act (match stage_of_image (image_of cmd) with
                 | Some p =>
                     match stage_artifact p with
                     | Some a => Some (p, exited_zero result, exists_fs a fs_after)
                     | None => None
                     end
                 | None => None
                 end))
  | HttpGet _ => Some (Act None)
  | HttpPost _ _ => Some (Act None)
  | EmitLog _ => None
  end.

Definition skeleton (tr : list Event) : list Mark := omap mark_of tr.

(** How a block ends: the next block runs, the function returns, or an
    exception leaves the block. *)
Inductive Ending := goes_on | returns | raises.

Definition ending_of {A} (r : Res A) : Ending :=
  match r with
  | Val _ => goes_on
  | Return => returns
  | Raise _ => raises
  end.

Record Path := {
  marks : list Mark;
  final : View;
  final_ready : bool;
  ending : Ending
}.

Definition put (p : Phase) (x : Status * bool) (v : View) : View :=
  <[phase_index p := x]> v.

(** A stage that runs one worker and then looks for its file *)
Definition one_shot_paths (p : Phase) (v : View) (b : bool) : list Path :=
  let v1 := put p (running, false) v in
  let failed note := put p (error, note) v1 in
  let done := put p (completed, false) v1 in
  let worker ok present := Act (Some (p, ok, present)) in
  [ (* an exception escapes before the worker is started *)
    {| marks := [Snap v1 b]; final := v1; final_ready := b; ending := raises |};
    (* the input is missing or cannot be given its name *)
    {| marks := [Snap v1 b; Snap (failed false) b];
       final := failed false; final_ready := b; ending := returns |};
    (* the worker fails, times out or cannot be started *)
    {| marks := [Snap v1 b; worker false false; Snap (failed false) b];
       final := failed false; final_ready := b; ending := returns |};
    {| marks := [Snap v1 b; worker false true; Snap (failed false) b];
       final := failed false; final_ready := b; ending := returns |};
    (* the worker exits with code 0 and its file is not there *)
    {| marks := [Snap v1 b; worker true false; Snap (failed true) b];
       final := failed true; final_ready := b; ending := returns |};
    (* the worker exits with code 0 and its file is there *)
    {| marks := [Snap v1 b; worker true true; Snap done b];
       final := done; final_ready := b; ending := goes_on |} ].

(** The stage that replaces the inference service and probes it *)
Definition inference_paths (v : View) (b : bool) : list Path :=
  let v1 := put inference (running, false) v in
  let failed := put inference (error, false) v1 in
  let done := put inference (completed, false) v1 in
  let acts n := replicate n (Act None) in
  map (λ n, {| marks := Snap v1 b :: acts n;
               final := v1; final_ready := b; ending := raises |}) [1; 2]%nat
  ++ map (λ n, {| marks := Snap v1 b :: acts n ++ [Snap failed b];
                  final := failed; final_ready := b; ending := goes_on |})
         [3; 4; 5; 6]%nat
  ++ map (λ n, {| marks := Snap v1 b :: acts n ++ [Snap done b];
                  final := done; final_ready := true; ending := goes_on |})
         [5; 6]%nat.

(** A block that shows nothing *)
Definition silent_paths (v : View) (b : bool) : list Path :=
  [ {| marks := []; final := v; final_ready := b; ending := goes_on |} ].

(** One block after the other *)
Definition then_paths (first next : View → bool → list Path) (v : View) (b : bool)
  : list Path :=
  path1 ← first v b;
  match ending path1 with
  | goes_on =>
      path2 ← next (final path1) (final_ready path1);
      [ {| marks := marks path1 ++ marks path2;
           final := final path2;
           final_ready := final_ready path2;
           ending := ending path2 |} ]
  | _ => [path1]
  end.

(** The runs of [run_pipeline] on an Excel upload or on another one *)
Definition run_paths (excel : bool) : View → bool → list Path :=
  then_paths (if excel then one_shot_paths conversion else silent_paths)
    (then_paths (one_shot_paths cleaning)
       (then_paths (one_shot_paths training) inference_paths)).

(** The view an accepted upload leaves before it starts the run *)
Definition uploaded_view : View :=
  [(completed, false); (pending, false); (pending, false);
   (pending, false); (pending, false)].

(** ** Checks on the runs of the phase machine *)

Definition is_action (e : Event) : bool :=
  match e with
  | Subprocess _ _ _ _ _ | HttpGet _ | HttpPost _ _ => true
  | _ => false
  end.

Definition snapshots (tr : list Event) : list PipelineStatus :=
  omap (λ e, match e with EmitStatus s => Some s | _ => None end) tr.

(** [q] comes after [p] in the fixed sequence *)
Definition later (p q : Phase) : Prop := (phase_index p < phase_index q)%nat.

Definition status_in (v : View) (p : Phase) : Status :=
  match v !! phase_index p with
  | Some x => x.1
  | None => pending
  end.

Definition note_in (v : View) (p : Phase) : bool :=
  match v !! phase_index p with
  | Some x => x.2
  | None => false
  end.

Definition status_eqb (a b : Status) : bool := bool_decide (a = b).

Definition later_phases (p : Phase) : list Phase :=
  List.filter (λ q, Nat.ltb (phase_index p) (phase_index q)) all_phases.

(** In [v] every phase after [p] is pending. *)
Definition later_pending (p : Phase) (v : View) : bool :=
  forallb (λ q, status_eqb (status_in v q) pending) (later_phases p).

(** Nothing is started and every broadcast leaves the phases after [p]
    pending. *)
Definition quiet (p : Phase) (ms : list Mark) : bool :=
  forallb (λ m, match m with
                | Act _ => false
                | Snap v _ => later_pending p v
                end) ms.

(** After a broadcast that shows an error nothing is started, and the
    phases after the one in error are pending then, later and at the end. *)
Fixpoint halts_on_error (ms : list Mark) (fin : View) : bool :=
  match ms with
  | [] => true
  | Snap v _ :: rest =>
      forallb (λ p, implb (status_eqb (status_in v p) error)
                          (later_pending p v && quiet p rest && later_pending p fin))
              all_phases
      && halts_on_error rest fin
  | Act _ :: rest => halts_on_error rest fin
  end.

(** After the worker of a stage that has not left its file nothing is
    started, the stage is in error at the end with the phases after it
    pending, and a worker that exited with code 0 is told so. *)
Fixpoint gates_on_artifact (ms : list Mark) (fin : View) : bool :=
  match ms with
  | [] => true
  | Act (Some (p, zero, false)) :: rest =>
      status_eqb (status_in fin p) error && later_pending p fin && quiet p rest
      && implb zero (note_in fin p)
      && gates_on_artifact rest fin
  | _ :: rest => gates_on_artifact rest fin
  end.

(** The moves of a status *)
Inductive move : Status → Status → Prop :=
| move_start : move pending running
| move_done : move running completed
| move_fail : move running error.

(** A phase keeps its status or makes a move. *)
Definition strict (p : Phase) (a b : Status) : Prop := a = b ∨ move a b.

(** The same for the four phases of a run; the upload is never running:
    it keeps its status or goes from pending to completed at once. *)
Definition relaxed (p : Phase) (a b : Status) : Prop :=
  match p with
  | upload =>
      a ≠ running ∧ b ≠ running ∧ (a = b ∨ (a = pending ∧ b = completed))
  | _ => strict p a b
  end.

Definition relaxed_b (p : Phase) (a b : Status) : bool :=
  match p, a, b with
  | upload, running, _ | upload, _, running => false
  | upload, pending, completed => true
  | _, pending, pending | _, running, running
  | _, completed, completed | _, error, error => true
  | _, pending, running | _, running, completed | _, running, error => true
  | _, _, _ => false
  end.

Definition follows (allowed : Phase → Status → Status → Prop)
    (h : list (Phase → Status)) : Prop :=
  ∀ i f g, h !! i = Some f → h !! S i = Some g → ∀ p, allowed p (f p) (g p).

Fixpoint follows_b (vs : list View) : bool :=
  match vs with
  | v1 :: rest =>
      match rest with
      | v2 :: _ =>
          forallb (λ p, relaxed_b p (status_in v1 p) (status_in v2 p)) all_phases
      | [] => true
      end && follows_b rest
  | [] => true
  end.

Definition snaps_of (ms : list Mark) : list View :=
  omap (λ m, match m with Snap v _ => Some v | Act _ => None end) ms.

(** Every broadcast shows the upload completed. *)
Definition upload_shown_completed (ms : list Mark) : bool :=
  forallb (λ v, status_eqb (status_in v upload) completed) (snaps_of ms).

Definition statuses_of (ps : PipelineStatus) : Phase → Status :=
  λ p, status (phases ps p).

(** The statuses a run goes through: all pending after the reset of the
    upload, then what each broadcast shows. *)
Definition status_history (tr : list Event) : list (Phase → Status) :=
  (λ _, pending) :: map statuses_of (snapshots tr).

Definition reset_view : View := replicate 5 (pending, false).

(** At rest the flag tells whether the inference phase is completed. *)
Definition ready_iff_completed (path : Path) : bool :=
  bool_decide (final_ready path = status_eqb (status_in (final path) inference) completed).

(** The runs an accepted upload can start *)
Definition started_paths : list Path :=
  run_paths true uploaded_view false ++ run_paths false uploaded_view false.

(** ** Files *)

(** [after] is [before] without some regular files that lie [inside]. *)
Definition only_files_removed (inside : path → Prop) (before after : FS) : Prop :=
  ∀ p, after !! p = before !! p ∨
       (after !! p = None ∧ inside p ∧ ∃ c, before !! p = Some (File c)).

(** Directly inside one of the three data folders *)
Definition in_data_folder (p : path) : Prop :=
  ∃ folder name, folder ∈ ["raw"; "processed"; "model"] ∧
                 p = get_data_path ++ [folder; name].

(** ** Concrete surroundings, for examples *)

Module Demo.

Definition ok (out : string) : CompletedProcess :=
  {| returncode := 0; stdout := out; stderr := "" |}.

Definition failed (err : string) : CompletedProcess :=
  {| returncode := 1; stdout := ""; stderr := err |}.

(** Workers that do their job: each writes its output file and exits
    with code 0. *)
Definition working (cmd : list string) (fs0 : FS) : (exn + CompletedProcess) * FS :=
  let image := image_of cmd in
  if String.eqb image "ml-pipeline-converter" then
    (inr (ok "converted"), <[raw_file "OnlineRetail.csv" := File "a,b"]> fs0)
  else if String.eqb image "ml-pipeline-cleaning" then
    (inr (ok "cleaned"), <[cleaned_path := File "a,b"]> fs0)
  else if String.eqb image "ml-pipeline-training" then
    (inr (ok "trained"), <[model_path := File "model"]> fs0)
  else (inr (ok ""), fs0).

(** The same, but the worker of [image] behaves as [f] says. *)
Definition except_for (image : string)
    (f : FS → (exn + CompletedProcess) * FS)
    (cmd : list string) (fs0 : FS) : (exn + CompletedProcess) * FS :=
  if String.eqb (image_of cmd) image then f fs0 else working cmd fs0.

(** A runtime without a state of its own: the operations of [os] fail as
    [faults] says, the processes behave as [proc] says, the inference
    service answers iff [service_up]. *)
Definition runtime_with (faults : FsOp → option string)
    (proc : list string → FS → (exn + CompletedProcess) * FS)
    (service_up : bool) : Runtime unit :=
  {| run_process := λ cmd _ w fs0, let '(r, fs1) := proc cmd fs0 in (r, w, fs1);
     http_get := λ _ _ w,
       (if service_up then inr {| status_code := 405; text := "" |}
        else inl (RequestException "connection refused"), w);
     http_post := λ _ data _ w,
       (if service_up then inr {| status_code := 200; text := "ok" |}
        else inl (RequestException "connection refused"), w);
     response_json := λ resp, inr (JObj [("prediction", JStr (text resp))]);
     now := λ _, "12:00:00";
     sleep := λ _ w, w;
     os_fault := λ op _, faults op;
     secure_filename := λ s, s;
     env_HOST_DATA_PATH := None |}.

Definition runtime := runtime_with (λ _, None).

(** A data directory with the three folders and nothing in them *)
Definition empty_dirs : FS :=
  list_to_map [(["app"], Dir); (["app"; "data"], Dir);
               (["app"; "data"; "raw"], Dir);
               (["app"; "data"; "processed"], Dir);
               (["app"; "data"; "model"], Dir)].

Definition start (fs0 : FS) : State unit :=
  {| pipeline_status := initial_status; fs := fs0; world := tt |}.

Definition csv_upload (name : string) : option FileStorage :=
  Some {| filename := Some name; content := "x,y" |}.

(** The statuses of the five phases, in order *)
Definition statuses (ps : PipelineStatus) : list Status :=
  map (λ p, status (phases ps p)) all_phases.

(** What the subscribers of the status channel see: for each broadcast,
    the statuses and the flag. *)
Definition broadcasts (tr : list Event) : list (list Status * bool) :=
  omap (λ e, match e with
             | EmitStatus s => Some (statuses s, model_ready s)
             | _ => None
             end) tr.

Definition commands (tr : list Event) : list (list string) :=
  omap (λ e, match e with
             | Subprocess cmd _ _ _ _ => Some cmd
             | _ => None
             end) tr.

End Demo.


(** The run of an upload of [sales.csv] when every worker does its job and
    the service answers *)
Definition good_run : Res HttpResponse * State unit * list Event :=
  upload_and_run (Demo.runtime Demo.working true) (Demo.csv_upload "sales.csv")
                 (Demo.start Demo.empty_dirs).

(** The worker of the conversion stage is not among the marks. *)
Definition no_conversion_worker (ms : list Mark) : bool :=
  forallb (λ m, match m with
                | Act (Some (conversion, _, _)) => false
                | _ => true
                end) ms.

(** The cleaning worker has exited with code 0 and left its file. *)
Definition cleaning_done (m : Mark) : bool :=
  match m with
  | Act (Some (cleaning, true, true)) => true
  | _ => false
  end.

Definition done_cleaning_stays (path : Path) : bool :=
  implb (existsb cleaning_done (marks path))
        (status_eqb (status_in (final path) cleaning) completed).

(** The last clause of C7 as it is stated: whenever the cleaned file is
    there after the cleaning worker, the cleaning phase is completed. *)
Definition completed_when_artifact_present {W} (R : Runtime W)
    (fn : string) (st : State W) : Prop :=
  ∀ st' tr pre cmd t f0 result f1 post,
    run_pipeline R fn st = (st', tr) →
    tr = pre ++ Subprocess cmd t f0 result f1 :: post →
    image_of cmd = "ml-pipeline-cleaning" →
    is_Some (f1 !! cleaned_path) →
    status (phases (pipeline_status st') cleaning) = completed.

(** The last clause of C9 as it is stated: after a rename that raised,
    whenever the file is still there under its own name, the cleaning
    worker is run on that name. *)
Definition cleaning_invoked_after_failed_rename {W} (R : Runtime W)
    (fn : string) (st : State W) : Prop :=
  ∀ e st1 tr1 st' tr,
    replace_file R (raw_file fn) (raw_file "OnlineRetail.csv") st = (Raise e, st1, tr1) →
    is_Some (fs st1 !! raw_file fn) →
    run_pipeline R fn st = (st', tr) →
    ∃ pre t f0 result f1 post,
      tr = pre ++ Subprocess (cleaning_cmd (get_host_data_path R) fn) t f0 result f1
                  :: post.

(** A cleaning worker that fails and leaves the files as they are *)
Definition failing_cleaner : Runtime unit :=
  Demo.runtime
    (Demo.except_for "ml-pipeline-cleaning" (λ fs0, (inr (Demo.failed "boom"), fs0)))
    true.

(** [sales.csv] is uploaded; the cleaned file of an earlier run is there. *)
Definition stale_output : State unit :=
  Demo.start (<[raw_file "sales.csv" := File "x,y"]>
                (<[cleaned_path := File "old"]> Demo.empty_dirs)).

(** The same files after the rename *)
Definition stale_renamed : FS :=
  <[raw_file "OnlineRetail.csv" := File "x,y"]>
    (<[cleaned_path := File "old"]> Demo.empty_dirs).

(** A cleaning worker that exits with code 0 and writes nothing *)
Definition idle_cleaner : Runtime unit :=
  Demo.runtime
    (Demo.except_for "ml-pipeline-cleaning" (λ fs0, (inr (Demo.ok "done"), fs0)))
    true.

(** The run of an upload of [sales.csv] with the idle cleaning worker *)
Definition idle_run : Res HttpResponse * State unit * list Event :=
  upload_and_run idle_cleaner (Demo.csv_upload "sales.csv")
                 (Demo.start Demo.empty_dirs).

(** Files cannot be renamed and directories cannot be made. *)
Definition read_only (op : FsOp) : option string :=
  match op with
  | op_rename _ _ | op_makedirs _ => Some "Permission denied"
  | _ => None
  end.

Definition read_only_runtime : Runtime unit :=
  Demo.runtime_with read_only Demo.working true.

(** The data directory has [raw] with [sales.csv] in it and no
    [processed]. *)
Definition no_processed_dir : FS :=
  list_to_map [(["app"], Dir); (["app"; "data"], Dir);
               (["app"; "data"; "raw"], Dir);
               (raw_file "sales.csv", File "x,y")].

(** Directories cannot be made; nothing else fails. *)
Definition no_mkdir (op : FsOp) : option string :=
  match op with
  | op_makedirs _ => Some "Permission denied"
  | _ => None
  end.

(** The run of an upload of [sales.csv] when [processed] is missing and
    cannot be made *)
Definition crashed_run : Res HttpResponse * State unit * list Event :=
  upload_and_run (Demo.runtime_with no_mkdir Demo.working true)
                 (Demo.csv_upload "sales.csv") (Demo.start no_processed_dir).

(** Uploaded files cannot be written. *)
Definition disk_full (op : FsOp) : option string :=
  match op with
  | op_save _ => Some "No space left on device"
  | _ => None
  end.

(** A second upload, after [good_run], whose file cannot be saved *)
Definition failed_second_upload
  : Res (HttpResponse * option string) * State unit * list Event :=
  upload_file (Demo.runtime_with disk_full Demo.working true)
              (Demo.csv_upload "more.csv") good_run.1.2.

(** Files cannot be renamed; nothing else fails. *)
Definition no_rename (op : FsOp) : option string :=
  match op with
  | op_rename _ _ => Some "Permission denied"
  | _ => None
  end.

Definition no_rename_runtime : Runtime unit :=
  Demo.runtime_with no_rename Demo.working true.

(** The three folders, and [sales.csv] under the fixed name *)
Definition sales_renamed : FS :=
  <[raw_file "OnlineRetail.csv" := File "x,y"]> Demo.empty_dirs.

(** In [raw]: a file, and a folder with a file in it *)
Definition nested_files : State unit :=
  Demo.start (<[raw_file "a.csv" := File "1"]>
                (<[["app"; "data"; "raw"; "old"] := Dir]>
                   (<[["app"; "data"; "raw"; "old"; "b.csv"] := File "2"]>
                      Demo.empty_dirs))).

(** [run_pipeline] on [sales.csv] when the [processed] folder is missing,
    with workers that do their job *)
Definition fresh_run : State unit * list Event :=
  run_pipeline (Demo.runtime Demo.working true) "sales.csv" (Demo.start no_processed_dir).

(** The same when the rename is refused *)
Definition fresh_refused_run : State unit * list Event :=
  run_pipeline no_rename_runtime "sales.csv" (Demo.start no_processed_dir).

(** A call whose body is not JSON: [request.json] raises. *)
Definition not_json : exn + json :=
  inl (OtherException "415 Unsupported Media Type").

(** [clear_data] on [nested_files], and the state its two [docker]
    commands leave *)
Definition cleared : Res HttpResponse * State unit * list Event :=
  clear_data (Demo.runtime Demo.working true) nested_files.

Definition stopped : Res unit * State unit * list Event :=
  stop_inference_service (Demo.runtime Demo.working true) nested_files.

(** A run that an exception has left shows a phase running and none in
    error. *)
Definition crash_leaves_running (path : Path) : bool :=
  match ending path with
  | raises =>
      forallb (λ p, negb (status_eqb (status_in (final path) p) error)) all_phases
      && existsb (λ p, status_eqb (status_in (final path) p) running) all_phases
  | _ => true
  end.

(** No broadcast among the marks shows the flag on. *)
Definition never_ready (ms : list Mark) : bool :=
  forallb (λ m, match m with Snap _ b => negb b | Act _ => true end) ms.

(** ** Calls that raise *)

Definition processed_dir : path := path_join get_data_path ["processed"].

(** The call [m] on [st] raises. *)
Definition raises_in {W A : Type} (m : M W A) (st : State W) : Prop :=
  ∃ e st' tr, m st = (Raise e, st', tr).

(** The files the call [m] on [st] leaves *)
Definition files_after {W A : Type} (m : M W A) (st : State W) : FS := fs (m st).1.2.

(** [st] with the files [f] *)
Definition with_files {W : Type} (f : FS) (st : State W) : State W :=
  {| pipeline_status := pipeline_status st; fs := f; world := world st |}.

(** The inference worker cannot be reached: every request to it fails. *)
Definition unreachable {W} (R : Runtime W) : Prop :=
  ∀ data t w, ∃ msg w',
    http_post R predict_url data t w = (inl (RequestException msg), w').

(** C8 as it is stated: while the worker cannot be reached, every call is
    answered with code 503. *)
Definition unavailable_whenever_unreachable {W} (R : Runtime W) : Prop :=
  unreachable R →
  ∀ request_json st, ∃ resp st' tr,
    predict R request_json st = (Val resp, st', tr) ∧ code resp = 503%nat.

(** ** What the blocks of the program are shown to do *)

Section Contracts.

Context {W : Type}.

(** An operation of [os] shows nothing, leaves the status record and the
    world as they are, and does not return from the function. *)
Definition touches_fs_only {A} (m : M W A) : Prop :=
  ∀ st r st' tr, m st = (r, st', tr) →
    tr = [] ∧ pipeline_status st' = pipeline_status st ∧ world st' = world st ∧
    r ≠ Return.

(** What a block has shown and where it has left the status *)
Definition path_of {A} (r : Res A) (st' : State W) (tr : list Event) : Path :=
  {| marks := skeleton tr;
     final := view (pipeline_status st');
     final_ready := model_ready (pipeline_status st');
     ending := ending_of r |}.

(** Every run of the block is a run of the model. *)
Definition refines {A} (m : M W A) (model : View → bool → list Path) : Prop :=
  ∀ st r st' tr, m st = (r, st', tr) →
    path_of r st' tr
      ∈ model (view (pipeline_status st)) (model_ready (pipeline_status st)).

End Contracts.

(** ** The changes a run makes to the status record *)

(** [pipeline_status['logs'].append(e)] *)
Definition with_log (e : LogEntry) (ps : PipelineStatus) : PipelineStatus :=
  {| current_phase := current_phase ps;
     phases := phases ps;
     model_ready := model_ready ps;
     logs := logs ps ++ [e] |}.

(** The three assignments of [update_phase] and the one to
    ['current_phase'] *)
Definition with_phase (p : Phase) (v : PhaseState) (ps : PipelineStatus)
  : PipelineStatus :=
  {| current_phase := at_phase p;
     phases := set_phase p v (phases ps);
     model_ready := model_ready ps;
     logs := logs ps |}.

(** [pipeline_status['model_ready'] = True] *)
Definition with_ready (ps : PipelineStatus) : PipelineStatus :=
  {| current_phase := current_phase ps;
     phases := phases ps;
     model_ready := true;
     logs := logs ps |}.

(** The log entry [update_phase] writes *)
Definition phase_entry (p : Phase) (s : Status) (t msg : string) : LogEntry :=
  {| log_timestamp := t;
     log_message := "Fase " +:+ phase_name p +:+ ": " +:+ status_name s
                      +:+ " - " +:+ msg;
     log_level := match s with error => Level.error | _ => Level.info end |}.

(** The record after [update_phase(p, s, msg)] at time [t] *)
Definition updated (p : Phase) (s : Status) (t msg : string) (ps : PipelineStatus)
  : PipelineStatus :=
  with_log (phase_entry p s t msg)
    (with_phase p {| status := s; timestamp := Some t; message := msg |} ps).

(** [steps ps tr ps']: from [ps] to [ps'], showing [tr], by
    - starting a subprocess or sending a request,
    - adding a log entry, which is sent,
    - updating a phase other than the upload to a status other than
      pending, which is logged and broadcast as one step,
    - switching the flag on. *)
Inductive steps : PipelineStatus → list Event → PipelineStatus → Prop :=
| steps_done ps : steps ps [] ps
| steps_action ps e tr ps' :
    is_action e = true → steps ps tr ps' → steps ps (e :: tr) ps'
| steps_log ps e tr ps' :
    steps (with_log e ps) tr ps' → steps ps (EmitLog e :: tr) ps'
| steps_update ps p s t msg tr ps' :
    p ≠ upload → s ≠ pending →
    steps (updated p s t msg ps) tr ps' →
    steps ps (EmitLog (phase_entry p s t msg) :: EmitStatus (updated p s t msg ps) :: tr)
          ps'
| steps_ready ps tr ps' :
    steps (with_ready ps) tr ps' → steps ps tr ps'.

(** Every run of the block is made of such steps. *)
Definition keeps {W A} (m : M W A) : Prop :=
  ∀ st r st' tr, m st = (r, st', tr) →
    steps (pipeline_status st) tr (pipeline_status st').

(** The log entries sent, in order *)
Definition emitted_logs (tr : list Event) : list LogEntry :=
  omap (λ e, match e with EmitLog l => Some l | _ => None end) tr.

(** Whether [upload_file] takes the file: it has a name, the name is not
    empty and ends in [.xlsx] or [.csv]. *)
Definition accepted (request_file : option FileStorage) : bool :=
  match request_file with
  | Some file =>
      match filename file with
      | Some name =>
          negb (String.eqb name "") && (endswith name ".xlsx" || endswith name ".csv")
      | None => false
      end
  | None => false
  end.

(** The record after the reset of [upload_file] *)
Definition reset_record (ps : PipelineStatus) : PipelineStatus :=
  {| current_phase := current_phase ps;
     phases := λ _, pending_state;
     model_ready := false;
     logs := [] |}.

(** The message of an upload that has been saved *)
Definition uploaded_message (name : string) : string :=
  "File " +:+ name +:+ " caricato con successo".

(** A phase that is pending is as the reset left it; any other has a
    timestamp. *)
Definition tidy (ps : PipelineStatus) : Prop :=
  ∀ p, match status (phases ps p) with
       | pending => phases ps p = pending_state
       | _ => is_Some (timestamp (phases ps p))
       end.

(** Everything the block shows satisfies [P]. *)
Definition emits {W : Type} {A : Type} (P : Event → Prop) (m : M W A) : Prop :=
  ∀ st r st' tr, m st = (r, st', tr) → Forall P tr.

(** ** What a worker finds when it is started *)

Definition model_dir : path := path_join get_data_path ["model"].

(** For the worker of a stage, started by [cmd] on the files [f0] in a run
    on the upload [fn] with the host path [h]: the command is the one of
    the stage, the file the worker reads is there, and so is the folder it
    writes to. *)
Definition well_started (h fn : string) (e : Event) : Prop :=
  match e with
  | Subprocess cmd _ f0 _ _ =>
      match stage_of_image (image_of cmd) with
      | Some conversion =>
          cmd = converter_cmd h ∧ exists_fs (raw_file "OnlineRetail.xlsx") f0 = true
      | Some cleaning =>
          ∃ name,
            cmd = cleaning_cmd h name ∧
            name = (if endswith fn ".xlsx" then "OnlineRetail.csv" else name) ∧
            (name = fn ∨ name = "OnlineRetail.csv") ∧
            exists_fs (raw_file name) f0 = true ∧
            f0 !! processed_dir = Some Dir
      | Some training =>
          cmd = training_cmd h ∧
          exists_fs cleaned_path f0 = true ∧
          f0 !! model_dir = Some Dir
      | _ => True
      end
  | _ => True
  end.

(** A block that, started on files that satisfy [Pre], starts workers
    well and, when it goes on, leaves files that satisfy [Post]. *)
Definition starts_well {W : Type} {A : Type} (h fn : string) (Pre : FS → Prop) (m : M W A)
    (Post : A → FS → Prop) : Prop :=
  ∀ st r st' tr, Pre (fs st) → m st = (r, st', tr) →
    Forall (well_started h fn) tr ∧ ∀ a, r = Val a → Post a (fs st').

(** ** The status record as JSON *)

Definition level_name (l : Level.t) : string :=
  match l with
  | Level.info => "info" | Level.warning => "warning" | Level.error => "error"
  end.

Definition current_phase_name (c : CurrentPhase) : string :=
  match c with
  | idle => "idle"
  | at_phase p => phase_name p
  end.

Definition phase_json (v : PhaseState) : json :=
  JObj [("status", JStr (status_name (status v)));
        ("timestamp", match timestamp v with Some t => JStr t | None => JNull end);
        ("message", JStr (message v))].

Definition log_json (e : LogEntry) : json :=
  JObj [("timestamp", JStr (log_timestamp e));
        ("message", JStr (log_message e));
        ("level", JStr (level_name (log_level e)))].

(** [pipeline_status] as [jsonify] writes it.  An object is written as the
    list of its entries; the order of the keys carries no meaning. *)
Definition status_json (ps : PipelineStatus) : json :=
  JObj [("current_phase", JStr (current_phase_name (current_phase ps)));
        ("phases", JObj (map (λ p, (phase_name p, phase_json (phases ps p))) all_phases));
        ("model_ready", JBool (model_ready ps));
        ("logs", JArr (map log_json (logs ps)))].

(** [d[key]] and [key in d] on a JSON object, whose keys are distinct as
    those of a dictionary are *)
Fixpoint assoc (key : string) (fields : list (string * json)) : option json :=
  match fields with
  | [] => None
  | (k, v) :: rest => if String.eqb k key then Some v else assoc key rest
  end.

Definition field (key : string) (j : json) : option json :=
  match j with
  | JObj fields => assoc key fields
  | _ => None
  end.

(** ** What the libraries that read files do *)

(** [pandas], [joblib] and [json] on the content of a file.  [DF] is the
    type of the data frames, [Obj] of what [joblib.load] returns. *)
Record Readers (W DF Obj : Type) := {
  (** a fault of the system on opening a file to read it *)
  open_fault : path → W → option string;
  (** [pd.read_csv(p)] and [pd.read_csv(p, encoding=enc)] *)
  read_csv : string → option string → exn + DF;
  (** [len(df)] *)
  df_len : DF → Z;
  (** [df.columns.tolist()] *)
  df_columns : DF → list string;
  (** [df.head(n)] *)
  df_head : nat → DF → DF;
  (** [df.to_dict('records')] *)
  df_records : DF → json;
  (** [df.dtypes.astype(str).to_dict()] *)
  df_dtypes : DF → json;
  (** [df.isnull().sum().to_dict()] *)
  df_null_counts : DF → json;
  (** an exception of these calls or of writing their results as JSON *)
  stats_fault : DF → option exn;
  (** [joblib.load(p)] *)
  joblib_load : string → exn + Obj;
  (** [list(json.load(f).keys())] *)
  json_load_keys : string → exn + list string;
  (** the object as [jsonify] writes it *)
  obj_json : Obj → exn + json
}.

Arguments open_fault {W DF Obj}.
Arguments read_csv {W DF Obj}.
Arguments df_len {W DF Obj}.
Arguments df_columns {W DF Obj}.
Arguments df_head {W DF Obj}.
Arguments df_records {W DF Obj}.
Arguments df_dtypes {W DF Obj}.
Arguments df_null_counts {W DF Obj}.
Arguments stats_fault {W DF Obj}.
Arguments joblib_load {W DF Obj}.
Arguments json_load_keys {W DF Obj}.
Arguments obj_json {W DF Obj}.

Section ReadingHandlers.

Context {W DF Obj : Type} (R : Runtime W) (L : Readers W DF Obj).

Notation "x ← m ; k" := (bind m (λ x, k))
  (at level 20, m at level 100, k at level 200, only parsing, right associativity).
Notation "m ;; k" := (bind m (λ _, k))
  (at level 100, k at level 200, only parsing, right associativity).

(** The content of the file at [p], as [open(p)] and the readers of the
    libraries get it *)
Definition read_file (p : path) : M W string := λ st,
  match fs st !! p with
  | Some (File c) =>
      match open_fault L p (world st) with
      | Some msg => (Raise (OSError msg), st, [])
      | None => (Val c, st, [])
      end
  | Some Dir => (Raise (OSError "Is a directory"), st, [])
  | None => (Raise (OSError "No such file or directory"), st, [])
  end.

(** The value of a call of a library, or the exception it raises *)
Definition call {A} (result : exn + A) : M W A :=
  match result with
  | inl e => raise e
  | inr a => ret a
  end.

(** The dictionary [stats] of [dataset_preview] (lines 349-357) *)
Definition dataset_stats (df : DF) (source : string) : json :=
  JObj [("rows", JNum (df_len L df));
        ("columns", JNum (Z.of_nat (length (df_columns L df))));
        ("column_names", JArr (map JStr (df_columns L df)));
        ("source", JStr source);
        ("sample_data", df_records L (df_head L 100 df));
        ("dtypes", df_dtypes L df);
        ("null_counts", df_null_counts L df)].

(** [dataset_preview()] *)
Definition dataset_preview : M W HttpResponse :=
  try_except
    (let data_path := get_data_path in
     let cleaned_path := path_join data_path ["processed"; "OnlineRetail_cleaned.csv"] in
     let raw_path := path_join data_path ["raw"; "OnlineRetail.csv"] in
     has_cleaned ← os_path_exists cleaned_path;
     loaded ←
       (if has_cleaned then
          content ← read_file cleaned_path;
          df ← call (read_csv L content None);
          ret (Some (df, "processed"))
        else
          has_raw ← os_path_exists raw_path;
          if has_raw then
            content ← read_file raw_path;
            df ← call (read_csv L content (Some "unicode_escape"));
            ret (Some (df, "raw"))
          else ret None);
     match loaded with
     | None => ret (jsonify_with (error_body "Nessun dataset disponibile") 404)
     | Some (df, source) =>
         match stats_fault L df with
         | Some e => raise e
         | None => ret (jsonify (dataset_stats df source))
         end
     end)
    (λ e, ret (jsonify_with (error_body (exn_str e)) 500)).

(** [model_info()] *)
Definition model_info : M W HttpResponse :=
  try_except
    (let data_path := get_data_path in
     model_exists ← os_path_exists (path_join data_path ["model"; "model.pkl"]);
     scaler_exists ← os_path_exists (path_join data_path ["model"; "scaler.pkl"]);
     columns_exists ← os_path_exists (path_join data_path ["model"; "columns.pkl"]);
     country_mapping_exists ←
       os_path_exists (path_join data_path ["processed"; "country_mapping.json"]);
     stockcode_mapping_exists ←
       os_path_exists (path_join data_path ["processed"; "stockcode_mapping.json"]);
     let info := [("model_exists", JBool model_exists);
                  ("scaler_exists", JBool scaler_exists);
                  ("columns_exists", JBool columns_exists);
                  ("country_mapping_exists", JBool country_mapping_exists);
                  ("stockcode_mapping_exists", JBool stockcode_mapping_exists)] in
     features ←
       (if columns_exists then
          content ← read_file (path_join data_path ["model"; "columns.pkl"]);
          columns ← call (joblib_load L content);
          ret (Some columns)
        else ret None);
     countries ←
       (if country_mapping_exists then
          content ← read_file (path_join data_path ["processed"; "country_mapping.json"]);
          keys ← call (json_load_keys L content);
          ret [("countries", JArr (map JStr keys))]
        else ret []);
     features ←
       (match features with
        | Some columns =>
            written ← call (obj_json L columns);
            ret [("features", written)]
        | None => ret []
        end);
     ret (jsonify (JObj (info ++ features ++ countries))))
    (λ e, ret (jsonify_with (error_body (exn_str e)) 500)).

(** [get_status()] *)
Definition get_status : M W HttpResponse :=
  ps ← get_status_record;
  ret (jsonify (status_json ps)).

(** [handle_connect()]; the value is the status sent to the client that
    has connected. *)
Definition handle_connect : M W PipelineStatus := get_status_record.

(** The loop at the start of the program (lines 443-445) *)
Fixpoint make_folders (data_path : path) (folders : list string) : M W unit :=
  match folders with
  | [] => ret tt
  | folder :: rest =>
      os_makedirs R (path_join data_path [folder]);;
      make_folders data_path rest
  end.

Definition ensure_data_folders : M W unit :=
  make_folders get_data_path ["raw"; "processed"; "model"].

End ReadingHandlers.

Definition raw_csv_path : path := raw_file "OnlineRetail.csv".

(** The five files [model_info] looks for, with the keys it reports them
    under *)
Definition reported_files : list (string * path) :=
  [("model_exists", path_join get_data_path ["model"; "model.pkl"]);
   ("scaler_exists", path_join get_data_path ["model"; "scaler.pkl"]);
   ("columns_exists", path_join get_data_path ["model"; "columns.pkl"]);
   ("country_mapping_exists",
    path_join get_data_path ["processed"; "country_mapping.json"]);
   ("stockcode_mapping_exists",
    path_join get_data_path ["processed"; "stockcode_mapping.json"])].

(** Every file and folder below the top level lies in a folder. *)
Definition tree_shaped (f : FS) : bool :=
  forallb (λ p : path, match removelast p with
                       | [] => true
                       | d => match f !! d with
                              | Some Dir => true
                              | _ => false
                              end
                       end)
          (map fst (map_to_list f)).

(** One path component, as [secure_filename] returns when it does not
    return the empty string *)
Definition is_component (name : string) : bool :=
  negb (String.eqb name "") && negb (contains "/" name)
  && negb (String.eqb name ".") && negb (String.eqb name "..").

(** The timeout the program gives a [docker] command: the workers of the
    conversion and of the cleaning get 300 seconds, the one of the training
    600, every other command none. *)
Definition timeout_of (cmd : list string) : option nat :=
  match stage_of_image (image_of cmd) with
  | Some conversion | Some cleaning => Some 300%nat
  | Some training => Some 600%nat
  | _ => None
  end.

(** What the program may start: [docker], with the timeout of the
    command; and the one request it sends while it runs the pipeline. *)
Definition allowed_action (e : Event) : Prop :=
  match e with
  | Subprocess cmd t _ _ _ => head cmd = Some "docker" ∧ t = timeout_of cmd
  | HttpGet url => url = predict_url
  | HttpPost _ _ => False
  | _ => True
  end.

(** Among the marks, the worker of a stage is followed by other workers
    only if it has exited with code 0 and left its file, and only by
    workers of later stages. *)
Fixpoint in_order (ms : list Mark) : bool :=
  match ms with
  | [] => true
  | Act (Some (p, zero, present)) :: rest =>
      forallb (λ m, match m with
                    | Act (Some (q, _, _)) =>
                        zero && present && Nat.ltb (phase_index p) (phase_index q)
                    | _ => true
                    end) rest
      && in_order rest
  | _ :: rest => in_order rest
  end.

(** Nothing but white space *)
Fixpoint blank (s : string) : bool :=
  match s with
  | EmptyString => true
  | String c rest => is_space c && blank rest
  end.

(** ** The test script ([test.py]) *)

(** What [requests] gives the script for a call that is answered: the
    status code, and what [response.json()] evaluates to *)
Record Reply := {
  reply_code : nat;
  reply_json : exn + json
}.

(** [status['phases'].values()]; the keys of an object are distinct *)
Definition phases_values (status : json) : exn + list json :=
  match status with
  | JObj fields =>
      match assoc "phases" fields with
      | Some (JObj entries) => inr (map snd entries)
      | Some _ => inl (OtherException "object has no attribute 'values'")
      | None => inl (OtherException "'phases'")
      end
  | _ => inl (OtherException "indices must be integers")
  end.

(** [phase['status'] == word] *)
Definition status_is (word : string) (phase : json) : exn + bool :=
  match phase with
  | JObj fields =>
      match assoc "status" fields with
      | Some (JStr s) => inr (String.eqb s word)
      | Some _ => inr false
      | None => inl (OtherException "'status'")
      end
  | _ => inl (OtherException "indices must be integers")
  end.

(** [all(test(x) for x in l)] and [any(test(x) for x in l)]: they stop at
    the first value that decides. *)
Fixpoint py_all (test : json → exn + bool) (l : list json) : exn + bool :=
  match l with
  | [] => inr true
  | x :: rest =>
      match test x with
      | inl e => inl e
      | inr true => py_all test rest
      | inr false => inr false
      end
  end.

Fixpoint py_any (test : json → exn + bool) (l : list json) : exn + bool :=
  match l with
  | [] => inr false
  | x :: rest =>
      match test x with
      | inl e => inl e
      | inr true => inr true
      | inr false => py_any test rest
      end
  end.

(** What [wait_for_pipeline] makes of one status: the value it returns,
    or nothing when it goes on waiting.  An exception makes it return
    [False]. *)
Definition check_status (status : json) : option bool :=
  match phases_values status with
  | inl _ => Some false
  | inr values =>
      match py_all (status_is "completed") values with
      | inl _ => Some false
      | inr all_complete =>
          match py_any (status_is "error") values with
          | inl _ => Some false
          | inr has_error =>
              if has_error then Some false
              else if all_complete then Some true
              else None
          end
      end
  end.

(** One turn of the loop of [wait_for_pipeline]: whether the time is not
    up yet, and how the request for the status ends *)
Record Poll := {
  in_time : bool;
  answer : exn + Reply
}.

(** [wait_for_pipeline()], on what the turns of its loop meet; no value
    when they run out. *)
Fixpoint wait_for_pipeline (polls : list Poll) : option bool :=
  match polls with
  | [] => None
  | poll :: rest =>
      if in_time poll then
        match answer poll with
        | inl _ => Some false
        | inr reply =>
            if Nat.eqb (reply_code reply) 200 then
              match reply_json reply with
              | inl _ => Some false
              | inr status =>
                  match check_status status with
                  | Some verdict => Some verdict
                  | None => wait_for_pipeline rest
                  end
              end
            else wait_for_pipeline rest
        end
      else Some false
  end.

(** The conversion is pending in every broadcast and at the end. *)
Definition conversion_stays_pending (path : Path) : bool :=
  forallb (λ v, status_eqb (status_in v conversion) pending)
          (final path :: snaps_of (marks path)).

(** ** Workers that fail *)

(** What a stage says of its worker when the worker has run out of time,
    could not be run, or has exited with another code than 0 (lines
    126-135, 182-191 and 218-227) *)
Definition failure_message (p : Phase) (result : exn + CompletedProcess)
  : option string :=
  match p, result with
  | conversion, inl (TimeoutExpired _) => Some "Timeout durante la conversione"
  | conversion, inl e => Some ("Errore esecuzione converter: " +:+ exn_str e)
  | conversion, inr cp =>
      if (returncode cp =? 0)%Z then None
      else Some ("Errore conversione: " +:+ stderr cp)
  | cleaning, inl (TimeoutExpired _) => Some "Timeout durante la pulizia"
  | cleaning, inl e => Some ("Errore esecuzione cleaning: " +:+ exn_str e)
  | cleaning, inr cp =>
      if (returncode cp =? 0)%Z then None
      else Some ("Errore pulizia: " +:+ stderr cp)
  | training, inl (TimeoutExpired _) => Some "Timeout durante il training"
  | training, inl e => Some ("Errore esecuzione training: " +:+ exn_str e)
  | training, inr cp =>
      if (returncode cp =? 0)%Z then None
      else Some ("Errore training: " +:+ stderr cp)
  | _, _ => None
  end.

(** A block in which a worker that fails ends the function, with the
    phase in error, the message of the failure, and that status
    broadcast last. *)
Definition reports {W A : Type} (m : M W A) : Prop :=
  ∀ st r st' tr, m st = (r, st', tr) →
    ∀ cmd t f0 result f1 p msg,
      Subprocess cmd t f0 result f1 ∈ tr →
      stage_of_image (image_of cmd) = Some p →
      failure_message p result = Some msg →
      r = Return ∧
      (∃ ts, phases (pipeline_status st') p
             = {| status := error; timestamp := Some ts; message := msg |}) ∧
      last (snapshots tr) = Some (pipeline_status st').

(** No worker of a stage is among the events. *)
Definition no_stage_worker (e : Event) : Prop :=
  match e with
  | Subprocess cmd _ _ _ _ => stage_of_image (image_of cmd) = None
  | _ => True
  end.

(** A turn of the loop that is in time and is answered with code 200 and
    the status record [ps], as [get_status] writes it *)
Definition answered_with (ps : PipelineStatus) : Poll :=
  {| in_time := true;
     answer := inr {| reply_code := 200; reply_json := inr (status_json ps) |} |}.

(** ** More surroundings, for examples *)

(** Readers for the examples: a data frame is the list of the lines of the
    file, the first of them the header. *)
Definition demo_readers : Readers unit (list string) json :=
  {| open_fault := λ _ _, None;
     read_csv := λ content _,
       if String.eqb content "" then inl (OtherException "No columns to parse from file")
       else inr (split_lines content);
     df_len := λ df, Z.of_nat (length (tail df));
     df_columns := λ df, take 1 df;
     df_head := λ n df, take (S n) df;
     df_records := λ df, JArr (map JStr (tail df));
     df_dtypes := λ _, JObj [];
     df_null_counts := λ _, JObj [];
     stats_fault := λ _, None;
     joblib_load := λ content, inr (JStr content);
     json_load_keys := λ content, inr [content];
     obj_json := inr |}.

(** The cleaned file is there; in the first state [OnlineRetail.csv] is
    there too. *)
Definition cleaned_and_raw : State unit :=
  Demo.start (<[cleaned_path := File "a,b"]>
                (<[raw_file "OnlineRetail.csv" := File "x,y"]> Demo.empty_dirs)).

Definition cleaned_only : State unit :=
  Demo.start (<[cleaned_path := File "a,b"]> Demo.empty_dirs).

(** [upload_file] on [sales.csv] *)
Definition saved_upload : Res (HttpResponse * option string) * State unit * list Event :=
  upload_file (Demo.runtime Demo.working true) (Demo.csv_upload "sales.csv")
              (Demo.start Demo.empty_dirs).

(** What [good_run] broadcasts first *)
Definition first_broadcast : PipelineStatus :=
  default initial_status (head (snapshots good_run.2)).

(** The statements of [run_pipeline] on [sales.csv] when [processed] is
    missing and cannot be made, after the upload of [crashed_run] *)
Definition crashed_body : Res unit * State unit * list Event :=
  run_pipeline_body (Demo.runtime_with no_mkdir Demo.working true) "/app/data" "sales.csv"
    (upload_file (Demo.runtime_with no_mkdir Demo.working true)
                 (Demo.csv_upload "sales.csv") (Demo.start no_processed_dir)).1.2.

(** One poll in time, answered with the status [good_run] ends in *)
Definition poll_after_good_run : list Poll :=
  [ {| in_time := true;
       answer := inr {| reply_code := 200;
                        reply_json := inr (status_json (pipeline_status good_run.1.2)) |} |} ].

(** The three folders, and [book.xlsx] uploaded *)
Definition excel_uploaded : State unit :=
  Demo.start (<[raw_file "book.xlsx" := File "x"]> Demo.empty_dirs).

(** [run_pipeline] on a name under which nothing has been uploaded; a
    stale [OnlineRetail.csv] is in [raw]. *)
Definition ghost_run : State unit * list Event :=
  run_pipeline (Demo.runtime Demo.working true) "ghost.csv" (Demo.start sales_renamed).

(** * Properties *)

(** ** Running the model by inversion *)

(** Case analysis on the innermost discriminee of a hypothesis *)
Ltac inner_match H :=
  match type of H with
  | context [match ?x with _ => _ end] =>
      lazymatch x with
      | context [match _ with _ => _ end] => fail
      | _ => destruct x eqn:?
      end
  end.

(** Unfold the basic operations, those of [os] included *)
Ltac unfold_all_ops H :=
  cbv beta iota zeta delta
      [bind ret early_return raise try_except get_status_record put_status_record
       emit os_path_exists os_path_isfile put_fs with_fault remove_fs os_remove
       os_unlink os_rename os_makedirs os_listdir file_save
       subprocess_run requests_get requests_post
       time_sleep strftime_now emit_status_update add_log update_phase set_model_ready
       pipeline_status fs world] in H;
  cbn [app negb] in H.

(** Unfold the basic operations, leaving those that change files folded *)
Ltac unfold_ops H :=
  cbv beta iota zeta delta
      [bind ret early_return raise try_except get_status_record put_status_record
       emit os_path_exists os_path_isfile put_fs
       subprocess_run requests_get requests_post
       time_sleep strftime_now emit_status_update add_log update_phase set_model_ready
       pipeline_status fs world] in H;
  cbn [app negb] in H.

Section Inversion.

Context {W : Type} (R : Runtime W).

Lemma bind_inv {A B} (m : M W A) (k : A → M W B) st r st' tr :
  bind m k st = (r, st', tr) →
  ∃ r1 st1 tr1, m st = (r1, st1, tr1) ∧
    match r1 with
    | Val a => ∃ tr2, k a st1 = (r, st', tr2) ∧ tr = tr1 ++ tr2
    | Return => (Return, st1, tr1) = (r, st', tr)
    | Raise e => (Raise e, st1, tr1) = (r, st', tr)
    end.
Proof.
  unfold bind. destruct (m st) as [[r1 st1] tr1]. intros H.
  exists r1, st1, tr1. split; [done|].
  destruct r1; [|done..].
  destruct (k a st1) as [[r2 st2] tr2]. injection H as <- <- <-. eauto.
Qed.

Lemma try_except_inv {A} (m : M W A) (h : exn → M W A) st r st' tr :
  try_except m h st = (r, st', tr) →
  ∃ r1 st1 tr1, m st = (r1, st1, tr1) ∧
    match r1 with
    | Raise e => ∃ tr2, h e st1 = (r, st', tr2) ∧ tr = tr1 ++ tr2
    | Val a => (Val a, st1, tr1) = (r, st', tr)
    | Return => (Return, st1, tr1) = (r, st', tr)
    end.
Proof.
  unfold try_except. destruct (m st) as [[r1 st1] tr1]. intros H.
  exists r1, st1, tr1. split; [done|].
  destruct r1; [done..|].
  destruct (h e st1) as [[r2 st2] tr2]. injection H as <- <- <-. eauto.
Qed.

Ltac fs_only :=
  let H := fresh "H" in
  intros [ps0 fs0 w0] r st' tr H; unfold replace_file in H; unfold_all_ops H;
  repeat (inner_match H; unfold_all_ops H); injection H as <- <- <-; cbn; done.

Lemma os_makedirs_fs_only p : touches_fs_only (os_makedirs R p).
Proof. fs_only. Qed.

Lemma replace_file_fs_only a b : touches_fs_only (replace_file R a b).
Proof. fs_only. Qed.

Lemma file_save_fs_only p c : touches_fs_only (file_save R p c).
Proof. fs_only. Qed.

End Inversion.

Ltac fs_call H lem :=
  let E1 := fresh "E" in let E2 := fresh "E" in let E3 := fresh "E" in
  apply lem in H as (-> & E1 & E2 & E3);
  lazymatch type of E1 with
  | pipeline_status ?s1 = _ =>
      destruct s1 as [? ? ?]; cbn [pipeline_status world] in E1, E2; subst
  end.

(** Run a block on a state, one operation at a time: [H] says what the
    block yields; every way through the block becomes a goal in which the
    result, the final state and the trace are known.  [leaf] runs one
    operation. *)
Ltac exec_core leaf H :=
  cbv beta zeta in H;
  lazymatch type of H with
  | (_, _, _) = (_, _, _) => injection H as <- <- <-
  | bind ?m ?k ?st = _ =>
      let r1 := fresh "r" in let st1 := fresh "st" in let tr1 := fresh "tr" in
      let H1 := fresh "H" in
      apply bind_inv in H as (r1 & st1 & tr1 & H1 & H);
      exec_core leaf H1; after_core leaf H
  | try_except ?m ?k ?st = _ =>
      let r1 := fresh "r" in let st1 := fresh "st" in let tr1 := fresh "tr" in
      let H1 := fresh "H" in
      apply try_except_inv in H as (r1 & st1 & tr1 & H1 & H);
      exec_core leaf H1; after_core leaf H
  | (match ?x with _ => _ end) _ = _ => destruct x eqn:?; exec_core leaf H
  | stop_inference_service _ _ = _ =>
      unfold stop_inference_service in H; exec_core leaf H
  | _ => leaf H
  end
with after_core leaf H :=
  cbv beta iota in H;
  lazymatch type of H with
  | ∃ _, _ =>
      let tr2 := fresh "tr" in
      destruct H as (tr2 & H & ->); exec_core leaf H
  | _ => exec_core leaf H
  end.

(** One operation; of those that change files only the frame is kept. *)
Ltac framed_leaf H :=
  lazymatch type of H with
  | os_makedirs _ _ _ = (?r, _, _) =>
      fs_call H os_makedirs_fs_only; destruct r; [ | done | ]
  | replace_file _ _ _ _ = (?r, _, _) =>
      fs_call H replace_file_fs_only; destruct r; [ | done | ]
  | file_save _ _ _ _ = (?r, _, _) =>
      fs_call H file_save_fs_only; destruct r; [ | done | ]
  | _ => unfold_ops H; repeat (inner_match H; unfold_ops H); injection H as <- <- <-
  end.

(** One operation, run on the files as they are *)
Ltac precise_leaf H :=
  lazymatch type of H with
  | replace_file _ _ _ _ = _ => unfold replace_file in H; exec_core precise_leaf H
  | _ =>
      unfold_all_ops H; repeat (inner_match H; unfold_all_ops H);
      injection H as <- <- <-
  end.

Ltac exec H := exec_core framed_leaf H.
Ltac exec_precisely H := exec_core precise_leaf H.

(** ** The orchestrator follows the phase machine *)

Section Refinement.

Context {W : Type} (R : Runtime W).

Ltac find_path :=
  unfold path_of;
  cbn [pipeline_status skeleton omap list_omap mark_of app exited_zero ending_of
       stage_of_image image_of List.last converter_cmd cleaning_cmd training_cmd
       network_cmd inference_cmd docker_ps_cmd
       String.eqb Ascii.eqb Bool.eqb andb stage_artifact];
  repeat match goal with
         | H : (_ =? _)%Z = _ |- _ => rewrite ?H; clear H
         | H : exists_fs _ _ = _ |- _ => rewrite ?H; clear H
         end;
  repeat match goal with
         | |- context [exists_fs ?p ?f] => destruct (exists_fs p f)
         end;
  vm_compute;
  solve [repeat first [apply list_elem_of_here | apply list_elem_of_further]].

Lemma convert_excel_refines h fn :
  refines (convert_excel R h fn) (one_shot_paths conversion).
Proof.
  intros [ps0 fs0 w0] r st' tr H. unfold convert_excel in H.
  exec H; find_path.
Qed.

Lemma rename_csv_refines fn : refines (rename_csv R fn) silent_paths.
Proof.
  intros [ps0 fs0 w0] r st' tr H. unfold rename_csv in H.
  exec H; find_path.
Qed.

Lemma phase_cleaning_refines h fn :
  refines (phase_cleaning R h fn) (one_shot_paths cleaning).
Proof.
  intros [ps0 fs0 w0] r st' tr H. unfold phase_cleaning in H.
  exec H; find_path.
Qed.

Lemma phase_training_refines h :
  refines (phase_training R h) (one_shot_paths training).
Proof.
  intros [ps0 fs0 w0] r st' tr H. unfold phase_training in H.
  exec H; find_path.
Qed.

Lemma phase_inference_refines h : refines (phase_inference R h) inference_paths.
Proof.
  intros [ps0 fs0 w0] r st' tr H. unfold phase_inference in H.
  exec H; find_path.
Qed.

Lemma skeleton_app tr1 tr2 : skeleton (tr1 ++ tr2) = skeleton tr1 ++ skeleton tr2.
Proof. apply omap_app. Qed.

Lemma bind_refines {A B} (m : M W A) (k : A → M W B) model1 model2 :
  refines m model1 → (∀ a, refines (k a) model2) →
  refines (bind m k) (then_paths model1 model2).
Proof.
  intros Hm Hk st r st' tr H.
  apply bind_inv in H as (r1 & st1 & tr1 & H1 & H).
  apply Hm in H1. unfold then_paths.
  apply list_elem_of_bind. exists (path_of r1 st1 tr1). split; [|done].
  destruct r1; cbn.
  - destruct H as (tr2 & H2 & ->). apply Hk in H2.
    apply list_elem_of_bind. exists (path_of r st' tr2). split; [|exact H2].
    apply list_elem_of_singleton. unfold path_of; cbn. by rewrite skeleton_app.
  - injection H as <- <- <-. apply list_elem_of_here.
  - injection H as <- <- <-. apply list_elem_of_here.
Qed.

Lemma run_pipeline_body_refines h fn :
  refines (run_pipeline_body R h fn) (run_paths (endswith fn ".xlsx")).
Proof.
  unfold run_pipeline_body, run_paths.
  apply bind_refines.
  { destruct (endswith fn ".xlsx");
      [apply convert_excel_refines | apply rename_csv_refines]. }
  intros fn'. apply bind_refines; [apply phase_cleaning_refines|].
  intros _. apply bind_refines; [apply phase_training_refines|].
  intros _. apply phase_inference_refines.
Qed.

(** Every run of [run_pipeline] is a run of the phase machine. *)
Lemma run_pipeline_refines fn st st' tr :
  run_pipeline R fn st = (st', tr) →
  ∃ path,
    path ∈ run_paths (endswith fn ".xlsx")
             (view (pipeline_status st)) (model_ready (pipeline_status st)) ∧
    skeleton tr = marks path ∧
    view (pipeline_status st') = final path ∧
    model_ready (pipeline_status st') = final_ready path.
Proof.
  unfold run_pipeline.
  destruct (run_pipeline_body R (get_host_data_path R) fn st) as [[r st1] tr1] eqn:E.
  apply run_pipeline_body_refines in E.
  destruct r.
  1,2: intros [= <- <-]; eexists; split; [exact E|]; done.
  destruct (add_log R _ _ st1) as [[r2 st2] tr2] eqn:E2.
  intros [= <- <-]. eexists; split; [exact E|].
  destruct st1 as [ps1 fs1 w1]. unfold_ops E2. injection E2 as <- <- <-.
  rewrite skeleton_app. cbn. by rewrite app_nil_r.
Qed.

(** What an upload shows: nothing, when no run is started; otherwise its
    own broadcast, after which the run starts from the uploaded view. *)
Lemma upload_file_cases file st r st' tr :
  upload_file R file st = (r, st', tr) →
  match r with
  | Val (resp, Some fn) =>
      skeleton tr = [Snap uploaded_view false] ∧
      view (pipeline_status st') = uploaded_view ∧
      model_ready (pipeline_status st') = false
  | Val (resp, None) => tr = [] ∧ st' = st
  | Return => False
  | Raise e => tr = []
  end.
Proof.
  intros H. destruct st as [ps0 fs0 w0]. unfold upload_file, reset_for_upload in H.
  exec H; try done.
Qed.

Lemma upload_and_run_cases file st res st' tr :
  upload_and_run R file st = (res, st', tr) →
  skeleton tr = [] ∨
  ∃ path, path ∈ started_paths ∧
    skeleton tr = Snap uploaded_view false :: marks path ∧
    view (pipeline_status st') = final path ∧
    model_ready (pipeline_status st') = final_ready path.
Proof.
  unfold upload_and_run.
  destruct (upload_file R file st) as [[r st1] tr1] eqn:E.
  apply upload_file_cases in E.
  destruct r as [[resp [fn|]]| |e].
  - destruct E as (Hsk & Hv & Hb).
    destruct (run_pipeline R fn st1) as [st2 tr2] eqn:E2.
    apply run_pipeline_refines in E2 as (path & Hin & Hsk2 & Hv2 & Hb2).
    rewrite Hv, Hb in Hin. intros [= <- <- <-]. right. exists path.
    split; [|by rewrite skeleton_app, Hsk, Hsk2].
    unfold started_paths. apply elem_of_app.
    destruct (endswith fn ".xlsx"); auto.
  - destruct E as [-> ->]. intros [= <- <- <-]. by left.
  - done.
  - subst. intros [= <- <- <-]. by left.
Qed.

End Refinement.

(** ** The checks mean what they say *)

Lemma view_status ps p : status_in (view ps) p = status (phases ps p).
Proof. by destruct p. Qed.

Lemma view_note ps p : note_in (view ps) p = says_missing p (phases ps p).
Proof. by destruct p. Qed.

Lemma in_all_phases p : In p all_phases.
Proof. destruct p; cbn; tauto. Qed.

Lemma later_pending_sound p v :
  later_pending p v = true → ∀ q, later p q → status_in v q = pending.
Proof.
  unfold later_pending, later_phases. rewrite forallb_forall.
  intros H q Hq. specialize (H q).
  rewrite filter_In in H. unfold status_eqb in H.
  rewrite bool_decide_eq_true in H. apply H. split.
  - apply in_all_phases.
  - by apply Nat.ltb_lt.
Qed.

Lemma quiet_sound p tr :
  quiet p (skeleton tr) = true →
  ∀ e, e ∈ tr →
    is_action e = false ∧
    ∀ s q, e = EmitStatus s → later p q → status (phases s q) = pending.
Proof.
  induction tr as [|e0 tr IH]; intros H e He; [by apply elem_of_nil in He|].
  assert (quiet p (skeleton tr) = true ∧
          (is_action e0 = false ∧
           ∀ s q, e0 = EmitStatus s → later p q → status (phases s q) = pending))
    as [Htl Hhd].
  { destruct e0; cbn [skeleton omap list_omap mark_of quiet forallb] in H;
      try apply andb_prop in H as [H1 H2]; try done.
    split; [done|]. split; [done|]. intros s' q [= <-] Hq.
    rewrite <- view_status. by eapply later_pending_sound. }
  apply elem_of_cons in He as [->|He]; [done|]. by apply IH.
Qed.

Lemma halts_on_error_sound ms fin :
  halts_on_error ms fin = true →
  ∀ m1 v b m2 p, ms = m1 ++ Snap v b :: m2 → status_in v p = error →
    later_pending p v = true ∧ quiet p m2 = true ∧ later_pending p fin = true.
Proof.
  intros H m1. revert ms H.
  induction m1 as [|m m1 IH]; intros ms H v b m2 p -> Hp.
  - cbn [app halts_on_error] in H. apply andb_prop in H as [H _].
    rewrite forallb_forall in H. specialize (H p).
    rewrite Hp in H. cbn [status_eqb implb] in H.
    pose proof (in_all_phases p) as Hin.
    apply H in Hin. by repeat apply andb_prop in Hin as [Hin ?].
  - eapply (IH (m1 ++ Snap v b :: m2)); [|done..].
    destruct m; cbn [app halts_on_error] in H;
      [by apply andb_prop in H as [_ H]|done].
Qed.

Lemma gates_on_artifact_sound ms fin :
  gates_on_artifact ms fin = true →
  ∀ m1 p zero m2, ms = m1 ++ Act (Some (p, zero, false)) :: m2 →
    status_in fin p = error ∧ later_pending p fin = true ∧ quiet p m2 = true ∧
    (zero = true → note_in fin p = true).
Proof.
  intros H m1. revert ms H.
  induction m1 as [|m m1 IH]; intros ms H p zero m2 ->.
  - cbn [app gates_on_artifact] in H. repeat apply andb_prop in H as [H ?].
    unfold status_eqb in H. apply bool_decide_eq_true_1 in H.
    repeat split; try done. intros ->. done.
  - eapply (IH (m1 ++ Act _ :: m2)); [|done].
    destruct m as [|[[[? ?] []]|]]; cbn [app gates_on_artifact] in H; try done.
    by repeat apply andb_prop in H as [H ?].
Qed.

Lemma relaxed_b_sound p a b : relaxed_b p a b = true → relaxed p a b.
Proof.
  unfold relaxed, strict.
  destruct p, a, b; cbn; intros H; try done;
    try (left; reflexivity); try (right; constructor).
  all: repeat split; try done; auto.
Qed.

Lemma follows_b_sound vs hs :
  Forall2 (λ (h : Phase → Status) v, ∀ p, status_in v p = h p) hs vs →
  follows_b vs = true → follows relaxed hs.
Proof.
  induction 1 as [|h v hs vs Hhv Hrest IH]; intros Hb i f g Hf Hg p.
  { done. }
  cbn [follows_b] in Hb. apply andb_prop in Hb as [Hstep Htl].
  destruct i as [|i].
  - injection Hf as <-. destruct Hrest as [|h2 v2 hs2 vs2 Hhv2 _]; [done|].
    injection Hg as <-. rewrite forallb_forall in Hstep.
    rewrite <- Hhv, <- Hhv2. apply relaxed_b_sound, Hstep, in_all_phases.
  - exact (IH Htl i f g Hf Hg p).
Qed.

Lemma snaps_of_skeleton tr : snaps_of (skeleton tr) = map view (snapshots tr).
Proof.
  induction tr as [|e tr IH]; [done|].
  destruct e; cbn [skeleton snapshots snaps_of omap list_omap mark_of map];
    try exact IH. f_equal. exact IH.
Qed.

Lemma skeleton_at_snapshot tr1 s tr2 :
  skeleton (tr1 ++ EmitStatus s :: tr2)
  = skeleton tr1 ++ Snap (view s) (model_ready s) :: skeleton tr2.
Proof. by rewrite skeleton_app. Qed.

(** ** The runs of the phase machine pass the checks *)

Lemma started_paths_halt :
  forallb (λ p, halts_on_error (Snap uploaded_view false :: marks p) (final p))
          started_paths = true.
Proof. by vm_compute. Qed.

Lemma started_paths_gate :
  forallb (λ p, gates_on_artifact (Snap uploaded_view false :: marks p) (final p))
          started_paths = true.
Proof. by vm_compute. Qed.

Lemma started_paths_follow :
  forallb (λ p, follows_b (reset_view :: snaps_of (Snap uploaded_view false :: marks p)))
          started_paths = true.
Proof. by vm_compute. Qed.

Lemma started_paths_show_upload :
  forallb (λ p, upload_shown_completed (Snap uploaded_view false :: marks p))
          started_paths = true.
Proof. by vm_compute. Qed.

Lemma snapshot_is_shown s tr : EmitStatus s ∈ tr → s ∈ snapshots tr.
Proof.
  intros H. unfold snapshots. apply list_elem_of_omap. by exists (EmitStatus s).
Qed.

(** ** What every run does *)

Section Runs.

Context {W : Type} (R : Runtime W).

(** C1.  In every run an upload starts, once a broadcast shows a phase in
    error, nothing more is started (no subprocess, no probe), and the
    phases after the one in error are pending in that broadcast, in every
    later one and in the state the run ends in. *)
Theorem error_halts_the_run file st res st' tr :
  upload_and_run R file st = (res, st', tr) →
  ∀ tr1 s tr2 p,
    tr = tr1 ++ EmitStatus s :: tr2 →
    status (phases s p) = error →
    (∀ e, e ∈ tr2 → is_action e = false) ∧
    (∀ q, later p q → status (phases s q) = pending) ∧
    (∀ s' q, EmitStatus s' ∈ tr2 → later p q → status (phases s' q) = pending) ∧
    (∀ q, later p q → status (phases (pipeline_status st') q) = pending).
Proof.
  intros Hrun tr1 s tr2 p -> Herr.
  apply upload_and_run_cases in Hrun as [Hnil|(path & Hin & Hsk & Hv & _)].
  { rewrite skeleton_at_snapshot in Hnil. by destruct (skeleton tr1). }
  pose proof started_paths_halt as Hall. rewrite forallb_forall in Hall.
  apply list_elem_of_In, Hall in Hin.
  rewrite skeleton_at_snapshot in Hsk.
  rewrite <- view_status in Herr.
  destruct (halts_on_error_sound _ _ Hin _ _ _ _ _ (eq_sym Hsk) Herr)
    as (Hs & Hq & Hf).
  repeat split.
  - intros e He. by apply (quiet_sound _ _ Hq).
  - intros q Hq'. rewrite <- view_status. by eapply later_pending_sound.
  - intros s' q He Hq'. by eapply (quiet_sound _ _ Hq).
  - intros q Hq'. rewrite <- view_status, Hv. by eapply later_pending_sound.
Qed.

(** C3.  In every run an upload starts: when the worker of a stage
    (conversion, cleaning, training) has been run and the file the stage
    has to leave is not there afterwards, the stage ends in error whatever
    the exit code, the phases after it stay pending and nothing more is
    started; when the exit code was 0 the message is the one that reports
    the missing output.  For the cleaning worker: exit code 0 and no
    [OnlineRetail_cleaned.csv] give the cleaning phase in error with
    "File pulito non creato" and the training phase pending. *)
Theorem missing_artifact_fails_stage file st res st' tr :
  upload_and_run R file st = (res, st', tr) →
  ∀ tr1 cmd t fs0 result fs1 tr2 p a,
    tr = tr1 ++ Subprocess cmd t fs0 result fs1 :: tr2 →
    stage_of_image (image_of cmd) = Some p →
    stage_artifact p = Some a →
    fs1 !! a = None →
    status (phases (pipeline_status st') p) = error ∧
    (∀ q, later p q → status (phases (pipeline_status st') q) = pending) ∧
    (∀ e, e ∈ tr2 → is_action e = false) ∧
    (∀ cp, result = inr cp → returncode cp = 0%Z →
           Some (message (phases (pipeline_status st') p)) = missing_output_message p).
Proof.
  intros Hrun tr1 cmd t fs0 result fs1 tr2 p a -> Hp Ha Habs.
  assert (skeleton (tr1 ++ Subprocess cmd t fs0 result fs1 :: tr2)
          = skeleton tr1 ++ Act (Some (p, exited_zero result, false)) :: skeleton tr2)
    as Hsplit.
  { rewrite skeleton_app. cbn. rewrite Hp, Ha. unfold exists_fs. by rewrite Habs. }
  apply upload_and_run_cases in Hrun as [Hnil|(path & Hin & Hsk & Hv & _)].
  { rewrite Hsplit in Hnil. by destruct (skeleton tr1). }
  pose proof started_paths_gate as Hall. rewrite forallb_forall in Hall.
  apply list_elem_of_In, Hall in Hin.
  rewrite Hsplit in Hsk.
  destruct (gates_on_artifact_sound _ _ Hin _ _ _ _ (eq_sym Hsk))
    as (Herr & Hlater & Hq & Hnote).
  rewrite <- Hv in Herr, Hlater, Hnote.
  repeat split.
  - by rewrite <- view_status.
  - intros q Hq'. rewrite <- view_status. by eapply later_pending_sound.
  - intros e He. by apply (quiet_sound _ _ Hq).
  - intros cp -> Hzero. cbn [exited_zero] in Hnote. rewrite Hzero in Hnote.
    specialize (Hnote eq_refl). rewrite view_note in Hnote.
    unfold says_missing in Hnote.
    destruct (missing_output_message p) as [m|]; [|done].
    by apply String.eqb_eq in Hnote as ->.
Qed.

(** C6, amended.  In every run an upload starts, from the reset on, the
    status of a phase other than the upload changes only from pending to
    running and from running to completed or error; the upload phase is
    never running: it goes from pending to completed at once, and every
    broadcast shows it completed.  No status moves backward. *)
Theorem statuses_only_advance file st res st' tr :
  upload_and_run R file st = (res, st', tr) →
  follows relaxed (status_history tr) ∧
  ∀ s, EmitStatus s ∈ tr → status (phases s upload) = completed.
Proof.
  intros Hrun. split.
  - unfold status_history.
    apply (follows_b_sound (reset_view :: map view (snapshots tr))).
    { constructor; [by intros []|].
      induction (snapshots tr) as [|s l IH]; constructor; [|done].
      intros p. apply view_status. }
    rewrite <- snaps_of_skeleton.
    apply upload_and_run_cases in Hrun as [->|(path & Hin & -> & _)]; [done|].
    pose proof started_paths_follow as Hall. rewrite forallb_forall in Hall.
    by apply list_elem_of_In, Hall in Hin.
  - intros s Hs%snapshot_is_shown.
    assert (view s ∈ snaps_of (skeleton tr)) as Hv.
    { rewrite snaps_of_skeleton. by apply list_elem_of_fmap_2. }
    apply upload_and_run_cases in Hrun as [Hnil|(path & Hin & Hsk & _)].
    { rewrite Hnil in Hv. by apply elem_of_nil in Hv. }
    pose proof started_paths_show_upload as Hall. rewrite forallb_forall in Hall.
    apply list_elem_of_In, Hall in Hin. unfold upload_shown_completed in Hin.
    rewrite forallb_forall in Hin. rewrite Hsk in Hv.
    apply list_elem_of_In, Hin in Hv. unfold status_eqb in Hv.
    apply bool_decide_eq_true_1 in Hv. by rewrite <- view_status.
Qed.

End Runs.

(** C6, as stated, fails: in the run of [sales.csv] the upload phase is
    completed in the first broadcast without having been running. *)
Lemma upload_completes_without_running :
  ¬ follows strict (status_history good_run.2).
Proof.
  intros H.
  remember (status_history good_run.2) as h eqn:Hh.
  vm_compute in Hh. subst h.
  specialize (H 0%nat _ _ eq_refl eq_refl upload). cbv beta iota in H.
  destruct H as [H|H]; [done|inversion H].
Qed.

(** ** The handlers *)

Section Handlers.

Context {W : Type} (R : Runtime W).

Lemma only_files_removed_refl inside m : only_files_removed inside m m.
Proof. intros p. by left. Qed.

Lemma only_files_removed_trans inside m1 m2 m3 :
  only_files_removed inside m1 m2 → only_files_removed inside m2 m3 →
  only_files_removed inside m1 m3.
Proof.
  intros H12 H23 p.
  destruct (H23 p) as [E23|(E3 & Hin & c & E2)].
  - rewrite E23. apply H12.
  - right. split; [done|]. split; [done|]. exists c.
    destruct (H12 p) as [E12|(E2' & _)]; congruence.
Qed.

Lemma only_files_removed_weaken (P Q : path → Prop) m1 m2 :
  (∀ p, P p → Q p) → only_files_removed P m1 m2 → only_files_removed Q m1 m2.
Proof.
  intros HPQ H p. destruct (H p) as [?|(? & ? & ?)]; [by left|right; auto].
Qed.

Lemma unlink_files_frame d names st r st' tr :
  unlink_files R d names st = (r, st', tr) →
  only_files_removed (λ p, ∃ name, p = d ++ [name]) (fs st) (fs st').
Proof.
  revert st r st' tr.
  induction names as [|name names IH]; intros [ps0 fs0 w0] r st' tr H;
    cbn [unlink_files] in H.
  { injection H as <- <- <-. apply only_files_removed_refl. }
  apply bind_inv in H as (r1 & st1 & tr1 & H1 & H).
  injection H1 as <- <- <-. destruct H as (tr2 & H & ->).
  apply bind_inv in H as (r2 & st2 & tr2' & H2 & H).
  assert (only_files_removed (λ p, ∃ name, p = d ++ [name]) fs0 (fs st2)) as Hstep.
  { cbn [fs] in H2. unfold isfile_fs, path_join in H2.
    destruct (fs0 !! (d ++ [name])) as [[c|]|] eqn:Hlook.
    2,3: injection H2 as <- <- <-; apply only_files_removed_refl.
    unfold_all_ops H2. repeat (inner_match H2; unfold_all_ops H2).
    all: injection H2 as <- <- <-; cbn [fs]; try apply only_files_removed_refl.
    intros p. destruct (decide (p = d ++ [name])) as [->|Hne].
    - right. rewrite lookup_delete_eq. eauto.
    - left. by rewrite lookup_delete_ne. }
  destruct r2.
  - destruct H as (tr3 & H & ->). apply IH in H.
    by eapply only_files_removed_trans.
  - by injection H as <- <- <-.
  - by injection H as <- <- <-.
Qed.

Lemma clear_folders_frame folders st r st' tr :
  clear_folders R get_data_path folders st = (r, st', tr) →
  only_files_removed
    (λ p, ∃ folder name, folder ∈ folders ∧ p = get_data_path ++ [folder; name])
    (fs st) (fs st').
Proof.
  revert st r st' tr.
  induction folders as [|folder folders IH]; intros [ps0 fs0 w0] r st' tr H;
    cbn [clear_folders] in H.
  { injection H as <- <- <-. apply only_files_removed_refl. }
  apply bind_inv in H as (r1 & st1 & tr1 & H1 & H).
  injection H1 as <- <- <-. destruct H as (tr2 & H & ->).
  apply bind_inv in H as (r2 & st2 & tr2' & H2 & H).
  assert (only_files_removed
            (λ p, ∃ f name, f ∈ folder :: folders ∧ p = get_data_path ++ [f; name])
            fs0 (fs st2)) as Hstep.
  { cbn [fs] in H2. destruct (exists_fs _ fs0).
    2: injection H2 as <- <- <-; apply only_files_removed_refl.
    apply bind_inv in H2 as (r3 & st3 & tr3 & H3 & H2).
    unfold os_listdir in H3. cbn [fs world] in H3.
    repeat (inner_match H3); injection H3 as <- <- <-.
    all: try (injection H2 as <- <- <-; apply only_files_removed_refl).
    destruct H2 as (tr4 & H2 & ->). apply unlink_files_frame in H2.
    eapply only_files_removed_weaken; [|exact H2].
    intros p [name ->]. exists folder, name. split; [apply list_elem_of_here|].
    unfold path_join. by rewrite <- app_assoc. }
  destruct r2.
  - destruct H as (tr3 & H & ->). apply IH in H.
    eapply only_files_removed_trans; [exact Hstep|].
    eapply only_files_removed_weaken; [|exact H].
    intros p (f & name & Hf & ->). exists f, name.
    split; [by apply list_elem_of_further|done].
  - by injection H as <- <- <-.
  - by injection H as <- <- <-.
Qed.

(** C10.  Compared with the files the removed container leaves, [clear]
    changes nothing but regular files directly inside [raw], [processed]
    and [model], which it deletes: every directory stays, and so does
    everything below a subdirectory of these folders. *)
Theorem clear_removes_only_top_level_files st r st' tr r1 st1 tr1 :
  clear_data R st = (r, st', tr) →
  stop_inference_service R st = (r1, st1, tr1) →
  only_files_removed in_data_folder (fs st1) (fs st') ∧
  (∀ p, fs st1 !! p = Some Dir → fs st' !! p = Some Dir) ∧
  (∀ folder sub below,
     let p := get_data_path ++ folder :: sub :: below in
     below ≠ [] → fs st' !! p = fs st1 !! p).
Proof.
  intros H Hstop.
  assert (only_files_removed in_data_folder (fs st1) (fs st')) as Hmain.
  { unfold clear_data in H.
    apply try_except_inv in H as (rA & stA & trA & HA & H).
    assert (only_files_removed in_data_folder (fs st1) (fs stA)) as HstA.
    { apply bind_inv in HA as (rS & stS & trS & HS & HA).
      rewrite Hstop in HS. injection HS as <- <- <-.
      destruct r1; [|injection HA as <- <- <-; apply only_files_removed_refl..].
      destruct HA as (tr2 & HA & ->). cbv zeta in HA.
      apply bind_inv in HA as (rC & stC & trC & HC & HA).
      apply clear_folders_frame in HC.
      assert (fs stA = fs stC) as ->; [|exact HC].
      destruct rC; [|by injection HA as <- <- <-..].
      destruct HA as (tr3 & HA & ->). destruct stC as [psC fsC wC].
      unfold reset_for_clear in HA. exec HA. done. }
    destruct rA.
    - by injection H as <- <- <-.
    - by injection H as <- <- <-.
    - destruct H as (tr2 & H & ->). injection H as <- <- <-. done. }
  split; [done|]. split.
  - intros p Hdir. destruct (Hmain p) as [->|(_ & _ & c & Hc)]; congruence.
  - intros folder sub below p Hbelow.
    destruct (Hmain p) as [?|(_ & (f & name & _ & Hp) & _)]; [done|].
    subst p. apply app_inv_head in Hp. injection Hp as -> -> ->. done.
Qed.

(** C8, amended.  [predict] always answers and raises nothing.  On a JSON
    payload: when the request to the inference worker fails
    ([RequestException]), the answer is the error body with code 503;
    when the worker answers with JSON, the answer is that JSON.  On a
    body that [request.json] does not read, the answer is the text of the
    exception with code 500, whatever the worker does. *)
Theorem predict_proxy request_json st :
  ∃ resp st' tr,
    predict R request_json st = (Val resp, st', tr) ∧
    (∀ data msg w',
       request_json = inr data →
       http_post R predict_url data 5 (world st) = (inl (RequestException msg), w') →
       resp = jsonify_with (error_body "Servizio di inferenza non disponibile") 503) ∧
    (∀ data response w' j,
       request_json = inr data →
       http_post R predict_url data 5 (world st) = (inr response, w') →
       response_json R response = inr j →
       resp = jsonify j) ∧
    (∀ e, request_json = inl e → resp = jsonify_with (error_body (exn_str e)) 500).
Proof.
  destruct st as [ps0 fs0 w0].
  destruct (predict R request_json {| pipeline_status := ps0; fs := fs0; world := w0 |})
    as [[r st'] tr] eqn:H.
  unfold predict in H. exec H.
  all: eexists _, _, _; split; [reflexivity|].
  all: repeat split; intros; simplify_eq; try done.
  all: cbn [world] in *; congruence.
Qed.

End Handlers.

(** ** Uploads that are not Excel files *)

Lemma csv_paths_skip_conversion v b :
  forallb (λ path, no_conversion_worker (marks path)) (run_paths false v b) = true.
Proof. by vm_compute. Qed.

Lemma done_cleaning_stays_done excel ps b :
  forallb done_cleaning_stays (run_paths excel (view ps) b) = true.
Proof. destruct excel; by vm_compute. Qed.

Lemma mark_in_skeleton e m tr : e ∈ tr → mark_of e = Some m → m ∈ skeleton tr.
Proof. intros He Hm. apply list_elem_of_omap. eauto. Qed.

Lemma overwrite_after_remove (new old : path) (x : node) (m : FS) :
  <[new := x]> (delete old (delete new m)) = <[new := x]> (delete old m).
Proof.
  apply map_eq. intros k.
  destruct (decide (k = new)), (decide (k = old)); by simplify_map_eq.
Qed.

Section Files.

Context {W : Type} (R : Runtime W).

(** [os.makedirs] does not look at the status record. *)
Lemma os_makedirs_any_status p ps1 ps2 f w r st' tr :
  os_makedirs R p {| pipeline_status := ps1; fs := f; world := w |} = (r, st', tr) →
  os_makedirs R p {| pipeline_status := ps2; fs := f; world := w |}
  = (r, {| pipeline_status := ps2; fs := fs st'; world := w |}, tr).
Proof.
  unfold os_makedirs, with_fault, put_fs. cbn [fs world pipeline_status].
  intros H.
  repeat (inner_match H); injection H as <- <- <-; reflexivity.
Qed.

(** When the rename does not raise, what [rename_csv] leaves: the upload
    under the fixed name, in place of whatever had it, and nothing under
    its own. *)
Lemma rename_csv_renames fn c st r st1 tr1 :
  fs st !! raw_file fn = Some (File c) →
  (fn ≠ "OnlineRetail.csv" →
   ¬ raises_in (replace_file R (raw_file fn) (raw_file "OnlineRetail.csv")) st) →
  rename_csv R fn st = (r, st1, tr1) →
  r = Val "OnlineRetail.csv" ∧
  fs st1 = <[raw_file "OnlineRetail.csv" := File c]> (delete (raw_file fn) (fs st)) ∧
  world st1 = world st ∧
  (∀ e, e ∈ tr1 → is_action e = false).
Proof.
  intros Hfile Hok H. destruct st as [ps0 fs0 w0]. cbn [fs world] in *.
  unfold rename_csv in H.
  destruct (String.eqb fn "OnlineRetail.csv") eqn:Hc; cbn [negb] in H.
  - apply String.eqb_eq in Hc as ->. exec_precisely H.
    repeat split; [|by intros e ?%elem_of_nil]. cbn.
    by rewrite insert_delete_eq, insert_id.
  - apply String.eqb_neq in Hc. specialize (Hok Hc).
    assert (raw_file "OnlineRetail.csv" ≠ raw_file fn) as Hne by (by intros [= <-]).
    cbv zeta in H.
    apply try_except_inv in H as (r1 & s1 & t1 & Hb & H).
    apply bind_inv in Hb as (r2 & s2 & t2 & Hr & Hb).
    assert (∀ u, r2 = Val u →
              fs s2 = <[raw_file "OnlineRetail.csv" := File c]> (delete (raw_file fn) fs0)
              ∧ world s2 = w0 ∧ t2 = []) as Hmoved.
    { clear Hb H Hok. intros u Hu.
      exec_precisely Hr; unfold exists_fs in *; simplify_map_eq.
      all: repeat split; try done.
      all: apply overwrite_after_remove. }
    destruct r2 as [u| |e].
    2: { by apply replace_file_fs_only in Hr as (_ & _ & _ & ?). }
    2: { destruct Hok. by eexists _, _, _. }
    destruct (Hmoved u eq_refl) as (Hfs & Hw & ->). clear Hmoved.
    destruct Hb as (t3 & Hb & ->).
    destruct s2 as [ps2 fs2 w2]. cbn [fs world] in Hfs, Hw. subst fs2 w2.
    exec Hb. injection H as <- <- <-. cbn [fs world].
    repeat split; try done.
    intros e [->|He]%elem_of_cons; [done|by apply elem_of_nil in He].
Qed.

(** With its input in place and [os.makedirs] not raising, what
    [phase_cleaning] starts first: the worker, on the name it was given
    and on the files as [os.makedirs] leaves them. *)
Lemma phase_cleaning_invokes h fn st r st1 tr1 :
  is_Some (fs st !! raw_file fn) →
  ¬ raises_in (os_makedirs R processed_dir) st →
  phase_cleaning R h fn st = (r, st1, tr1) →
  ∃ pre result fs1 post,
    tr1 = pre ++ Subprocess (cleaning_cmd h fn) (Some 300%nat)
                   (files_after (os_makedirs R processed_dir) st) result fs1 :: post ∧
    (∀ e, e ∈ pre → is_action e = false).
Proof.
  intros [x Hx] Hok H. destruct st as [ps0 fs0 w0]. cbn [fs] in Hx.
  unfold phase_cleaning in H.
  apply bind_inv in H as (r1 & st2 & tr2 & H1 & H).
  unfold_ops H1. injection H1 as <- <- <-.
  destruct H as (tr3 & H & ->).
  apply bind_inv in H as (r1 & st2 & tr2 & H1 & H).
  unfold_ops H1. injection H1 as <- <- <-.
  destruct H as (tr4 & H & ->).
  unfold exists_fs in H. rewrite Hx in H. cbn [negb] in H.
  apply bind_inv in H as (r1 & st2 & tr2 & H1 & H).
  apply (os_makedirs_any_status _ _ ps0) in H1 as H2.
  unfold files_after. fold processed_dir in H2. rewrite H2. cbn [fst snd fs].
  destruct (os_makedirs_fs_only R _ _ _ _ _ H1) as (-> & Hps & Hw & Hret).
  destruct r1 as [[]| |e]; [|done|].
  2: { destruct Hok. by eexists _, _, _. }
  destruct st2 as [ps2 fs2 w2]. cbn [pipeline_status world fs] in *. subst.
  destruct H as (tr5 & H & ->).
  exec H.
  all: eexists [_; _; _], _, _, _; split; [reflexivity|].
  all: intros ev He; repeat apply elem_of_cons in He as [->|He]; try done.
  all: by apply elem_of_nil in He.
Qed.

(** The first thing [phase_cleaning] shows is the phase running. *)
Lemma phase_cleaning_starts h fn st r st1 tr1 :
  phase_cleaning R h fn st = (r, st1, tr1) →
  ∃ e s post, tr1 = e :: EmitStatus s :: post ∧ status (phases s cleaning) = running.
Proof.
  intros H. unfold phase_cleaning in H.
  apply bind_inv in H as (r1 & st2 & tr2 & H1 & H).
  destruct st as [ps0 fs0 w0]. unfold_ops H1. injection H1 as <- <- <-.
  destruct H as (tr3 & _ & ->). by eexists _, _, _.
Qed.

(** A run on a name that does not end in [.xlsx]: [rename_csv], then
    [phase_cleaning], then the rest. *)
Lemma run_pipeline_csv_inv fn st st' tr :
  endswith fn ".xlsx" = false →
  run_pipeline R fn st = (st', tr) →
  ∃ fn' st1 tr1 r2 st2 tr2 tr3,
    rename_csv R fn st = (Val fn', st1, tr1) ∧
    phase_cleaning R (get_host_data_path R) fn' st1 = (r2, st2, tr2) ∧
    tr = tr1 ++ tr2 ++ tr3.
Proof.
  intros Hext. unfold run_pipeline, run_pipeline_body. rewrite Hext.
  destruct (bind _ _ st) as [[r stb] trb] eqn:E.
  apply bind_inv in E as (r1 & st1 & tr1 & E1 & E).
  pose proof (rename_csv_refines R fn _ _ _ _ E1) as Hsilent.
  apply list_elem_of_singleton in Hsilent.
  destruct r1 as [fn'| |]; try done. clear Hsilent.
  destruct E as (trc & E & ->).
  apply bind_inv in E as (r2 & st2 & tr2 & E2 & E).
  intros Hrun. exists fn', st1, tr1, r2, st2, tr2.
  destruct r2.
  - destruct E as (tr3 & E & ->).
    destruct r.
    1,2: injection Hrun as <- <-; by exists tr3.
    destruct (add_log R _ _ stb) as [[? ?] trl]. injection Hrun as <- <-.
    exists (tr3 ++ trl). by rewrite <- !app_assoc.
  - injection E as <- <- <-. injection Hrun as <- <-.
    exists []. by rewrite app_nil_r.
  - injection E as <- <- <-.
    destruct (add_log R _ _ st2) as [[? ?] trl]. injection Hrun as <- <-.
    exists trl. by rewrite <- !app_assoc.
Qed.

(** C7, amended.  On a name that does not end in [.xlsx] the conversion
    worker is never run.  When moreover the upload is a regular file in
    [raw] and no file operation fails (neither the rename nor
    [os.makedirs] raises): the first thing the run starts is the cleaning
    worker, with [DATASET_FILE=OnlineRetail.csv], on files in which the
    upload has the fixed name (in place of whatever had it) and no longer
    its own, with the [processed] folder made by [os.makedirs] when it was
    missing; and if that worker exits with code 0 and the cleaned file is
    there afterwards, the cleaning phase is completed at the end of the
    run. *)
Theorem csv_upload_is_renamed_and_cleaned fn st st' tr :
  endswith fn ".xlsx" = false →
  run_pipeline R fn st = (st', tr) →
  (∀ cmd t f0 result f1,
     Subprocess cmd t f0 result f1 ∈ tr → image_of cmd ≠ "ml-pipeline-converter") ∧
  ∀ c,
    fs st !! raw_file fn = Some (File c) →
    let renamed :=
      with_files (<[raw_file "OnlineRetail.csv" := File c]> (delete (raw_file fn) (fs st)))
                 st in
    (fn ≠ "OnlineRetail.csv" →
     ¬ raises_in (replace_file R (raw_file fn) (raw_file "OnlineRetail.csv")) st) →
    ¬ raises_in (os_makedirs R processed_dir) renamed →
    ∃ pre result f1 post,
      tr = pre ++ Subprocess (cleaning_cmd (get_host_data_path R) "OnlineRetail.csv")
                    (Some 300%nat) (files_after (os_makedirs R processed_dir) renamed)
                    result f1 :: post ∧
      (∀ e, e ∈ pre → is_action e = false) ∧
      (exited_zero result = true → is_Some (f1 !! cleaned_path) →
       status (phases (pipeline_status st') cleaning) = completed).
Proof.
  intros Hext Hrun.
  destruct (run_pipeline_refines R _ _ _ _ Hrun) as (path & Hin & Hsk & Hv & _).
  rewrite Hext in Hin. split.
  - intros cmd t f0 result f1 He Himg.
    pose proof (csv_paths_skip_conversion (view (pipeline_status st))
                  (model_ready (pipeline_status st))) as Hall.
    rewrite forallb_forall in Hall. apply list_elem_of_In, Hall in Hin.
    unfold no_conversion_worker in Hin. rewrite forallb_forall in Hin.
    eapply mark_in_skeleton in He; [|reflexivity].
    rewrite Hsk in He. apply list_elem_of_In, Hin in He.
    cbn in He. rewrite Himg in He. done.
  - intros c Hfile renamed Hrename Hmk.
    destruct (run_pipeline_csv_inv _ _ _ _ Hext Hrun)
      as (fn' & st1 & tr1 & r2 & st2 & tr2 & tr3 & E1 & E2 & ->).
    apply (rename_csv_renames _ c) in E1 as (Hfn & Hfs & Hw & Hquiet); [|done..].
    injection Hfn as ->.
    assert (¬ raises_in (os_makedirs R processed_dir) st1
            ∧ files_after (os_makedirs R processed_dir) st1
              = files_after (os_makedirs R processed_dir) renamed) as [Hmk1 Hsame].
    { destruct st as [ps0 fs0 w0], st1 as [ps1 fs1 w1].
      unfold renamed, with_files in *. cbn [fs world pipeline_status] in *. subst.
      split.
      - intros (e & s & t & He). apply Hmk.
        apply (os_makedirs_any_status _ _ ps0) in He. by eexists _, _, _.
      - unfold files_after.
        destruct (os_makedirs R processed_dir
                    {| pipeline_status := ps1; fs := _; world := w0 |})
          as [[r s] t] eqn:He.
        apply (os_makedirs_any_status _ _ ps0) in He. by rewrite He. }
    apply phase_cleaning_invokes in E2 as (pre & result & f1 & post & -> & Hpre);
      [|by rewrite Hfs, lookup_insert_eq|done].
    rewrite Hsame.
    exists (tr1 ++ pre), result, f1, (post ++ tr3). split; [|split].
    + by rewrite <- !app_assoc.
    + intros e [?|?]%elem_of_app; auto.
    + intros Hzero Hthere.
      pose proof (done_cleaning_stays_done false (pipeline_status st)
                    (model_ready (pipeline_status st))) as Hall.
      rewrite forallb_forall in Hall. apply list_elem_of_In, Hall in Hin.
      unfold done_cleaning_stays in Hin.
      assert (existsb cleaning_done (marks path) = true) as Hex.
      { apply existsb_exists. exists (Act (Some (cleaning, true, true))).
        split; [|done].
        apply list_elem_of_In. rewrite <- Hsk.
        eapply (mark_in_skeleton (Subprocess _ _ _ result f1)).
        - rewrite !elem_of_app. right. left. right. apply list_elem_of_here.
        - unfold mark_of.
          change (stage_of_image (image_of (cleaning_cmd _ _))) with (Some cleaning).
          cbn [stage_artifact]. rewrite Hzero. unfold exists_fs.
          by destruct Hthere as [? ->]. }
      rewrite Hex in Hin. cbn [implb] in Hin. unfold status_eqb in Hin.
      apply bool_decide_eq_true_1 in Hin.
      by rewrite <- view_status, Hv.
Qed.

(** C9, amended.  On a name that does not end in [.xlsx], when the rename
    to [OnlineRetail.csv] raises, the run goes on: the exception is logged
    at level error, the cleaning phase is shown running, and, provided the
    file is still in [raw] under its own name and [os.makedirs] of the
    [processed] folder does not raise, the first thing the run starts is
    the cleaning worker with that name as [DATASET_FILE], on the files the
    failed rename has left and with the [processed] folder made when it
    was missing. *)
Theorem failed_rename_keeps_the_name fn st e st1 tr1 st' tr :
  endswith fn ".xlsx" = false →
  fn ≠ "OnlineRetail.csv" →
  replace_file R (raw_file fn) (raw_file "OnlineRetail.csv") st = (Raise e, st1, tr1) →
  run_pipeline R fn st = (st', tr) →
  (∃ t, EmitLog {| log_timestamp := t;
                   log_message := "Errore nel rinominare CSV: " +:+ exn_str e;
                   log_level := Level.error |} ∈ tr) ∧
  (∃ s, EmitStatus s ∈ tr ∧ status (phases s cleaning) = running) ∧
  (is_Some (fs st1 !! raw_file fn) →
   ¬ raises_in (os_makedirs R processed_dir) st1 →
   ∃ pre result f1 post,
     tr = pre ++ Subprocess (cleaning_cmd (get_host_data_path R) fn) (Some 300%nat)
                   (files_after (os_makedirs R processed_dir) st1) result f1 :: post ∧
     (∀ e, e ∈ pre → is_action e = false)).
Proof.
  intros Hext Hne Hraise Hrun.
  destruct (run_pipeline_csv_inv _ _ _ _ Hext Hrun)
    as (fn' & st2 & tr2 & r3 & st3 & tr3 & tr4 & E1 & E2 & ->).
  unfold rename_csv in E1. apply String.eqb_neq in Hne. rewrite Hne in E1.
  cbn [negb] in E1. cbv zeta in E1.
  apply try_except_inv in E1 as (r & s & t & Eb & E1).
  apply bind_inv in Eb as (r' & s' & t' & Er & Eb).
  rewrite Hraise in Er. injection Er as <- <- <-. injection Eb as <- <- <-.
  destruct E1 as (tr5 & E1 & ->). destruct st1 as [ps1 fs1 w1].
  exec E1. cbn [fs] in *.
  apply (replace_file_fs_only R _ _ _ _ _ _) in Hraise as (-> & _).
  cbn [app].
  split; [|split].
  - eexists. apply list_elem_of_here.
  - destruct (phase_cleaning_starts _ _ _ _ _ _ E2) as (e0 & s & post & -> & Hs).
    exists s. split; [|done]. cbn [app].
    do 2 apply list_elem_of_further. apply list_elem_of_here.
  - intros Hthere Hmk.
    apply phase_cleaning_invokes in E2 as (pre & result & f1 & post & -> & Hpre);
      [|done|].
    2: { intros (e1 & s & t & He). apply Hmk.
         apply (os_makedirs_any_status _ _ ps1) in He. by eexists _, _, _. }
    assert (files_after (os_makedirs R processed_dir)
              {| pipeline_status := _; fs := fs1; world := w1 |}
            = files_after (os_makedirs R processed_dir)
                {| pipeline_status := ps1; fs := fs1; world := w1 |}) as ->.
    { unfold files_after.
      match goal with
      | |- fs (os_makedirs R processed_dir ?s).1.2 = _ =>
          destruct (os_makedirs R processed_dir s) as [[r s0] t] eqn:He
      end.
      apply (os_makedirs_any_status _ _ ps1) in He. by rewrite He. }
    eexists (_ :: pre), result, f1, (post ++ tr4). split.
    + cbn [app]. by rewrite <- !app_assoc.
    + intros e0 [->|He]%elem_of_cons; [done|by auto].
Qed.

End Files.

Lemma triple_eta {A B C} (x : A * B * C) : x = (x.1.1, x.1.2, x.2).
Proof. by destruct x as [[? ?] ?]. Qed.

Lemma pair_eta {A B} (x : A * B) : x = (x.1, x.2).
Proof. by destruct x. Qed.

(** C7, as stated, fails: the cleaning worker exits with code 1, the
    cleaned file of an earlier run is there, and the phase is in error. *)
Lemma stale_artifact_does_not_complete :
  ¬ completed_when_artifact_present failing_cleaner "sales.csv" stale_output.
Proof.
  intros H.
  pose (run := run_pipeline failing_cleaner "sales.csv" stale_output).
  specialize (H run.1 run.2 (take 4 run.2)
                (cleaning_cmd "/app/data" "OnlineRetail.csv") (Some 300%nat)
                stale_renamed (inr (Demo.failed "boom")) stale_renamed
                (drop 5 run.2) (pair_eta run)).
  assert (status (phases (pipeline_status run.1) cleaning) = completed) as Hdone.
  { apply H.
    - by vm_compute.
    - by vm_compute.
    - vm_compute. by eexists. }
  by vm_compute in Hdone.
Qed.

(** C9, as stated, fails: the rename raises, the file is still there, the
    [processed] folder is missing and cannot be made, and no worker is
    run. *)
Lemma no_worker_without_processed_dir :
  ¬ cleaning_invoked_after_failed_rename read_only_runtime "sales.csv"
      (Demo.start no_processed_dir).
Proof.
  intros H.
  specialize (H (OSError "Permission denied") (Demo.start no_processed_dir) []
                (run_pipeline read_only_runtime "sales.csv"
                   (Demo.start no_processed_dir)).1
                (run_pipeline read_only_runtime "sales.csv"
                   (Demo.start no_processed_dir)).2).
  destruct H as (pre & t & f0 & result & f1 & post & H).
  - by vm_compute.
  - vm_compute. by eexists.
  - apply pair_eta.
  - assert (Demo.commands
              (run_pipeline read_only_runtime "sales.csv"
                 (Demo.start no_processed_dir)).2 = []) as Hnone
      by (by vm_compute).
    rewrite H in Hnone. unfold Demo.commands in Hnone.
    rewrite omap_app in Hnone. by apply app_eq_nil in Hnone as [_ Hnone].
Qed.

(** C8, as stated, fails: the worker cannot be reached, the body of the
    call is not JSON, and the answer has code 500. *)
Lemma unreadable_body_is_a_generic_failure :
  ¬ unavailable_whenever_unreachable (Demo.runtime Demo.working false).
Proof.
  intros H.
  destruct (H (λ data t w, ex_intro _ "connection refused" (ex_intro _ w eq_refl))
              not_json (Demo.start Demo.empty_dirs)) as (resp & st' & tr & Hrun & Hcode).
  vm_compute in Hrun. injection Hrun as <- _ _. discriminate Hcode.
Qed.

(** C2 at the failing input: the last broadcast of [good_run] shows the
    inference phase completed with the flag off; the flag is on in the
    state the run ends in, which no broadcast shows. *)
Theorem ready_flag_is_not_broadcast :
  last (Demo.broadcasts good_run.2)
    = Some ([completed; pending; completed; completed; completed], false) ∧
  model_ready (pipeline_status good_run.1.2) = true.
Proof. by vm_compute. Qed.

(** C4 at the failing input: [os.makedirs] raises in the cleaning phase;
    the exception is caught and logged, no phase is set to error and the
    cleaning phase stays running. *)
Theorem crash_is_logged_not_recorded :
  Demo.statuses (pipeline_status crashed_run.1.2)
    = [completed; pending; running; pending; pending] ∧
  last (logs (pipeline_status crashed_run.1.2))
    = Some {| log_timestamp := "12:00:00";
              log_message := "Errore nella pipeline: Permission denied";
              log_level := Level.error |} ∧
  Demo.broadcasts crashed_run.2
    = [([completed; pending; pending; pending; pending], false);
       ([completed; pending; running; pending; pending], false)].
Proof. by vm_compute. Qed.

(** C5 at the failing input: the reset of an upload does not touch
    [current_phase]; when the upload then fails, the record is left with
    every phase pending and the phase of the last run as current. *)
Theorem upload_reset_keeps_current_phase :
  failed_second_upload.1.1 = Raise (OSError "No space left on device") ∧
  Demo.statuses (pipeline_status failed_second_upload.1.2)
    = [pending; pending; pending; pending; pending] ∧
  logs (pipeline_status failed_second_upload.1.2) = [] ∧
  model_ready (pipeline_status failed_second_upload.1.2) = false ∧
  current_phase (pipeline_status failed_second_upload.1.2) = at_phase inference.
Proof. by vm_compute. Qed.

(** ** The flag and the resets *)

Lemma started_paths_never_ready :
  forallb (λ p, never_ready (Snap uploaded_view false :: marks p)) started_paths = true.
Proof. by vm_compute. Qed.

Lemma started_paths_ready_at_rest :
  forallb ready_iff_completed started_paths = true.
Proof. by vm_compute. Qed.

Section Flag.

Context {W : Type} (R : Runtime W).

(** X1.  No broadcast of a run shows the flag on: [update_phase] broadcasts the
    completed inference phase before the flag is set, and nothing is
    broadcast afterwards. *)
Lemma broadcasts_never_ready file st res st' tr s :
  upload_and_run R file st = (res, st', tr) →
  EmitStatus s ∈ tr → model_ready s = false.
Proof.
  intros Hrun Hs.
  eapply mark_in_skeleton in Hs; [|reflexivity].
  apply upload_and_run_cases in Hrun as [Hnil|(path & Hin & Hsk & _)].
  { rewrite Hnil in Hs. by apply elem_of_nil in Hs. }
  pose proof started_paths_never_ready as Hall. rewrite forallb_forall in Hall.
  apply list_elem_of_In, Hall in Hin. unfold never_ready in Hin.
  rewrite forallb_forall in Hin. rewrite Hsk in Hs.
  apply list_elem_of_In, Hin in Hs. by apply negb_true_iff in Hs.
Qed.

(** X2.  When a run is over, the flag is on iff the inference phase is
    completed. *)
Lemma ready_iff_completed_at_rest file st res st' tr s :
  upload_and_run R file st = (res, st', tr) →
  EmitStatus s ∈ tr →
  model_ready (pipeline_status st') = true
  ↔ status (phases (pipeline_status st') inference) = completed.
Proof.
  intros Hrun Hs.
  eapply mark_in_skeleton in Hs; [|reflexivity].
  apply upload_and_run_cases in Hrun as [Hnil|(path & Hin & _ & Hv & Hb)].
  { rewrite Hnil in Hs. by apply elem_of_nil in Hs. }
  pose proof started_paths_ready_at_rest as Hall. rewrite forallb_forall in Hall.
  apply list_elem_of_In, Hall in Hin. unfold ready_iff_completed in Hin.
  apply bool_decide_eq_true_1 in Hin.
  rewrite <- view_status, Hv, Hb, Hin. unfold status_eqb.
  by rewrite bool_decide_eq_true.
Qed.

(** The reset of [clear_data] gives the record its first value. *)
Lemma reset_for_clear_resets (st : State W) :
  reset_for_clear st
  = (Val tt, {| pipeline_status := initial_status; fs := fs st; world := world st |}, []).
Proof. reflexivity. Qed.

(** The reset of [upload_file] does the same except for [current_phase],
    which it leaves as it is. *)
Lemma reset_for_upload_resets (st : State W) :
  reset_for_upload st
  = (Val tt,
     {| pipeline_status :=
          {| current_phase := current_phase (pipeline_status st);
             phases := phases initial_status;
             model_ready := false;
             logs := [] |};
        fs := fs st; world := world st |}, []).
Proof. reflexivity. Qed.

(** Either reset done twice is the reset done once. *)
Lemma resets_idempotent (st : State W) :
  bind reset_for_clear (λ _, reset_for_clear) st = reset_for_clear st ∧
  bind reset_for_upload (λ _, reset_for_upload) st = reset_for_upload st.
Proof. by destruct st. Qed.

(** X3.  When an exception reaches the handler at the end of [run_pipeline], the
    run is left with a phase running and none in error. *)
Lemma uncaught_exception_sets_no_error h fn st e st1 tr1 :
  view (pipeline_status st) = uploaded_view →
  run_pipeline_body R h fn st = (Raise e, st1, tr1) →
  (∀ p, status (phases (pipeline_status st1) p) ≠ error) ∧
  (∃ p, status (phases (pipeline_status st1) p) = running).
Proof.
  intros Hv Hrun. apply run_pipeline_body_refines in Hrun. rewrite Hv in Hrun.
  assert (crash_leaves_running (path_of (Raise e : Res unit) st1 tr1) = true) as Hok.
  { revert Hrun. generalize (path_of (Raise e : Res unit) st1 tr1). intros path Hin.
    assert (forallb crash_leaves_running
              (run_paths (endswith fn ".xlsx") uploaded_view
                 (model_ready (pipeline_status st))) = true) as Hall
      by (destruct (endswith fn ".xlsx"), (model_ready (pipeline_status st));
          by vm_compute).
    rewrite forallb_forall in Hall. by apply Hall, list_elem_of_In. }
  unfold crash_leaves_running, path_of in Hok. cbn [ending ending_of final] in Hok.
  apply andb_prop in Hok as [Hnone Hsome]. split.
  - intros p Hp. rewrite forallb_forall in Hnone.
    specialize (Hnone p (in_all_phases p)).
    rewrite view_status, Hp in Hnone. done.
  - apply existsb_exists in Hsome as (p & _ & Hp). exists p.
    unfold status_eqb in Hp. apply bool_decide_eq_true_1 in Hp.
    by rewrite <- view_status.
Qed.

End Flag.

(** ** The general statements at work on the examples *)

(** C1 at work: in [idle_run] the cleaning phase ends in error after ten
    events; the training phase is pending at the end. *)
Lemma error_halts_the_run_witness :
  status (phases (pipeline_status idle_run.1.2) training) = pending.
Proof.
  destruct (error_halts_the_run idle_cleaner (Demo.csv_upload "sales.csv")
              (Demo.start Demo.empty_dirs) idle_run.1.1 idle_run.1.2 idle_run.2
              (triple_eta idle_run) (take 9 idle_run.2)
              (default initial_status (last (snapshots idle_run.2)))
              (drop 10 idle_run.2) cleaning) as (_ & _ & _ & H).
  - by vm_compute.
  - by vm_compute.
  - apply H. unfold later. cbn. lia.
Defined.

(** C3 at work: in [idle_run] the cleaning worker exits with code 0 and
    leaves nothing. *)
Lemma missing_artifact_fails_stage_witness :
  status (phases (pipeline_status idle_run.1.2) cleaning) = error ∧
  Some (message (phases (pipeline_status idle_run.1.2) cleaning))
    = Some "File pulito non creato" ∧
  status (phases (pipeline_status idle_run.1.2) training) = pending.
Proof.
  destruct (missing_artifact_fails_stage idle_cleaner (Demo.csv_upload "sales.csv")
              (Demo.start Demo.empty_dirs) idle_run.1.1 idle_run.1.2 idle_run.2
              (triple_eta idle_run) (take 6 idle_run.2)
              (cleaning_cmd "/app/data" "OnlineRetail.csv") (Some 300%nat)
              sales_renamed (inr (Demo.ok "done")) sales_renamed
              (drop 7 idle_run.2) cleaning cleaned_path) as (H1 & H2 & _ & H4).
  - by vm_compute.
  - by vm_compute.
  - reflexivity.
  - by vm_compute.
  - split; [exact H1|]. split.
    + exact (H4 _ eq_refl eq_refl).
    + apply H2. unfold later. cbn. lia.
Defined.

(** C6, amended, at work on [good_run] *)
Lemma statuses_only_advance_witness :
  follows relaxed (status_history good_run.2) ∧
  ∀ s, EmitStatus s ∈ good_run.2 → status (phases s upload) = completed.
Proof.
  exact (statuses_only_advance (Demo.runtime Demo.working true)
           (Demo.csv_upload "sales.csv") (Demo.start Demo.empty_dirs)
           good_run.1.1 good_run.1.2 good_run.2 (triple_eta good_run)).
Defined.

(** C7, amended, at work: [sales.csv] with workers that do their job and
    no [processed] folder, which [os.makedirs] makes *)
Lemma csv_upload_is_renamed_and_cleaned_witness :
  let renamed :=
    with_files (<[raw_file "OnlineRetail.csv" := File "x,y"]>
                  (delete (raw_file "sales.csv") no_processed_dir))
               (Demo.start no_processed_dir) in
  let f0 := files_after (os_makedirs (Demo.runtime Demo.working true) processed_dir)
                        renamed in
  f0 !! processed_dir = Some Dir ∧
  ∃ pre result f1 post,
    fresh_run.2
    = pre ++ Subprocess (cleaning_cmd "/app/data" "OnlineRetail.csv") (Some 300%nat)
               f0 result f1 :: post ∧
    (∀ e, e ∈ pre → is_action e = false) ∧
    (exited_zero result = true → is_Some (f1 !! cleaned_path) →
     status (phases (pipeline_status fresh_run.1) cleaning) = completed).
Proof.
  split; [by vm_compute|].
  apply (proj2 (csv_upload_is_renamed_and_cleaned (Demo.runtime Demo.working true)
                  "sales.csv" (Demo.start no_processed_dir) fresh_run.1 fresh_run.2
                  eq_refl (pair_eta fresh_run))
               "x,y").
  - by vm_compute.
  - intros _ (e & st & tr & H). vm_compute in H. discriminate H.
  - intros (e & st & tr & H). vm_compute in H. discriminate H.
Defined.

(** C8, amended, at work: the service is down *)
Lemma predict_proxy_witness :
  ∃ resp st tr,
    predict (Demo.runtime Demo.working false) (inr JNull) (Demo.start Demo.empty_dirs)
      = (Val resp, st, tr) ∧
    resp = jsonify_with (error_body "Servizio di inferenza non disponibile") 503.
Proof.
  destruct (predict_proxy (Demo.runtime Demo.working false) (inr JNull)
              (Demo.start Demo.empty_dirs)) as (resp & st & tr & H & H503 & _).
  exists resp, st, tr. split; [exact H|].
  eapply H503; reflexivity.
Defined.

(** C9, amended, at work: the rename of [sales.csv] is refused and the
    [processed] folder is missing *)
Lemma failed_rename_keeps_the_name_witness :
  let f0 := files_after (os_makedirs no_rename_runtime processed_dir)
                        (Demo.start no_processed_dir) in
  f0 !! processed_dir = Some Dir ∧
  ∃ pre result f1 post,
    fresh_refused_run.2
    = pre ++ Subprocess (cleaning_cmd "/app/data" "sales.csv") (Some 300%nat)
               f0 result f1 :: post ∧
    (∀ e, e ∈ pre → is_action e = false).
Proof.
  split; [by vm_compute|].
  destruct (failed_rename_keeps_the_name no_rename_runtime "sales.csv"
              (Demo.start no_processed_dir)
              (OSError "Permission denied") (Demo.start no_processed_dir) []
              fresh_refused_run.1 fresh_refused_run.2)
    as (_ & _ & H).
  - by vm_compute.
  - discriminate.
  - by vm_compute.
  - apply pair_eta.
  - apply H.
    + vm_compute. by eexists.
    + intros (e & st & tr & He). vm_compute in He. discriminate He.
Defined.

(** C10 at work: the folder [old] inside [raw] and the file in it stay. *)
Lemma clear_removes_only_top_level_files_witness :
  fs cleared.1.2 !! ["app"; "data"; "raw"; "old"; "b.csv"] = Some (File "2").
Proof.
  destruct (clear_removes_only_top_level_files (Demo.runtime Demo.working true)
              nested_files cleared.1.1 cleared.1.2 cleared.2
              stopped.1.1 stopped.1.2 stopped.2
              (triple_eta cleared) (triple_eta stopped)) as (_ & _ & H).
  etransitivity; [exact (H "raw" "old" ["b.csv"] ltac:(discriminate))|].
  by vm_compute.
Defined.

(** * More on the handlers and the runs *)

Lemma steps_app a t1 b t2 c : steps a t1 b → steps b t2 c → steps a (t1 ++ t2) c.
Proof.
  induction 1; intros Hc; cbn [app]; try (econstructor; eauto; fail). auto.
Qed.

Section Keeps.

Context {W : Type} (R : Runtime W).

Lemma keeps_ret {A} (a : A) : keeps (ret (W:=W) a).
Proof. intros st r st' tr [= <- <- <-]. constructor. Qed.

Lemma keeps_early_return {A} : keeps (early_return (W:=W) (A:=A)).
Proof. intros st r st' tr [= <- <- <-]. constructor. Qed.

Lemma keeps_raise {A} e : keeps (raise (W:=W) (A:=A) e).
Proof. intros st r st' tr [= <- <- <-]. constructor. Qed.

Lemma keeps_bind {A B} (m : M W A) (k : A → M W B) :
  keeps m → (∀ a, keeps (k a)) → keeps (bind m k).
Proof.
  intros Hm Hk st r st' tr H.
  apply bind_inv in H as (r1 & st1 & tr1 & H1 & H). apply Hm in H1.
  destruct r1.
  - destruct H as (tr2 & H2 & ->). apply Hk in H2. by eapply steps_app.
  - by injection H as <- <- <-.
  - by injection H as <- <- <-.
Qed.

Lemma keeps_try_except {A} (m : M W A) (h : exn → M W A) :
  keeps m → (∀ e, keeps (h e)) → keeps (try_except m h).
Proof.
  intros Hm Hh st r st' tr H.
  apply try_except_inv in H as (r1 & st1 & tr1 & H1 & H). apply Hm in H1.
  destruct r1.
  - by injection H as <- <- <-.
  - by injection H as <- <- <-.
  - destruct H as (tr2 & H2 & ->). apply Hh in H2. by eapply steps_app.
Qed.

Lemma keeps_fs_only {A} (m : M W A) : touches_fs_only m → keeps m.
Proof.
  intros Hm st r st' tr H. apply Hm in H as (-> & -> & _). constructor.
Qed.

Lemma keeps_os_path_exists p : keeps (os_path_exists (W:=W) p).
Proof. intros st r st' tr [= <- <- <-]. constructor. Qed.

Lemma keeps_subprocess_run cmd t : keeps (subprocess_run R cmd t).
Proof.
  intros [ps0 fs0 w0] r st' tr H. unfold_ops H. repeat (inner_match H).
  all: injection H as <- <- <-; by repeat constructor.
Qed.

Lemma keeps_requests_get url t : keeps (requests_get R url t).
Proof.
  intros [ps0 fs0 w0] r st' tr H. unfold_ops H. repeat (inner_match H).
  all: injection H as <- <- <-; by repeat constructor.
Qed.

Lemma keeps_time_sleep n : keeps (time_sleep R n).
Proof. intros st r st' tr [= <- <- <-]. constructor. Qed.

Lemma keeps_add_log msg lvl : keeps (add_log R msg lvl).
Proof.
  intros [ps0 fs0 w0] r st' tr H. unfold_ops H. injection H as <- <- <-.
  apply steps_log. constructor.
Qed.

Lemma keeps_update_phase p s msg :
  p ≠ upload → s ≠ pending → keeps (update_phase R p s msg).
Proof.
  intros Hp Hs [ps0 fs0 w0] r st' tr H. unfold_ops H. injection H as <- <- <-.
  by apply (steps_update ps0 p s (now R w0) msg [] _ Hp Hs), steps_done.
Qed.

Lemma keeps_set_model_ready : keeps (set_model_ready (W:=W) true).
Proof.
  intros [ps0 fs0 w0] r st' tr H. unfold_ops H. injection H as <- <- <-.
  apply steps_ready. constructor.
Qed.

End Keeps.

(** Go through a block, statement by statement *)
Ltac walk :=
  repeat first
    [ apply keeps_ret | apply keeps_early_return | apply keeps_raise
    | apply keeps_add_log | apply keeps_set_model_ready
    | apply keeps_update_phase; [discriminate | discriminate]
    | apply keeps_subprocess_run | apply keeps_requests_get | apply keeps_time_sleep
    | apply keeps_os_path_exists
    | apply keeps_fs_only;
      first [apply os_makedirs_fs_only | apply replace_file_fs_only]
    | apply keeps_bind; [|intros ?]
    | apply keeps_try_except; [|intros ?]
    | lazymatch goal with
      | |- keeps (if ?b then _ else _) => destruct b
      | |- keeps (match ?x with _ => _ end) => destruct x
      | |- keeps (let _ := _ in _) => cbv zeta
      end ].

Section KeepsRun.

Context {W : Type} (R : Runtime W).

Lemma keeps_convert_excel h fn : keeps (convert_excel R h fn).
Proof. unfold convert_excel. walk. Qed.

Lemma keeps_rename_csv fn : keeps (rename_csv R fn).
Proof. unfold rename_csv. walk. Qed.

Lemma keeps_phase_cleaning h fn : keeps (phase_cleaning R h fn).
Proof. unfold phase_cleaning. walk. Qed.

Lemma keeps_phase_training h : keeps (phase_training R h).
Proof. unfold phase_training. walk. Qed.

Lemma keeps_phase_inference h : keeps (phase_inference R h).
Proof. unfold phase_inference, stop_inference_service. walk. Qed.

Lemma keeps_run_pipeline_body h fn : keeps (run_pipeline_body R h fn).
Proof.
  unfold run_pipeline_body.
  apply keeps_bind.
  { destruct (endswith fn ".xlsx"); [apply keeps_convert_excel|apply keeps_rename_csv]. }
  intros fn'. apply keeps_bind; [apply keeps_phase_cleaning|].
  intros _. apply keeps_bind; [apply keeps_phase_training|].
  intros _. apply keeps_phase_inference.
Qed.

(** Every run of [run_pipeline] is made of steps. *)
Lemma run_pipeline_steps fn st st' tr :
  run_pipeline R fn st = (st', tr) →
  steps (pipeline_status st) tr (pipeline_status st').
Proof.
  unfold run_pipeline.
  destruct (run_pipeline_body R _ fn st) as [[r st1] tr1] eqn:E.
  apply keeps_run_pipeline_body in E.
  destruct r.
  1,2: by intros [= <- <-].
  destruct (add_log R _ _ st1) as [[r2 st2] tr2] eqn:E2.
  apply keeps_add_log in E2. intros [= <- <-]. by eapply steps_app.
Qed.

End KeepsRun.

Section Upload.

Context {W : Type} (R : Runtime W).

(** What [upload_file] has done when it has started a run. *)
Lemma upload_file_started_cases file st r st1 tr1 :
  upload_file R file st = (r, st1, tr1) →
  match r with
  | Val (resp, Some fn) =>
      ∃ f name t,
        file = Some f ∧ filename f = Some name ∧ accepted file = true ∧
        fn = secure_filename R name ∧
        resp = jsonify (JObj [("success", JBool true); ("filename", JStr fn)]) ∧
        pipeline_status st1
        = updated upload completed t (uploaded_message fn)
            (reset_record (pipeline_status st)) ∧
        tr1 = [EmitLog (phase_entry upload completed t (uploaded_message fn));
               EmitStatus (pipeline_status st1)]
  | _ => True
  end.
Proof.
  intros H. destruct st as [ps0 fs0 w0]. unfold upload_file, reset_for_upload in H.
  destruct file as [f|]; [|by injection H as <- <- <-].
  destruct (bool_decide (filename f = Some "")) eqn:Hempty; [by injection H as <- <- <-|].
  destruct (filename f) as [name|] eqn:Hname; [|by injection H as <- <- <-].
  destruct (endswith name ".xlsx" || endswith name ".csv") eqn:Hext;
    [|by injection H as <- <- <-].
  exec H; try done.
  exists f, name, (now R w0). repeat split; try done.
  cbn. rewrite Hname, Hext.
  apply bool_decide_eq_false_1 in Hempty.
  destruct (String.eqb_spec name ""); [by subst|done].
Qed.

Lemma upload_file_started file st resp fn st1 tr1 :
  upload_file R file st = (Val (resp, Some fn), st1, tr1) →
  ∃ f name t,
    file = Some f ∧ filename f = Some name ∧ accepted file = true ∧
    fn = secure_filename R name ∧
    resp = jsonify (JObj [("success", JBool true); ("filename", JStr fn)]) ∧
    pipeline_status st1
    = updated upload completed t (uploaded_message fn)
        (reset_record (pipeline_status st)) ∧
    tr1 = [EmitLog (phase_entry upload completed t (uploaded_message fn));
           EmitStatus (pipeline_status st1)].
Proof. intros H. exact (upload_file_started_cases _ _ _ _ _ H). Qed.

(** An upload that is not accepted, or that cannot be saved, starts
    nothing and shows nothing. *)
Lemma upload_file_not_started file st r st1 tr1 :
  upload_file R file st = (r, st1, tr1) →
  (∀ resp fn, r ≠ Val (resp, Some fn)) →
  tr1 = [] ∧
  (accepted file = false → st1 = st) ∧
  (accepted file = true →
   pipeline_status st1 = reset_record (pipeline_status st) ∧ ∃ e, r = Raise e).
Proof.
  intros H Hr. destruct st as [ps0 fs0 w0]. unfold upload_file, reset_for_upload in H.
  destruct file as [f|]; [|by injection H as <- <- <-].
  cbn [accepted].
  destruct (bool_decide (filename f = Some "")) eqn:Hempty.
  { apply bool_decide_eq_true_1 in Hempty. rewrite Hempty.
    by injection H as <- <- <-. }
  destruct (filename f) as [name|] eqn:Hname; [|by injection H as <- <- <-].
  destruct (endswith name ".xlsx" || endswith name ".csv") eqn:Hext.
  2: { rewrite andb_false_r. by injection H as <- <- <-. }
  apply bool_decide_eq_false_1 in Hempty.
  assert (String.eqb name "" = false) as ->.
  { destruct (String.eqb_spec name ""); [by subst|done]. }
  exec H; try (by edestruct Hr).
  all: split; [done|]; split; [done|]; intros _; split; [done|]; by eexists.
Qed.

(** An upload that is not accepted is answered with code 400. *)
Lemma upload_file_refused file st :
  accepted file = false →
  ∃ msg,
    upload_file R file st = (Val (jsonify_with (error_body msg) 400, None), st, []).
Proof.
  intros Hacc. unfold upload_file.
  destruct file as [f|]; cbn [accepted] in Hacc; [|by eexists].
  destruct (filename f) as [name|]; [|by eexists].
  case_bool_decide as Hempty; [by eexists|].
  destruct (endswith name ".xlsx" || endswith name ".csv"); [|by eexists].
  rewrite andb_true_r in Hacc. by apply negb_false_iff, String.eqb_eq in Hacc as ->.
Qed.

End Upload.

(** ** What the steps of a run keep *)

Lemma emitted_logs_app t1 t2 :
  emitted_logs (t1 ++ t2) = emitted_logs t1 ++ emitted_logs t2.
Proof. apply omap_app. Qed.

Lemma steps_logs a tr b :
  steps a tr b →
  logs b = logs a ++ emitted_logs tr ∧
  ∀ t1 s t2, tr = t1 ++ EmitStatus s :: t2 → logs s = logs a ++ emitted_logs t1.
Proof.
  induction 1 as [ps|ps e tr ps' He _ [IH1 IH2]|ps e tr ps' _ [IH1 IH2]
                 |ps p s t msg tr ps' Hp Hs _ [IH1 IH2]|ps tr ps' _ [IH1 IH2]].
  - split; [by rewrite app_nil_r|]. by intros [|? ?] ? ?.
  - split.
    + destruct e; try done.
    + intros [|e0 t1] s t2 Heq; injection Heq as -> ->; [done|].
      rewrite (IH2 _ _ _ eq_refl). by destruct e0.
  - split.
    + rewrite IH1. cbn. by rewrite <- app_assoc.
    + intros [|e0 t1] s t2 Heq; [done|]. injection Heq as <- ->.
      rewrite (IH2 _ _ _ eq_refl). cbn. by rewrite <- app_assoc.
  - split.
    + rewrite IH1. cbn. by rewrite <- app_assoc.
    + intros [|e0 [|e1 t1]] s' t2 Heq; [done| |].
      * by injection Heq as <- <- <-.
      * injection Heq as <- <- ->. rewrite (IH2 _ _ _ eq_refl). cbn.
        by rewrite <- app_assoc.
  - done.
Qed.

Lemma steps_upload_entry a tr b :
  steps a tr b →
  phases b upload = phases a upload ∧
  ∀ s, EmitStatus s ∈ tr → phases s upload = phases a upload.
Proof.
  induction 1 as [ps|ps e tr ps' He _ [IH1 IH2]|ps e tr ps' _ [IH1 IH2]
                 |ps p s t msg tr ps' Hp Hs _ [IH1 IH2]|ps tr ps' _ [IH1 IH2]].
  - split; [done|]. by intros s ?%elem_of_nil.
  - split; [done|]. intros s [<-|?]%elem_of_cons; [done|auto].
  - split; [done|]. intros s [?|?]%elem_of_cons; [done|auto].
  - assert (phases (updated p s t msg ps) upload = phases ps upload) as Hsame.
    { cbn. unfold set_phase. by destruct (decide (upload = p)). }
    split; [congruence|].
    intros s' [?|[[= ->]|?]%elem_of_cons]%elem_of_cons; [done|done|].
    rewrite <- Hsame. auto.
  - done.
Qed.

Lemma tidy_updated p s t msg ps : s ≠ pending → tidy ps → tidy (updated p s t msg ps).
Proof.
  intros Hs Hps q. specialize (Hps q). cbn. unfold set_phase.
  destruct (decide (q = p)); [|done]. cbn. by destruct s.
Qed.

Lemma steps_tidy a tr b :
  steps a tr b → tidy a → tidy b ∧ ∀ s, EmitStatus s ∈ tr → tidy s.
Proof.
  induction 1 as [ps|ps e tr ps' He _ IH|ps e tr ps' _ IH
                 |ps p s t msg tr ps' Hp Hs _ IH|ps tr ps' _ IH]; intros Ha.
  - split; [done|]. by intros s ?%elem_of_nil.
  - destruct (IH Ha) as [IH1 IH2]. split; [done|].
    intros s [<-|?]%elem_of_cons; [done|auto].
  - destruct (IH Ha) as [IH1 IH2]. split; [done|].
    intros s [?|?]%elem_of_cons; [done|auto].
  - destruct (IH (tidy_updated p s t msg ps Hs Ha)) as [IH1 IH2]. split; [done|].
    intros s' [?|[[= ->]|?]%elem_of_cons]%elem_of_cons; [done| |auto].
    by apply tidy_updated.
  - by apply IH.
Qed.

(** At the end the phases and the current phase are those of the last
    broadcast. *)
Lemma steps_last_broadcast a tr b :
  steps a tr b →
  match last (snapshots tr) with
  | Some s => phases b = phases s ∧ current_phase b = current_phase s
  | None => phases b = phases a ∧ current_phase b = current_phase a
  end.
Proof.
  induction 1 as [ps|ps e tr ps' He _ IH|ps e tr ps' _ IH
                 |ps p s t msg tr ps' Hp Hs _ IH|ps tr ps' _ IH].
  - done.
  - destruct e; try done.
  - cbn [snapshots omap list_omap]. fold (snapshots tr).
    by destruct (last (snapshots tr)).
  - cbn [snapshots omap list_omap]. fold (snapshots tr).
    rewrite last_cons. by destruct (last (snapshots tr)).
  - by destruct (last (snapshots tr)).
Qed.

(** Each broadcast names as current a phase that is not pending. *)
Lemma steps_current a tr b :
  steps a tr b →
  ∀ s, EmitStatus s ∈ tr →
    ∃ p, current_phase s = at_phase p ∧ p ≠ upload ∧ status (phases s p) ≠ pending.
Proof.
  induction 1 as [ps|ps e tr ps' He _ IH|ps e tr ps' _ IH
                 |ps p s t msg tr ps' Hp Hs _ IH|ps tr ps' _ IH].
  - by intros s ?%elem_of_nil.
  - intros s [<-|?]%elem_of_cons; [done|auto].
  - intros s [?|?]%elem_of_cons; [done|auto].
  - intros s' [?|[[= ->]|?]%elem_of_cons]%elem_of_cons; [done| |auto].
    exists p. cbn. unfold set_phase. by rewrite decide_True.
  - done.
Qed.

Section UploadRuns.

Context {W : Type} (R : Runtime W).

(** An upload either starts a run, or it shows nothing. *)
Lemma upload_and_run_inv file st res st' tr :
  upload_and_run R file st = (res, st', tr) →
  (∃ resp fn st1 tr1 tr2,
     upload_file R file st = (Val (resp, Some fn), st1, tr1) ∧
     run_pipeline R fn st1 = (st', tr2) ∧ tr = tr1 ++ tr2 ∧ res = Val resp) ∨
  (∃ r, upload_file R file st = (r, st', tr) ∧
        (∀ resp fn, r ≠ Val (resp, Some fn)) ∧
        res = match r with
              | Val (resp, _) => Val resp
              | Return => Return
              | Raise e => Raise e
              end).
Proof.
  unfold upload_and_run.
  destruct (upload_file R file st) as [[r st1] tr1] eqn:E.
  destruct r as [[resp [fn|]]| |e].
  - destruct (run_pipeline R fn st1) as [st2 tr2] eqn:E2.
    intros [= <- <- <-]. left. by eexists _, _, _, _, _.
  - intros [= <- <- <-]. right. by eexists.
  - intros [= <- <- <-]. right. by eexists.
  - intros [= <- <- <-]. right. by eexists.
Qed.

(** X4.  From the reset of an accepted upload on, the log entries sent to the
    clients are the entries of the log, in order: at the end of the run,
    and in every status broadcast for what had been sent until then.  An
    upload that is refused changes and shows nothing. *)
Theorem log_is_sent_in_full file st :
  let '(res, st', tr) := upload_and_run R file st in
  if accepted file then
    logs (pipeline_status st') = emitted_logs tr ∧
    ∀ tr1 s tr2, tr = tr1 ++ EmitStatus s :: tr2 → logs s = emitted_logs tr1
  else st' = st ∧ tr = [].
Proof.
  destruct (upload_and_run R file st) as [[res st'] tr] eqn:H.
  apply upload_and_run_inv in H
    as [(resp & fn & st1 & tr1 & tr2 & Hup & Hrun & -> & ->)|(r & Hup & Hr & ->)].
  - apply upload_file_started in Hup as (f & name & t & -> & Hname & Hacc & _ & _ & Hps & ->).
    rewrite Hacc.
    apply run_pipeline_steps in Hrun; apply steps_logs in Hrun as [Hend Hshown].
    rewrite Hps in Hend, Hshown. split.
    + rewrite Hend. by rewrite emitted_logs_app.
    + intros [|e0 [|e1 t1]] s t2 Heq; [done| |].
      * injection Heq as <- <- _. by rewrite Hps.
      * injection Heq as <- <- ->. by rewrite (Hshown _ _ _ eq_refl).
  - apply upload_file_not_started in Hup as (-> & Hno & Hyes); [|done].
    destruct (accepted file).
    + destruct Hyes as [-> _]; [done|]. split; [done|]. by intros [|? ?] ? ?.
    + by rewrite Hno.
Qed.

(** X5.  A run does not touch the entry of the upload phase: when an upload has
    been saved and answered with code 200, the entry says completed, with
    the message that names the file, in every broadcast and at the end of
    the run. *)
Theorem run_keeps_upload_entry file st resp st' tr :
  upload_and_run R file st = (Val resp, st', tr) →
  code resp = 200%nat →
  ∃ f name t,
    file = Some f ∧ filename f = Some name ∧
    let entry := {| status := completed; timestamp := Some t;
                    message := uploaded_message (secure_filename R name) |} in
    phases (pipeline_status st') upload = entry ∧
    ∀ s, EmitStatus s ∈ tr → phases s upload = entry.
Proof.
  intros H Hcode.
  apply upload_and_run_inv in H
    as [(resp1 & fn & st1 & tr1 & tr2 & Hup & Hrun & -> & [= ->])|(r & Hup & Hr & Hres)].
  - apply upload_file_started in Hup as (f & name & t & -> & Hname & _ & -> & _ & Hps & ->).
    exists f, name, t. split; [done|]. split; [done|].
    apply run_pipeline_steps in Hrun; apply steps_upload_entry in Hrun as [Hend Hshown].
    rewrite Hps in Hend, Hshown. split; [done|].
    intros s [[=]|[[= ->]|Hs]%elem_of_cons]%elem_of_cons; [by rewrite Hps|auto].
  - destruct (accepted file) eqn:Hacc.
    + apply upload_file_not_started in Hup as (_ & _ & Hyes); [|done].
      destruct (Hyes Hacc) as (_ & e & ->). done.
    + destruct (upload_file_refused R file st Hacc) as [msg Hno].
      rewrite Hno in Hup. injection Hup as <- <- <-. by injection Hres as ->.
Qed.

(** X6.  From the reset of an accepted upload on, in every broadcast and at the
    end of the run, a phase that is pending has no timestamp and no
    message, and every other phase has a timestamp. *)
Theorem pending_iff_untouched file st res st' tr :
  upload_and_run R file st = (res, st', tr) →
  accepted file = true →
  tidy (pipeline_status st') ∧ ∀ s, EmitStatus s ∈ tr → tidy s.
Proof.
  intros H Hacc.
  assert (tidy (reset_record (pipeline_status st))) as Hreset by (by intros p).
  apply upload_and_run_inv in H
    as [(resp & fn & st1 & tr1 & tr2 & Hup & Hrun & -> & ->)|(r & Hup & Hr & ->)].
  - apply upload_file_started in Hup as (f & name & t & -> & Hname & _ & _ & _ & Hps & ->).
    assert (tidy (pipeline_status st1)) as H1.
    { rewrite Hps. by apply tidy_updated. }
    apply run_pipeline_steps in Hrun; apply steps_tidy in Hrun as [Hend Hshown]; [|done].
    split; [done|].
    intros s [[=]|[[= ->]|Hs]%elem_of_cons]%elem_of_cons; auto.
  - apply upload_file_not_started in Hup as (-> & _ & Hyes); [|done].
    destruct (Hyes Hacc) as [-> _]. split; [done|]. by intros s ?%elem_of_nil.
Qed.

End UploadRuns.

Section Emits.

Context {W : Type} (R : Runtime W) (P : Event → Prop).

Hypothesis P_log : ∀ e, P (EmitLog e).
Hypothesis P_status : ∀ s, P (EmitStatus s).

Lemma emits_ret {A} (a : A) : emits P (ret (W:=W) a).
Proof. intros st r st' tr [= <- <- <-]. constructor. Qed.

Lemma emits_early_return {A} : emits P (early_return (W:=W) (A:=A)).
Proof. intros st r st' tr [= <- <- <-]. constructor. Qed.

Lemma emits_raise {A} e : emits P (raise (W:=W) (A:=A) e).
Proof. intros st r st' tr [= <- <- <-]. constructor. Qed.

Lemma emits_bind {A B} (m : M W A) (k : A → M W B) :
  emits P m → (∀ a, emits P (k a)) → emits P (bind m k).
Proof.
  intros Hm Hk st r st' tr H.
  apply bind_inv in H as (r1 & st1 & tr1 & H1 & H). apply Hm in H1.
  destruct r1.
  - destruct H as (tr2 & H2 & ->). apply Hk in H2. by apply Forall_app.
  - by injection H as <- <- <-.
  - by injection H as <- <- <-.
Qed.

Lemma emits_try_except {A} (m : M W A) (h : exn → M W A) :
  emits P m → (∀ e, emits P (h e)) → emits P (try_except m h).
Proof.
  intros Hm Hh st r st' tr H.
  apply try_except_inv in H as (r1 & st1 & tr1 & H1 & H). apply Hm in H1.
  destruct r1.
  - by injection H as <- <- <-.
  - by injection H as <- <- <-.
  - destruct H as (tr2 & H2 & ->). apply Hh in H2. by apply Forall_app.
Qed.

Lemma emits_fs_only {A} (m : M W A) : touches_fs_only m → emits P m.
Proof. intros Hm st r st' tr H. apply Hm in H as (-> & _). constructor. Qed.

Lemma emits_os_path_exists p : emits P (os_path_exists (W:=W) p).
Proof. intros st r st' tr [= <- <- <-]. constructor. Qed.

Lemma emits_os_path_isfile p : emits P (os_path_isfile (W:=W) p).
Proof. intros st r st' tr [= <- <- <-]. constructor. Qed.

Lemma emits_subprocess_run cmd t :
  (∀ f0 result f1, P (Subprocess cmd t f0 result f1)) →
  emits P (subprocess_run R cmd t).
Proof.
  intros HP [ps0 fs0 w0] r st' tr H. unfold_ops H. repeat (inner_match H).
  all: injection H as <- <- <-; by repeat constructor.
Qed.

Lemma emits_requests_get url t : P (HttpGet url) → emits P (requests_get R url t).
Proof.
  intros HP [ps0 fs0 w0] r st' tr H. unfold_ops H. repeat (inner_match H).
  all: injection H as <- <- <-; by repeat constructor.
Qed.

Lemma emits_requests_post url data t :
  P (HttpPost url data) → emits P (requests_post R url data t).
Proof.
  intros HP [ps0 fs0 w0] r st' tr H. unfold_ops H. repeat (inner_match H).
  all: injection H as <- <- <-; by repeat constructor.
Qed.

Lemma emits_time_sleep n : emits P (time_sleep R n).
Proof. intros st r st' tr [= <- <- <-]. constructor. Qed.

Lemma emits_add_log msg lvl : emits P (add_log R msg lvl).
Proof.
  intros [ps0 fs0 w0] r st' tr H. unfold_ops H. injection H as <- <- <-.
  by repeat constructor.
Qed.

Lemma emits_update_phase p s msg : emits P (update_phase R p s msg).
Proof.
  intros [ps0 fs0 w0] r st' tr H. unfold_ops H. injection H as <- <- <-.
  by repeat constructor.
Qed.

Lemma emits_emit_status_update : emits P (emit_status_update (W:=W)).
Proof.
  intros [ps0 fs0 w0] r st' tr H. unfold_ops H. injection H as <- <- <-.
  by repeat constructor.
Qed.

Lemma emits_get_status_record : emits P (get_status_record (W:=W)).
Proof. intros st r st' tr [= <- <- <-]. constructor. Qed.

Lemma emits_put_status_record ps : emits P (put_status_record (W:=W) ps).
Proof. intros st r st' tr [= <- <- <-]. constructor. Qed.

Lemma emits_set_model_ready b : emits P (set_model_ready (W:=W) b).
Proof. intros [ps0 fs0 w0] r st' tr H. unfold_ops H. by injection H as <- <- <-. Qed.

End Emits.

(** Go through a block; [tac] shows that an event satisfies the predicate. *)
Ltac survey tac :=
  repeat first
    [ apply emits_ret | apply emits_early_return | apply emits_raise
    | apply emits_set_model_ready | apply emits_time_sleep
    | apply emits_get_status_record | apply emits_put_status_record
    | apply emits_os_path_exists | apply emits_os_path_isfile
    | apply emits_add_log; solve [tac]
    | apply emits_update_phase; solve [tac]
    | apply emits_emit_status_update; solve [tac]
    | apply emits_subprocess_run; solve [tac]
    | apply emits_requests_get; solve [tac]
    | apply emits_requests_post; solve [tac]
    | apply emits_fs_only;
      first [apply os_makedirs_fs_only | apply replace_file_fs_only
            | apply file_save_fs_only]
    | apply emits_bind; [|intros ?]
    | apply emits_try_except; [|intros ?]
    | lazymatch goal with
      | |- emits _ (if ?b then _ else _) => destruct b
      | |- emits _ (match ?x with _ => _ end) => destruct x
      end ].

Lemma makedirs_fs_grows todo done fs0 fs' :
  makedirs_fs done todo fs0 = inr fs' →
  fs0 ⊆ fs' ∧ (todo ≠ [] → fs' !! (done ++ todo) = Some Dir).
Proof.
  revert done fs0. induction todo as [|c rest IH]; intros done fs0 H; cbn in H.
  { by injection H as <-. }
  destruct (fs0 !! (done ++ [c])) as [[x|]|] eqn:Hp; [done| |].
  - apply IH in H as [Hsub Hdir]. split; [done|]. intros _.
    destruct rest as [|c' rest'].
    + cbn in *. eapply lookup_weaken; [exact Hp|done].
    + rewrite <- Hdir; [|done]. by rewrite <- app_assoc.
  - apply IH in H as [Hsub Hdir]. split.
    + etransitivity; [|exact Hsub]. by apply insert_subseteq.
    + intros _. destruct rest as [|c' rest'].
      * eapply lookup_weaken; [|exact Hsub]. by rewrite lookup_insert_eq.
      * rewrite <- Hdir; [|done]. by rewrite <- app_assoc.
Qed.

Lemma strip_prefix_refl p : strip_prefix p p = Some [].
Proof. induction p as [|a p IH]; [done|]. cbn. by rewrite decide_True. Qed.

Section Tracking.

Context {W : Type} (R : Runtime W).

(** [os.makedirs] keeps every file and folder; when it returns, the
    folder is there. *)
Lemma os_makedirs_grows p st r st' tr :
  p ≠ [] →
  os_makedirs R p st = (r, st', tr) →
  tr = [] ∧ pipeline_status st' = pipeline_status st ∧ world st' = world st ∧
  r ≠ Return ∧ fs st ⊆ fs st' ∧ (r = Val tt → fs st' !! p = Some Dir).
Proof.
  intros Hp H. destruct st as [ps0 fs0 w0]. unfold os_makedirs in H. cbn [fs] in H.
  destruct (fs0 !! p) as [[x|]|] eqn:Hlook.
  2: { by injection H as <- <- <-. }
  all: unfold with_fault in H; cbn [world fs] in H;
    destruct (os_fault R _ w0); [by injection H as <- <- <-|];
    destruct (makedirs_fs [] p fs0) as [e|fs1] eqn:Hmk; [by injection H as <- <- <-|];
    apply makedirs_fs_grows in Hmk as [Hsub Hdir];
    injection H as <- <- <-; cbn; repeat split; auto.
Qed.

(** When [replace_file] returns, there is something under the new name. *)
Lemma replace_file_lands src dst st r st' tr :
  replace_file R src dst st = (r, st', tr) →
  tr = [] ∧ pipeline_status st' = pipeline_status st ∧ world st' = world st ∧
  r ≠ Return ∧ (r = Val tt → exists_fs dst (fs st') = true).
Proof.
  intros H. destruct (replace_file_fs_only R _ _ _ _ _ _ H) as (Ea & Eb & Ec & Ed).
  repeat split; try done. intros ->.
  destruct st as [ps0 fs0 w0]. unfold replace_file in H.
  apply bind_inv in H as (r1 & st1 & tr1 & H1 & H). injection H1 as <- <- <-.
  destruct H as (tr2 & H & _).
  apply bind_inv in H as (r2 & st2 & tr3 & _ & H).
  destruct r2; [|done..]. destruct H as (tr4 & H & _).
  destruct st2 as [ps2 fs2 w2]. unfold_all_ops H.
  repeat (inner_match H; unfold_all_ops H); try done.
  all: injection H as <-; cbn [fs]; unfold exists_fs.
  1,2: by rewrite lookup_insert_eq.
  all: destruct (move_subtree src dst fs2 !! dst) eqn:Hl; [done|exfalso].
  all: unfold move_subtree in Hl; apply not_elem_of_list_to_map_2 in Hl.
  all: apply Hl, list_elem_of_fmap; exists (dst, Dir); split; [done|].
  all: apply list_elem_of_fmap; exists (src, Dir); split;
    [cbn; by rewrite strip_prefix_refl, app_nil_r|by apply elem_of_map_to_list].
Qed.

End Tracking.

Lemma exists_fs_weaken (p : path) (f g : FS) : f ⊆ g → exists_fs p f = true → exists_fs p g = true.
Proof.
  unfold exists_fs. intros Hsub Hf.
  destruct (f !! p) as [x|] eqn:E; [|done].
  by rewrite (lookup_weaken _ _ _ _ E Hsub).
Qed.

(** One operation; of [os.makedirs] and of the renaming, what they leave
    is kept. *)
Ltac fs_tracked H lem :=
  let E1 := fresh "E" in let E2 := fresh "E" in let E3 := fresh "E" in
  let E4 := fresh "E" in
  apply lem in H as (-> & E1 & E2 & E3 & E4);
  [ lazymatch type of E1 with
    | pipeline_status ?s1 = _ =>
        destruct s1 as [? ? ?]; cbn [pipeline_status world fs] in E1, E2, E4; subst
    end | done .. ].

Ltac tracked_leaf H :=
  lazymatch type of H with
  | os_makedirs _ _ _ = (?r, _, _) =>
      fs_tracked H os_makedirs_grows; destruct r; [ | done | ]
  | replace_file _ _ _ _ = (?r, _, _) =>
      fs_tracked H replace_file_lands; destruct r; [ | done | ]
  | _ => unfold_ops H; repeat (inner_match H; unfold_ops H); injection H as <- <- <-
  end.

Ltac track H := exec_core tracked_leaf H.

Ltac stage_events :=
  cbn [fs];
  repeat match goal with
         | |- Forall _ [] => constructor
         | |- Forall _ (_ :: _) => constructor
         | |- Forall _ (_ ++ _) => apply Forall_app; split
         | |- _ ∧ _ => split
         | |- well_started _ _ (EmitLog _) => exact I
         | |- well_started _ _ (EmitStatus _) => exact I
         | |- well_started _ _ (HttpGet _) => exact I
         end.

Section Stages.

Context {W : Type} (R : Runtime W).

Lemma convert_excel_starts_well h fn0 fn :
  starts_well h fn0 (λ _, True) (convert_excel R h fn)
    (λ fn' f, fn' = "OnlineRetail.csv" ∧ exists_fs (raw_file fn') f = true).
Proof.
  intros [ps0 fs0 w0] r st' tr _ H. unfold convert_excel in H.
  track H; stage_events; try (intros ? [=]; subst; done); try done.
  all: cbn [well_started stage_of_image image_of List.last converter_cmd
            String.eqb Ascii.eqb Bool.eqb andb]; split; try done.
  all: repeat match goal with
              | a : () |- _ => destruct a
              | E : _ ∧ _ |- _ => destruct E
              end.
  all: try match goal with E : _ → exists_fs _ _ = true |- _ => by apply E end.
  all: match goal with
       | E : negb (String.eqb _ _) = false |- _ =>
           apply negb_false_iff, String.eqb_eq in E as ->
       end.
  all: by apply negb_false_iff.
Qed.

Lemma rename_csv_starts_well h fn0 fn :
  starts_well h fn0 (λ _, True) (rename_csv R fn)
    (λ fn' _, fn' = fn ∨ fn' = "OnlineRetail.csv").
Proof.
  intros [ps0 fs0 w0] r st' tr _ H. unfold rename_csv in H.
  track H; stage_events; intros ? [= <-]; auto.
Qed.

Lemma phase_cleaning_starts_well h fn0 name :
  name = (if endswith fn0 ".xlsx" then "OnlineRetail.csv" else name) →
  name = fn0 ∨ name = "OnlineRetail.csv" →
  starts_well h fn0 (λ _, True) (phase_cleaning R h name)
    (λ _ f, exists_fs cleaned_path f = true).
Proof.
  intros Hx Hname [ps0 fs0 w0] r st' tr _ H. unfold phase_cleaning in H.
  track H; stage_events; try (intros ? [=]; subst; done); try done.
  all: cbn [well_started stage_of_image image_of List.last cleaning_cmd
            String.eqb Ascii.eqb Bool.eqb andb].
  all: exists name; repeat split; try done.
  all: repeat match goal with
              | a : () |- _ => destruct a
              | E : _ ∧ _ |- _ => destruct E
              end.
  all: try match goal with E : _ → _ !! _ = Some Dir |- _ => by apply E end.
  all: eapply exists_fs_weaken; [eassumption|]; by apply negb_false_iff.
Qed.

Lemma phase_training_starts_well h fn0 :
  starts_well h fn0 (λ f, exists_fs cleaned_path f = true) (phase_training R h)
    (λ _ _, True).
Proof.
  intros [ps0 fs0 w0] r st' tr Hpre H. unfold phase_training in H. cbn [fs] in Hpre.
  track H; stage_events; try done.
  all: cbn [well_started stage_of_image image_of List.last training_cmd
            String.eqb Ascii.eqb Bool.eqb andb].
  all: repeat split; try done.
  all: repeat match goal with
              | a : () |- _ => destruct a
              | E : _ ∧ _ |- _ => destruct E
              end.
  all: try match goal with E : _ → _ !! _ = Some Dir |- _ => by apply E end.
  all: by eapply exists_fs_weaken.
Qed.

Lemma phase_inference_starts_well h fn0 :
  starts_well h fn0 (λ _, True) (phase_inference R h) (λ _ _, True).
Proof.
  intros st r st' tr _ H. split; [|done]. revert st r st' tr H.
  change (emits (well_started h fn0) (phase_inference R h)).
  unfold phase_inference, stop_inference_service.
  survey ltac:(by intros).
Qed.

Lemma bind_starts_well {A : Type} {B : Type} (h fn0 : string) (Pre : FS → Prop) (Mid : A → FS → Prop)
    (Post : B → FS → Prop) (m : M W A) (k : A → M W B) :
  starts_well h fn0 Pre m Mid →
  (∀ a, starts_well h fn0 (Mid a) (k a) Post) →
  starts_well h fn0 Pre (bind m k) Post.
Proof.
  intros Hm Hk st r st' tr Hpre H.
  apply bind_inv in H as (r1 & st1 & tr1 & H1 & H).
  destruct (Hm _ _ _ _ Hpre H1) as [Hev Hmid].
  destruct r1.
  - destruct H as (tr2 & H2 & ->).
    destruct (Hk a _ _ _ _ (Hmid a eq_refl) H2) as [Hev2 Hpost].
    split; [by apply Forall_app|done].
  - by injection H as <- <- <-.
  - by injection H as <- <- <-.
Qed.

Lemma starts_well_weaken {A : Type} (h fn0 : string) (Pre : FS → Prop) (Post Post' : A → FS → Prop)
    (m : M W A) :
  (∀ a f, Post a f → Post' a f) →
  starts_well h fn0 Pre m Post → starts_well h fn0 Pre m Post'.
Proof.
  intros Himp Hm st r st' tr Hpre H. destruct (Hm _ _ _ _ Hpre H) as [? Hp]. split; [done|].
  intros a ->. by apply Himp, Hp.
Qed.

(** Every worker a run starts is started well. *)
Lemma run_pipeline_starts_well fn st st' tr :
  run_pipeline R fn st = (st', tr) →
  Forall (well_started (get_host_data_path R) fn) tr.
Proof.
  unfold run_pipeline.
  destruct (run_pipeline_body R _ fn st) as [[r st1] tr1] eqn:E.
  assert (Forall (well_started (get_host_data_path R) fn) tr1) as Hbody.
  { unfold run_pipeline_body in E.
    eapply (bind_starts_well _ _ (λ _, True)
              (λ name _, name = (if endswith fn ".xlsx" then "OnlineRetail.csv" else name)
                         ∧ (name = fn ∨ name = "OnlineRetail.csv"))
              (λ _ _, True)); [| |done|exact E].
    - destruct (endswith fn ".xlsx").
      + eapply starts_well_weaken; [|apply convert_excel_starts_well].
        intros a f [-> _]. auto.
      + eapply starts_well_weaken; [|apply rename_csv_starts_well].
        intros a f Ha. auto.
    - intros name st0 r0 st0' tr0 [Hx Hname] H0.
      set (h := get_host_data_path R) in *.
      assert (starts_well h fn (λ _, True)
                (bind (phase_cleaning R h name)
                   (λ _, bind (phase_training R h) (λ _, phase_inference R h)))
                (λ _ _, True)) as Hrest.
      { eapply bind_starts_well; [by apply phase_cleaning_starts_well|].
        intros ?. eapply bind_starts_well; [apply phase_training_starts_well|].
        intros ?. apply phase_inference_starts_well. }
      exact (Hrest _ _ _ _ I H0). }
  destruct r.
  1,2: by intros [= <- <-].
  destruct (add_log R _ _ st1) as [[r2 st2] tr2] eqn:E2.
  destruct st1 as [ps1 fs1 w1]. unfold_ops E2. injection E2 as <- <- <-.
  intros [= <- <-]. apply Forall_app. split; [done|]. by repeat constructor.
Qed.

End Stages.

(** One operation of a handler that reads *)
Ltac reading_leaf H :=
  cbv beta iota zeta delta
      [bind ret early_return raise try_except get_status_record put_status_record
       emit os_path_exists os_path_isfile read_file call
       pipeline_status fs world] in H;
  cbn [app negb] in H;
  repeat (inner_match H;
          cbv beta iota zeta delta
              [bind ret early_return raise try_except get_status_record
               put_status_record emit os_path_exists os_path_isfile read_file call
               pipeline_status fs world] in H;
          cbn [app negb] in H);
  injection H as <- <- <-.

Ltac read_through H := exec_core reading_leaf H.

Section Reading.

Context {W DF Obj : Type} (R : Runtime W) (L : Readers W DF Obj).

(** X7.  [dataset_preview] never raises, changes nothing and shows nothing.  It
    answers 200, 404 or 500, and 404 exactly when neither the cleaned file
    nor [OnlineRetail.csv] is there. *)
Theorem dataset_preview_only_reads st :
  ∃ resp,
    dataset_preview L st = (Val resp, st, []) ∧
    (code resp = 200 ∨ code resp = 404 ∨ code resp = 500)%nat ∧
    (code resp = 404%nat ↔
     exists_fs cleaned_path (fs st) = false ∧ exists_fs raw_csv_path (fs st) = false).
Proof.
  destruct st as [ps0 fs0 w0].
  destruct (dataset_preview L {| pipeline_status := ps0; fs := fs0; world := w0 |})
    as [[r st'] tr] eqn:H.
  unfold dataset_preview in H. read_through H.
  all: eexists; split; [reflexivity|]; cbn [code jsonify jsonify_with fs].
  all: split; [auto|].
  all: cbv [cleaned_path raw_csv_path raw_file path_join get_data_path app] in *.
  all: split; [try done|intros [? ?]; try congruence]; auto.
Qed.

End Reading.

Section Reading2.

Context {W DF Obj : Type} (R : Runtime W) (L : Readers W DF Obj).

Ltac rerun :=
  unfold dataset_preview;
  cbv beta iota zeta delta
      [bind ret early_return raise try_except os_path_exists read_file call
       pipeline_status fs world exists_fs];
  cbv [cleaned_path raw_csv_path raw_file path_join get_data_path app] in *;
  repeat match goal with
         | H : ?x = _ |- context [?x] => rewrite H
         end;
  try reflexivity.


(** X9.  [model_info] never raises, changes nothing and shows nothing.  With
    code 200 each of the five flags tells whether its file is there, the
    key [features] is in the answer exactly when [columns.pkl] is there,
    and [countries] exactly when [country_mapping.json] is. *)
Theorem model_info_reports_the_files st :
  ∃ resp,
    model_info L st = (Val resp, st, []) ∧
    (code resp = 200 ∨ code resp = 500)%nat ∧
    (code resp = 200%nat →
     (∀ key p, (key, p) ∈ reported_files →
        field key (body resp) = Some (JBool (exists_fs p (fs st)))) ∧
     (is_Some (field "features" (body resp)) ↔
      exists_fs (path_join get_data_path ["model"; "columns.pkl"]) (fs st) = true) ∧
     (is_Some (field "countries" (body resp)) ↔
      exists_fs (path_join get_data_path ["processed"; "country_mapping.json"]) (fs st)
      = true)).
Proof.
  destruct st as [ps0 fs0 w0].
  destruct (model_info L {| pipeline_status := ps0; fs := fs0; world := w0 |})
    as [[r st'] tr] eqn:H.
  unfold model_info in H. read_through H.
  all: eexists; split; [reflexivity|]; cbn [code body jsonify jsonify_with fs].
  all: split; [auto|]; try done; intros _.
  all: split; [|split].
  all: try (intros key p Hin; unfold reported_files in Hin;
            cbv [path_join get_data_path app] in *;
            repeat (apply elem_of_cons in Hin as [[= -> ->]|Hin];
                    [by repeat match goal with
                               | E : exists_fs _ _ = _ |- _ => rewrite E; clear E
                               end|]);
            by apply elem_of_nil in Hin).
  all: cbn [field assoc app String.eqb Ascii.eqb Bool.eqb].
  all: cbv [path_join get_data_path app] in *.
  all: split; intros Hyp; try done; try (by eexists); try congruence.
  all: by destruct Hyp.
Qed.

End Reading2.

Lemma tree_shaped_parent (f : FS) (d : path) (name : string) :
  tree_shaped f = true → d ≠ [] → is_Some (f !! (d ++ [name])) → f !! d = Some Dir.
Proof.
  unfold tree_shaped. rewrite forallb_forall. intros Hall Hd [x Hx].
  specialize (Hall (d ++ [name])).
  rewrite removelast_last in Hall.
  assert (In (d ++ [name]) (map fst (map_to_list f))) as Hin.
  { apply list_elem_of_In, list_elem_of_fmap. exists (d ++ [name], x).
    split; [done|]. by apply elem_of_map_to_list. }
  apply Hall in Hin. destruct d; [done|]. by destruct (f !! _) as [[?|]|].
Qed.

Lemma strip_prefix_app (d rest : path) : strip_prefix d (d ++ rest) = Some rest.
Proof.
  induction d as [|a d IH]; [by destruct rest|]. cbn. by rewrite decide_True.
Qed.

Lemma elem_of_children (f : FS) (d : path) (name : string) :
  is_Some (f !! (d ++ [name])) → name ∈ children d f.
Proof.
  intros [x Hx]. unfold children. apply list_elem_of_omap.
  exists (d ++ [name]). split.
  - apply list_elem_of_fmap. exists (d ++ [name], x). split; [done|].
    by apply elem_of_map_to_list.
  - by rewrite strip_prefix_app.
Qed.

Section Clearing.

Context {W : Type} (R : Runtime W).

Lemma unlink_files_quiet d names : touches_fs_only (unlink_files R d names).
Proof.
  induction names as [|name names IH]; intros [ps0 fs0 w0] r st' tr H;
    cbn [unlink_files] in H.
  { by injection H as <- <- <-. }
  apply bind_inv in H as (r1 & st1 & tr1 & H1 & H). injection H1 as <- <- <-.
  destruct H as (tr2 & H & ->).
  apply bind_inv in H as (r2 & st2 & tr3 & H2 & H).
  assert (tr3 = [] ∧ pipeline_status st2 = ps0 ∧ world st2 = w0 ∧ r2 ≠ Return)
    as (-> & E1 & E2 & E3).
  { cbn [fs] in H2. destruct (isfile_fs _ fs0).
    - unfold_all_ops H2. repeat (inner_match H2; unfold_all_ops H2).
      all: by injection H2 as <- <- <-.
    - by injection H2 as <- <- <-. }
  destruct r2; [|done|].
  - destruct H as (tr4 & H & ->). apply IH in H as (-> & -> & -> & ?).
    by rewrite E1, E2.
  - by injection H as <- <- <-.
Qed.

Lemma clear_folders_quiet folders :
  touches_fs_only (clear_folders R get_data_path folders).
Proof.
  induction folders as [|folder folders IH]; intros [ps0 fs0 w0] r st' tr H;
    cbn [clear_folders] in H.
  { by injection H as <- <- <-. }
  apply bind_inv in H as (r1 & st1 & tr1 & H1 & H). injection H1 as <- <- <-.
  destruct H as (tr2 & H & ->).
  apply bind_inv in H as (r2 & st2 & tr3 & H2 & H).
  assert (tr3 = [] ∧ pipeline_status st2 = ps0 ∧ world st2 = w0 ∧ r2 ≠ Return)
    as (-> & E1 & E2 & E3).
  { cbn [fs] in H2. destruct (exists_fs _ fs0).
    - apply bind_inv in H2 as (r3 & st3 & tr4 & H3 & H2).
      unfold os_listdir in H3. cbn [fs world] in H3.
      repeat (inner_match H3); injection H3 as <- <- <-.
      all: try (by injection H2 as <- <- <-).
      destruct H2 as (tr5 & H2 & ->).
      by apply unlink_files_quiet in H2 as (-> & -> & -> & ?).
    - by injection H2 as <- <- <-. }
  destruct r2; [|done|].
  - destruct H as (tr4 & H & ->). apply IH in H as (-> & -> & -> & ?).
    by rewrite E1, E2.
  - by injection H as <- <- <-.
Qed.

(** X10.  [clear_data] never raises: it answers 200 or 500.  With 200 the
    status record is the one the program starts with and has been
    broadcast, once, after the files were deleted; with 500 the record is
    as it was and no status has been broadcast. *)
Theorem clear_resets_or_leaves_the_status st :
  ∃ resp st' tr,
    clear_data R st = (Val resp, st', tr) ∧
    ((code resp = 200%nat ∧ pipeline_status st' = initial_status ∧
      ∃ tr1, tr = tr1 ++ [EmitStatus initial_status] ∧ snapshots tr1 = []) ∨
     (code resp = 500%nat ∧ pipeline_status st' = pipeline_status st ∧
      snapshots tr = [])).
Proof.
  destruct (clear_data R st) as [[r st'] tr] eqn:H.
  unfold clear_data in H.
  apply try_except_inv in H as (rA & stA & trA & HA & H).
  apply bind_inv in HA as (rS & stS & trS & HS & HA).
  assert (pipeline_status stS = pipeline_status st ∧ snapshots trS = [] ∧ rS ≠ Return)
    as (ES1 & ES2 & ES3).
  { destruct st as [ps0 fs0 w0]. unfold stop_inference_service in HS.
    exec HS; done. }
  destruct rS as [[]| |e]; [|done|].
  2: { injection HA as <- <- <-. destruct H as (tr2 & H & ->).
       injection H as <- <- <-. eexists _, _, _. split; [done|]. right.
       rewrite app_nil_r. done. }
  destruct HA as (tr2 & HA & ->). cbv zeta in HA.
  apply bind_inv in HA as (rC & stC & trC & HC & HA).
  apply clear_folders_quiet in HC as (-> & EC1 & EC2 & EC3).
  destruct rC as [[]| |e]; [|done|].
  2: { injection HA as <- <- <-. destruct H as (tr3 & H & ->).
       injection H as <- <- <-. eexists _, _, _. split; [done|]. right.
       rewrite !app_nil_r. split; [done|]. split; [congruence|done]. }
  destruct HA as (tr3 & HA & ->). destruct stC as [psC fsC wC].
  unfold reset_for_clear in HA. exec HA.
  eexists _, _, _. split; [done|]. left. split; [done|]. split; [done|].
  exists trS. by rewrite app_nil_r.
Qed.

End Clearing.

Lemma not_file_stays (P : path → Prop) (before after : FS) (p : path) :
  only_files_removed P before after →
  isfile_fs p before = false → isfile_fs p after = false.
Proof.
  intros H. unfold isfile_fs. destruct (H p) as [->|[-> _]]; done.
Qed.

Section Clearing2.

Context {W : Type} (R : Runtime W).

Lemma unlink_files_removes d names st st' tr :
  unlink_files R d names st = (Val tt, st', tr) →
  ∀ name, name ∈ names → isfile_fs (d ++ [name]) (fs st') = false.
Proof.
  revert st st' tr.
  induction names as [|name0 names IH]; intros [ps0 fs0 w0] st' tr H name Hin.
  { by apply elem_of_nil in Hin. }
  cbn [unlink_files] in H.
  apply bind_inv in H as (r1 & st1 & tr1 & H1 & H). injection H1 as <- <- <-.
  destruct H as (tr2 & H & ->).
  apply bind_inv in H as (r2 & st2 & tr3 & H2 & H).
  destruct r2 as [[]| |]; [|done..]. destruct H as (tr4 & H & ->).
  apply elem_of_cons in Hin as [->|Hin]; [|by eapply IH].
  eapply not_file_stays; [by eapply unlink_files_frame|].
  cbn [fs] in H2. unfold path_join in H2.
  destruct (isfile_fs (d ++ [name0]) fs0) eqn:Hfile.
  - unfold_all_ops H2. repeat (inner_match H2; unfold_all_ops H2); try done.
    injection H2 as <-. cbn [fs]. unfold isfile_fs. by rewrite lookup_delete_eq.
  - by injection H2 as <-.
Qed.

Lemma clear_folders_removes folders st st' tr :
  clear_folders R get_data_path folders st = (Val tt, st', tr) →
  (∀ folder name, folder ∈ folders →
     is_Some (fs st !! (get_data_path ++ [folder; name])) →
     fs st !! (get_data_path ++ [folder]) = Some Dir) →
  ∀ folder name, folder ∈ folders →
    isfile_fs (get_data_path ++ [folder; name]) (fs st') = false.
Proof.
  revert st st' tr.
  induction folders as [|folder0 folders IH]; intros [ps0 fs0 w0] st' tr H Htree folder name Hin.
  { by apply elem_of_nil in Hin. }
  cbn [clear_folders] in H. cbn [fs] in Htree.
  apply bind_inv in H as (r1 & st1 & tr1 & H1 & H). injection H1 as <- <- <-.
  destruct H as (tr2 & H & ->).
  apply bind_inv in H as (r2 & st2 & tr3 & H2 & H).
  destruct r2 as [[]| |]; [|done..]. destruct H as (tr4 & H & ->).
  pose proof (clear_folders_frame R _ _ _ _ _ H) as Hrest.
  assert (only_files_removed (λ p, ∃ name, p = (get_data_path ++ [folder0]) ++ [name])
            fs0 (fs st2)) as Hstep.
  { cbn [fs] in H2. destruct (exists_fs _ fs0).
    2: { injection H2 as <-. apply only_files_removed_refl. }
    apply bind_inv in H2 as (r3 & st3 & tr5 & H3 & H2).
    unfold os_listdir in H3. cbn [fs world] in H3.
    repeat (inner_match H3); injection H3 as <- <- <-; try done.
    destruct H2 as (tr6 & H2 & _). by apply unlink_files_frame in H2. }
  apply elem_of_cons in Hin as [->|Hin].
  - eapply not_file_stays; [exact Hrest|].
    cbn [fs] in H2. unfold path_join in H2.
    destruct (exists_fs _ fs0) eqn:Hex.
    + apply bind_inv in H2 as (r3 & st3 & tr5 & H3 & H2).
      unfold os_listdir in H3. cbn [fs world] in H3.
      repeat (inner_match H3); injection H3 as <- <- <-; try done.
      destruct H2 as (tr6 & H2 & _).
      destruct (fs0 !! (get_data_path ++ [folder0; name])) as [x|] eqn:Hchild.
      * replace (get_data_path ++ [folder0; name])
          with ((get_data_path ++ [folder0]) ++ [name]) in * by (by rewrite <- app_assoc).
        eapply unlink_files_removes; [exact H2|].
        apply elem_of_children. cbn [fs]. by exists x.
      * eapply not_file_stays; [exact Hstep|]. unfold isfile_fs. by rewrite Hchild.
    + injection H2 as <-. cbn [fs]. unfold isfile_fs.
      destruct (fs0 !! (get_data_path ++ [folder0; name])) as [x|] eqn:Hchild; [|done].
      assert (fs0 !! (get_data_path ++ [folder0]) = Some Dir) as Hd.
      { apply (Htree folder0 name); [apply list_elem_of_here|by rewrite Hchild]. }
      unfold exists_fs in Hex. cbn in Hd, Hex. by rewrite Hd in Hex.
  - eapply IH; [exact H| |exact Hin].
    intros folder' name' Hin' Hsome.
    destruct (Hstep (get_data_path ++ [folder'; name'])) as [E|(E & _)];
      [|by rewrite E in Hsome; destruct Hsome].
    rewrite E in Hsome.
    apply (Htree _ _ (list_elem_of_further _ _ _ Hin')) in Hsome.
    destruct (Hstep (get_data_path ++ [folder'])) as [->|(_ & (n & Hn) & _)]; [done|].
    apply (f_equal length) in Hn. rewrite !length_app in Hn. cbn in Hn. lia.
Qed.

(** X11.  When [clear_data] answers 200, no regular file is left directly inside
    [raw], [processed] and [model], provided every file the removed
    container leaves lies in a folder. *)
Theorem clear_leaves_no_file st resp st' tr r1 st1 tr1 :
  clear_data R st = (Val resp, st', tr) →
  code resp = 200%nat →
  stop_inference_service R st = (r1, st1, tr1) →
  tree_shaped (fs st1) = true →
  ∀ p, in_data_folder p → isfile_fs p (fs st') = false.
Proof.
  intros H Hcode Hstop Htree p (folder & name & Hfolder & ->).
  unfold clear_data in H.
  apply try_except_inv in H as (rA & stA & trA & HA & H).
  destruct rA as [a| |e]; [|done|].
  2: { destruct H as (tr2 & H & _). injection H as <- _. done. }
  injection H as -> -> ->.
  apply bind_inv in HA as (rS & stS & trS & HS & HA).
  rewrite Hstop in HS. injection HS as <- <- <-.
  destruct r1 as [[]| |]; [|done..]. destruct HA as (tr2 & HA & _). cbv zeta in HA.
  apply bind_inv in HA as (rC & stC & trC & HC & HA).
  destruct rC as [[]| |]; [|done..]. destruct HA as (tr3 & HA & _).
  assert (fs st' = fs stC) as ->.
  { destruct stC as [psC fsC wC]. unfold reset_for_clear in HA. exec HA. done. }
  eapply clear_folders_removes; [exact HC| |exact Hfolder].
  intros folder' name' _ Hsome.
  apply (tree_shaped_parent _ _ name'); [done|done|].
  by rewrite <- app_assoc.
Qed.

End Clearing2.

Lemma in_order_sound ms :
  in_order ms = true →
  ∀ a p z x b q z' x' c,
    ms = a ++ Act (Some (p, z, x)) :: b ++ Act (Some (q, z', x')) :: c →
    later p q ∧ z = true ∧ x = true.
Proof.
  intros H a. revert ms H.
  induction a as [|m a IH]; intros ms H p z x b q z' x' c ->.
  - cbn [app in_order] in H. apply andb_prop in H as [H _].
    rewrite forallb_forall in H.
    specialize (H (Act (Some (q, z', x')))). cbv beta iota in H.
    assert (z && x && Nat.ltb (phase_index p) (phase_index q) = true) as Hok.
    { apply H, in_app_iff. right. by left. }
    apply andb_prop in Hok as [Hzx Hlt]. apply andb_prop in Hzx as [-> ->].
    by apply Nat.ltb_lt in Hlt.
  - eapply (IH (a ++ _ :: b ++ _ :: c)); [|done].
    destruct m as [|[[[? ?] ?]|]]; cbn [app in_order] in H; try done.
    by apply andb_prop in H as [_ H].
Qed.

Lemma started_paths_in_order :
  forallb (λ p, in_order (marks p)) started_paths = true.
Proof. by vm_compute. Qed.

Lemma stage_mark cmd t f0 result f1 p :
  stage_of_image (image_of cmd) = Some p →
  ∃ a, stage_artifact p = Some a ∧
       mark_of (Subprocess cmd t f0 result f1)
       = Some (Act (Some (p, exited_zero result, exists_fs a f1))).
Proof.
  intros Hp. cbn [mark_of]. rewrite Hp.
  unfold stage_of_image in Hp.
  repeat (destruct (String.eqb _ _); [injection Hp as <-; by eexists|]). done.
Qed.

Section Order.

Context {W : Type} (R : Runtime W).

(** X12.  In every run an upload starts, the workers of the stages are started
    in the order of the phases, each at most once, and one is started only
    after every worker before it has exited with code 0 and left its
    file. *)
Theorem workers_run_in_order file st :
  let '(res, st', tr) := upload_and_run R file st in
  ∀ tr1 cmd1 t1 f1 r1 g1 tr2 cmd2 t2 f2 r2 g2 tr3 p q a,
    tr = tr1 ++ Subprocess cmd1 t1 f1 r1 g1 :: tr2
             ++ Subprocess cmd2 t2 f2 r2 g2 :: tr3 →
    stage_of_image (image_of cmd1) = Some p →
    stage_of_image (image_of cmd2) = Some q →
    stage_artifact p = Some a →
    later p q ∧ exited_zero r1 = true ∧ exists_fs a g1 = true.
Proof.
  destruct (upload_and_run R file st) as [[res st'] tr] eqn:H.
  intros tr1 cmd1 t1 f1 r1 g1 tr2 cmd2 t2 f2 r2 g2 tr3 p q a -> Hp Hq Ha.
  destruct (stage_mark cmd1 t1 f1 r1 g1 p Hp) as (a1 & Ha1 & Hm1).
  destruct (stage_mark cmd2 t2 f2 r2 g2 q Hq) as (a2 & Ha2 & Hm2).
  rewrite Ha in Ha1. injection Ha1 as <-.
  assert (skeleton (tr1 ++ Subprocess cmd1 t1 f1 r1 g1 :: tr2
                        ++ Subprocess cmd2 t2 f2 r2 g2 :: tr3)
          = skeleton tr1 ++ Act (Some (p, exited_zero r1, exists_fs a g1))
              :: skeleton tr2 ++ Act (Some (q, exited_zero r2, exists_fs a2 g2))
              :: skeleton tr3) as Hsk.
  { rewrite skeleton_app. f_equal.
    change (Subprocess cmd1 t1 f1 r1 g1 :: tr2 ++ Subprocess cmd2 t2 f2 r2 g2 :: tr3)
      with ([Subprocess cmd1 t1 f1 r1 g1] ++ tr2 ++ [Subprocess cmd2 t2 f2 r2 g2] ++ tr3).
    rewrite !skeleton_app. unfold skeleton at 1 3. cbn [omap list_omap].
    by rewrite Hm1, Hm2. }
  apply upload_and_run_cases in H as [Hnil|(path & Hin & Hpath & _)].
  { rewrite Hsk in Hnil. by destruct (skeleton tr1). }
  pose proof started_paths_in_order as Hall. rewrite forallb_forall in Hall.
  apply list_elem_of_In, Hall in Hin.
  change (in_order (Snap uploaded_view false :: marks path) = true) in Hin.
  rewrite <- Hpath, Hsk in Hin.
  by eapply (in_order_sound _ Hin).
Qed.

End Order.

Section Actions.

Context {W : Type} (R : Runtime W).

Ltac allowed := intros; cbn; auto.

Lemma run_pipeline_body_allowed h fn : emits allowed_action (run_pipeline_body R h fn).
Proof.
  unfold run_pipeline_body, convert_excel, rename_csv, phase_cleaning, phase_training,
    phase_inference, stop_inference_service.
  survey allowed.
Qed.

Lemma upload_file_allowed file : emits allowed_action (upload_file R file).
Proof. unfold upload_file, reset_for_upload. survey allowed. Qed.

Lemma clear_folders_allowed folders :
  emits allowed_action (clear_folders R get_data_path folders).
Proof.
  intros st r st' tr H. by apply clear_folders_quiet in H as (-> & _).
Qed.

Lemma clear_data_allowed : emits allowed_action (clear_data R).
Proof.
  unfold clear_data.
  apply emits_try_except; [|intros ?; survey allowed].
  apply emits_bind; [unfold stop_inference_service; survey allowed|]. intros ?.
  cbv zeta. apply emits_bind; [apply clear_folders_allowed|]. intros ?.
  unfold reset_for_clear. survey allowed.
Qed.

(** X13.  The only program an upload, the run it starts and [clear_data] ever
    start is [docker]; the workers of the conversion and of the cleaning are
    given 300 seconds, the one of the training 600, and every other
    [docker] command is run without a timeout.  The only request they send
    is the probe of the inference service. *)
Theorem only_docker_is_started file st :
  Forall allowed_action (upload_and_run R file st).2 ∧
  Forall allowed_action (clear_data R st).2.
Proof.
  split.
  - destruct (upload_and_run R file st) as [[res st'] tr] eqn:H. cbn [snd].
    apply upload_and_run_inv in H
      as [(resp & fn & st1 & tr1 & tr2 & Hup & Hrun & -> & ->)|(r & Hup & _)].
    + apply Forall_app. split; [by eapply upload_file_allowed|].
      unfold run_pipeline in Hrun.
      destruct (run_pipeline_body R _ fn st1) as [[r st2] tr3] eqn:E.
      apply run_pipeline_body_allowed in E.
      destruct r.
      1,2: by injection Hrun as <- <-.
      destruct (add_log R _ _ st2) as [[r2 st3] tr4] eqn:E2.
      apply (emits_add_log R allowed_action) in E2; [|done].
      injection Hrun as <- <-. by apply Forall_app.
    + by eapply upload_file_allowed.
  - destruct (clear_data R st) as [[res st'] tr] eqn:H. cbn [snd].
    by eapply clear_data_allowed.
Qed.

End Actions.

Lemma makedirs_fs_adds_dirs (todo done : path) (fs0 fs' : FS) :
  makedirs_fs done todo fs0 = inr fs' →
  ∀ q x, fs' !! q = Some x → fs0 !! q = Some x ∨ x = Dir.
Proof.
  revert done fs0. induction todo as [|c rest IH]; intros done fs0 H q x Hq; cbn in H.
  { injection H as <-. auto. }
  destruct (fs0 !! (done ++ [c])) as [[y|]|] eqn:Hp; [done| |].
  - by eapply IH.
  - destruct (IH _ _ H q x Hq) as [Hin|?]; [|auto].
    destruct (decide (q = done ++ [c])) as [->|Hne].
    + rewrite lookup_insert_eq in Hin. injection Hin as <-. auto.
    + rewrite lookup_insert_ne in Hin; auto.
Qed.

Section Uploading.

Context {W : Type} (R : Runtime W).

Lemma os_makedirs_adds_dirs p st r st' tr :
  os_makedirs R p st = (r, st', tr) →
  ∀ q x, fs st' !! q = Some x → fs st !! q = Some x ∨ x = Dir.
Proof.
  intros H. destruct st as [ps0 fs0 w0]. unfold os_makedirs in H. cbn [fs] in H.
  destruct (fs0 !! p) as [[y|]|] eqn:Hlook.
  2: { injection H as <- <- <-. auto. }
  all: unfold with_fault in H; cbn [world fs] in H;
    destruct (os_fault R _ w0); [injection H as <- <- <-; by auto|];
    destruct (makedirs_fs [] p fs0) as [e|fs1] eqn:Hmk;
    [injection H as <- <- <-; by auto|];
    injection H as <- <- <-; cbn [fs]; by eapply makedirs_fs_adds_dirs.
Qed.

(** When [file.save] returns, the file is there with the content of the
    upload, in a folder, and nothing else has changed. *)
Lemma file_save_writes p c st r st' tr :
  file_save R p c st = (r, st', tr) →
  tr = [] ∧ pipeline_status st' = pipeline_status st ∧ world st' = world st ∧
  r ≠ Return ∧
  match r with
  | Val _ => fs st' = <[p := File c]> (fs st) ∧ fs st !! removelast p = Some Dir
  | _ => fs st' = fs st
  end.
Proof.
  intros H. destruct st as [ps0 fs0 w0]. unfold_all_ops H.
  repeat (inner_match H; unfold_all_ops H); injection H as <- <- <-; by cbn.
Qed.

(** X14.  The three ways [upload_file] ends.  A request without a file, with an
    empty name or with a name that ends neither in [.xlsx] nor in [.csv]
    (in lower case) is answered with code 400, and nothing changes.  Any
    other upload is either saved, answered with code 200 and shown in one
    broadcast, and its run is started; or the folder or the file cannot
    be written: the exception leaves the handler, the status has been
    reset, nothing is broadcast and no run is started. *)
Theorem upload_file_outcomes file st :
  let '(r, st', tr) := upload_file R file st in
  if accepted file then
    (∃ resp fn, r = Val (resp, Some fn) ∧ code resp = 200%nat ∧
                snapshots tr = [pipeline_status st'] ∧
                status (phases (pipeline_status st') upload) = completed) ∨
    (∃ e, r = Raise e ∧ tr = [] ∧
          pipeline_status st' = reset_record (pipeline_status st))
  else
    (∃ msg, r = Val (jsonify_with (error_body msg) 400, None)) ∧ st' = st ∧ tr = [].
Proof.
  destruct (upload_file R file st) as [[r st'] tr] eqn:H.
  destruct (accepted file) eqn:Hacc.
  - destruct r as [[resp [fn|]]| |e].
    + left. apply upload_file_started in H as (f & name & t & _ & _ & _ & _ & -> & Hps & ->).
      eexists _, fn. repeat split; by rewrite ?Hps.
    + apply upload_file_not_started in H as (_ & _ & Hyes); [|done].
      by destruct (Hyes Hacc) as (_ & e & ?).
    + apply upload_file_not_started in H as (_ & _ & Hyes); [|done].
      by destruct (Hyes Hacc) as (_ & e & ?).
    + right. apply upload_file_not_started in H as (-> & _ & Hyes); [|done].
      destruct (Hyes Hacc) as (-> & _). by exists e.
  - destruct (upload_file_refused R file st Hacc) as [msg Hno].
    rewrite Hno in H. injection H as <- <- <-. split; [by exists msg|done].
Qed.

(** X15.  An upload that is accepted and saved, whose name [secure_filename]
    turns into one path component (not the empty string), is in [raw]
    under that name, with the content that was sent; every other file and
    folder is as before, but for the folders [os.makedirs] has made, and
    the run is started on that name. *)
Theorem accepted_upload_is_saved f name st resp started st' tr :
  filename f = Some name →
  is_component (secure_filename R name) = true →
  upload_file R (Some f) st = (Val (resp, started), st', tr) →
  code resp = 200%nat →
  let saved := UPLOAD_FOLDER ++ [secure_filename R name] in
  started = Some (secure_filename R name) ∧
  fs st' !! saved = Some (File (content f)) ∧
  fs st' !! UPLOAD_FOLDER = Some Dir ∧
  (∀ q x, q ≠ saved → fs st !! q = Some x → fs st' !! q = Some x) ∧
  (∀ q x, q ≠ saved → fs st' !! q = Some x → fs st !! q = Some x ∨ x = Dir).
Proof.
  intros Hname _ H Hcode saved.
  destruct (accepted (Some f)) eqn:Hacc.
  2: { destruct (upload_file_refused R (Some f) st Hacc) as [msg Hno].
       rewrite Hno in H. by injection H as <- <- <- <-. }
  cbn [accepted] in Hacc. rewrite Hname in Hacc.
  apply andb_prop in Hacc as [Hne Hext]. apply negb_true_iff, String.eqb_neq in Hne.
  destruct st as [ps0 fs0 w0]. unfold upload_file in H. rewrite Hname in H.
  rewrite bool_decide_eq_false_2 in H by congruence. rewrite Hext in H.
  apply bind_inv in H as (r1 & st1 & tr1 & H1 & H).
  destruct st1 as [ps1 fs1 w1]. unfold reset_for_upload in H1. exec H1.
  destruct H as (tr2 & H & ->). cbv zeta in H.
  apply bind_inv in H as (r2 & st2 & tr3 & H2 & H).
  pose proof (os_makedirs_adds_dirs _ _ _ _ _ H2) as Hadds.
  apply os_makedirs_grows in H2 as (-> & _ & _ & _ & Hsub & Hdir); [|done].
  destruct r2 as [[]| |]; [|done..]. destruct H as (tr4 & H & ->).
  apply bind_inv in H as (r3 & st3 & tr5 & H3 & H).
  apply file_save_writes in H3 as (-> & _ & _ & _ & Hsaved).
  destruct r3 as [[]| |]; [|done..]. destruct Hsaved as [Hfs _].
  destruct H as (tr6 & H & ->).
  apply bind_inv in H as (r4 & st4 & tr7 & H4 & H).
  assert (fs st4 = fs st3 ∧ r4 = Val tt) as [Hsame ->].
  { destruct st3 as [ps3 fs3 w3]. unfold_ops H4. by injection H4 as <- <- <-. }
  destruct H as (tr8 & H & ->). injection H as <- <- <- <-.
  cbn [fs] in *. rewrite Hsame, Hfs. fold saved. unfold path_join in *.
  fold saved. repeat split.
  - by rewrite lookup_insert_eq.
  - rewrite lookup_insert_ne; [by apply Hdir|].
    intros Heq. apply (f_equal length) in Heq. unfold saved in Heq.
    rewrite length_app in Heq. cbn in Heq. lia.
  - intros q x Hq Hx. rewrite lookup_insert_ne; [|done].
    by eapply lookup_weaken.
  - intros q x Hq Hx. rewrite lookup_insert_ne in Hx; [|done]. by apply Hadds.
Qed.

End Uploading.

Section Others.

Context {W : Type} (R : Runtime W).

(** X16.  [predict] changes no file, no phase and not the flag, and broadcasts
    no status.  It sends one request, to the inference service, when the
    body of the call is JSON, and none otherwise.  It adds one entry to the
    log, at level error, exactly when it answers 503. *)
Theorem predict_touches_only_the_log request_json st :
  let '(r, st', tr) := predict R request_json st in
  let ps := pipeline_status st in
  let ps' := pipeline_status st' in
  fs st' = fs st ∧
  phases ps' = phases ps ∧ current_phase ps' = current_phase ps ∧
  model_ready ps' = model_ready ps ∧
  snapshots tr = [] ∧
  List.filter is_action tr
  = match request_json with
    | inr data => [HttpPost predict_url data]
    | inl _ => []
    end ∧
  ∃ resp, r = Val resp ∧
    if Nat.eqb (code resp) 503
    then ∃ e, logs ps' = logs ps ++ [e] ∧ log_level e = Level.error ∧ tr !! 1%nat = Some (EmitLog e)
    else logs ps' = logs ps.
Proof.
  destruct st as [ps0 fs0 w0].
  destruct (predict R request_json {| pipeline_status := ps0; fs := fs0; world := w0 |})
    as [[r st'] tr] eqn:H.
  unfold predict in H. exec H.
  all: cbn; repeat split; try done.
  all: eexists; split; [reflexivity|]; cbn; try done.
  all: by eexists.
Qed.

Lemma make_folders_grows folders st r st' tr :
  make_folders R get_data_path folders st = (r, st', tr) →
  tr = [] ∧ pipeline_status st' = pipeline_status st ∧ world st' = world st ∧
  fs st ⊆ fs st' ∧
  (∀ q x, fs st' !! q = Some x → fs st !! q = Some x ∨ x = Dir) ∧
  (r = Val tt → ∀ folder, folder ∈ folders →
     fs st' !! (get_data_path ++ [folder]) = Some Dir) ∧
  ((∀ folder, folder ∈ folders → fs st !! (get_data_path ++ [folder]) = Some Dir) →
   r = Val tt ∧ st' = st).
Proof.
  revert st r st' tr.
  induction folders as [|folder folders IH]; intros st r st' tr H; cbn [make_folders] in H.
  { injection H as <- <- <-. repeat split; auto. by intros _ ? ?%elem_of_nil. }
  apply bind_inv in H as (r1 & st1 & tr1 & H1 & H).
  pose proof (os_makedirs_adds_dirs _ _ _ _ _ _ H1) as Hadds.
  assert (fs st !! (get_data_path ++ [folder]) = Some Dir → r1 = Val tt ∧ st1 = st) as Hidem.
  { intros Hd. unfold os_makedirs, path_join in H1. rewrite Hd in H1.
    by injection H1 as <- <- <-. }
  apply os_makedirs_grows in H1 as (-> & E1 & E2 & E3 & Hsub & Hdir); [|done].
  destruct r1 as [[]| |e]; [|done|].
  - destruct H as (tr2 & H & ->).
    apply IH in H as (-> & -> & -> & Hsub2 & Hadds2 & Hdirs & Hidem2).
    split; [done|]. split; [done|]. split; [done|]. split; [by etransitivity|].
    split; [|split].
    + intros q x Hx. destruct (Hadds2 q x Hx) as [Hx1|?]; [|auto]. by apply Hadds.
    + intros Hr f [->|Hf]%elem_of_cons; [|by apply Hdirs].
      eapply lookup_weaken; [by apply Hdir|done].
    + intros Hall. destruct Hidem as [_ ->]; [apply Hall, list_elem_of_here|].
      apply Hidem2. intros f Hf. apply Hall. by apply list_elem_of_further.
  - injection H as <- <- <-.
    split; [done|]. split; [done|]. split; [done|]. split; [done|].
    split; [done|]. split; [done|].
    intros Hall. destruct Hidem as [? _]; [apply Hall, list_elem_of_here|done].
Qed.

(** X17.  What the program does to the data folder when it starts: it shows
    nothing and leaves the status alone; it keeps every file and folder
    and adds nothing but folders; when it does not raise, [raw],
    [processed] and [model] are folders; and when they are already, it
    changes nothing and cannot fail. *)
Theorem data_folders_are_made st :
  let '(r, st', tr) := ensure_data_folders R st in
  tr = [] ∧ pipeline_status st' = pipeline_status st ∧
  fs st ⊆ fs st' ∧
  (∀ q x, fs st' !! q = Some x → fs st !! q = Some x ∨ x = Dir) ∧
  (r = Val tt → ∀ folder, folder ∈ ["raw"; "processed"; "model"] →
     fs st' !! (get_data_path ++ [folder]) = Some Dir) ∧
  ((∀ folder, folder ∈ ["raw"; "processed"; "model"] →
      fs st !! (get_data_path ++ [folder]) = Some Dir) →
   r = Val tt ∧ st' = st).
Proof.
  destruct (ensure_data_folders R st) as [[r st'] tr] eqn:H.
  unfold ensure_data_folders in H.
  apply make_folders_grows in H as (? & ? & ? & ? & ? & ? & ?). done.
Qed.

(** X18.  After an upload that has been accepted and the run it has started,
    [get_status] and [handle_connect] show the phases and the current
    phase of the last broadcast; they change nothing. *)
Theorem polling_agrees_with_last_broadcast file st :
  let '(res, st', tr) := upload_and_run R file st in
  ∀ s, last (snapshots tr) = Some s →
    get_status st' = (Val (jsonify (status_json (pipeline_status st'))), st', []) ∧
    handle_connect st' = (Val (pipeline_status st'), st', []) ∧
    phases (pipeline_status st') = phases s ∧
    current_phase (pipeline_status st') = current_phase s ∧
    field "phases" (status_json (pipeline_status st')) = field "phases" (status_json s) ∧
    field "current_phase" (status_json (pipeline_status st'))
    = field "current_phase" (status_json s).
Proof.
  destruct (upload_and_run R file st) as [[res st'] tr] eqn:H. intros s Hs.
  split; [done|]. split; [done|].
  assert (phases (pipeline_status st') = phases s
          ∧ current_phase (pipeline_status st') = current_phase s) as [Hp Hc].
  { apply upload_and_run_inv in H
      as [(resp & fn & st1 & tr1 & tr2 & Hup & Hrun & -> & ->)|(r & Hup & Hr & ->)].
    - apply upload_file_started in Hup as (f & name & t & _ & _ & _ & _ & _ & Hps & ->).
      apply run_pipeline_steps, steps_last_broadcast in Hrun.
      unfold snapshots in Hs. rewrite omap_app in Hs. fold (snapshots tr2) in Hs.
      cbn [omap list_omap app] in Hs. rewrite last_cons in Hs.
      destruct (last (snapshots tr2)) as [s2|]; by injection Hs as <-.
    - destruct (accepted file) eqn:Hacc.
      + apply upload_file_not_started in Hup as (-> & _); [|done]. done.
      + destruct (upload_file_refused R file st Hacc) as [msg Hno].
        rewrite Hno in Hup. by injection Hup as <- <- <-. }
  split; [done|]. split; [done|]. cbn. by rewrite Hp, Hc.
Qed.

End Others.

Lemma lstrip_blank s : blank s = true → lstrip s = "".
Proof.
  induction s as [|c s IH]; [done|]. cbn. intros [Hc Hs]%andb_prop.
  rewrite Hc. auto.
Qed.

Lemma lstrip_not_blank s :
  blank s = false → ∃ c rest, lstrip s = String c rest ∧ is_space c = false.
Proof.
  induction s as [|c s IH]; [done|]. cbn.
  destruct (is_space c) eqn:Hc; cbn; [auto|]. intros _. by exists c, s.
Qed.

Lemma rstrip_keeps_head c rest :
  is_space c = false → ∃ rest', rstrip (String c rest) = String c rest'.
Proof.
  intros Hc. cbn. destruct (rstrip rest); [|by eexists]. rewrite Hc. by eexists.
Qed.

Lemma split_lines_keeps_head c rest :
  is_space c = false →
  ∃ line lines, split_lines (String c rest) = String c line :: lines.
Proof.
  intros Hc. cbn.
  destruct (bool_decide (nat_of_ascii c = 10%nat)) eqn:Hnl.
  { apply bool_decide_eq_true_1 in Hnl. unfold is_space in Hc. rewrite Hnl in Hc.
    done. }
  destruct (split_lines rest); by eexists _, _.
Qed.

Lemma split_lines_nonempty s : split_lines s ≠ [].
Proof.
  induction s as [|c s IH]; cbn; [done|].
  destruct (bool_decide _); [done|]. by destruct (split_lines s).
Qed.

(** The first line of the stripped output: empty when the output is
    blank, and otherwise it starts with something that is not white
    space. *)
Lemma first_line_of_stripped s first lines :
  split_lines (strip s) = first :: lines →
  if blank s then first = ""
  else ∃ c rest, first = String c rest ∧ is_space c = false.
Proof.
  unfold strip. destruct (blank s) eqn:Hb.
  - rewrite (lstrip_blank _ Hb). cbn. by intros [= <- <-].
  - destruct (lstrip_not_blank _ Hb) as (c & rest & -> & Hc).
    destruct (rstrip_keeps_head c rest Hc) as [rest' ->].
    destruct (split_lines_keeps_head c rest' Hc) as (line & ls & ->).
    intros [= <- <-]. by eexists _, _.
Qed.

Section Network.

Context {W : Type} (R : Runtime W).

Ltac pick He :=
  repeat (apply elem_of_cons in He as [He|He]; [try discriminate He|]);
  try (by apply elem_of_nil in He).


End Network.

Section Workers.

Context {W : Type} (R : Runtime W).

(** X20.  Whenever a run starts the worker of a stage, the file the worker reads
    is there and the folder it writes to is a folder: the converter finds
    [OnlineRetail.xlsx], the cleaning worker the file it is given as
    [DATASET_FILE] and the folder [processed], the training worker the
    cleaned file and the folder [model]. *)
Theorem workers_find_their_files fn st :
  let '(st', tr) := run_pipeline R fn st in
  let h := get_host_data_path R in
  ∀ cmd t f0 result f1,
    Subprocess cmd t f0 result f1 ∈ tr →
    match stage_of_image (image_of cmd) with
    | Some conversion =>
        cmd = converter_cmd h ∧ exists_fs (raw_file "OnlineRetail.xlsx") f0 = true
    | Some cleaning =>
        ∃ name, cmd = cleaning_cmd h name ∧
                exists_fs (raw_file name) f0 = true ∧
                f0 !! processed_dir = Some Dir
    | Some training =>
        cmd = training_cmd h ∧
        exists_fs cleaned_path f0 = true ∧ f0 !! model_dir = Some Dir
    | _ => True
    end.
Proof.
  destruct (run_pipeline R fn st) as [st' tr] eqn:H.
  intros h cmd t f0 result f1 He.
  apply run_pipeline_starts_well in H. rewrite Forall_forall in H.
  specialize (H _ He). cbn [well_started] in H.
  destruct (stage_of_image (image_of cmd)) as [[]|]; try done.
  destruct H as (name & ? & _ & _ & ? & ?). by exists name.
Qed.


End Workers.

Lemma csv_paths_leave_conversion :
  forallb conversion_stays_pending (run_paths false uploaded_view false) = true.
Proof. by vm_compute. Qed.

Lemma check_status_needs_conversion ps :
  status (phases ps conversion) = pending →
  check_status (status_json ps) ≠ Some true.
Proof.
  intros Hc. unfold check_status, status_json, phases_values.
  cbn [assoc String.eqb Ascii.eqb Bool.eqb map all_phases snd phase_name].
  cbn [py_all py_any status_is phase_json assoc String.eqb Ascii.eqb Bool.eqb].
  rewrite Hc. cbn [status_name].
  destruct (status_name (status (phases ps upload)) =? "completed")%string;
    cbn; repeat (destruct (_ =? _)%string; try done).
Qed.

Section Waiting.

Context {W : Type} (R : Runtime W).

(** The statuses a client can be shown during the run on [fn] from [st] *)
Lemma csv_run_leaves_conversion fn st st' tr :
  endswith fn ".xlsx" = false →
  view (pipeline_status st) = uploaded_view →
  model_ready (pipeline_status st) = false →
  run_pipeline R fn st = (st', tr) →
  status (phases (pipeline_status st') conversion) = pending ∧
  ∀ s, EmitStatus s ∈ tr → status (phases s conversion) = pending.
Proof.
  intros Hext Hv Hb Hrun.
  apply run_pipeline_refines in Hrun as (path & Hin & Hsk & Hfin & _).
  rewrite Hext, Hv, Hb in Hin.
  pose proof csv_paths_leave_conversion as Hall. rewrite forallb_forall in Hall.
  apply list_elem_of_In, Hall in Hin. unfold conversion_stays_pending in Hin.
  rewrite forallb_forall in Hin. split.
  - rewrite <- view_status, Hfin.
    specialize (Hin (final path) (or_introl eq_refl)).
    by apply bool_decide_eq_true_1 in Hin.
  - intros s Hs. rewrite <- view_status.
    assert (In (view s) (final path :: snaps_of (marks path))) as Hs'.
    { right. rewrite <- Hsk, snaps_of_skeleton. apply in_map.
      apply list_elem_of_In, list_elem_of_omap. by exists (EmitStatus s). }
    apply Hin in Hs'. by apply bool_decide_eq_true_1 in Hs'.
Qed.

(** X22.  The test script waits in vain for an upload that is not an Excel
    file: whatever status of the run the polls are answered with (any
    broadcast one, or the last), [wait_for_pipeline] does not return
    [True], because the conversion phase stays pending. *)
Theorem wait_never_passes_without_conversion file st res st' tr polls :
  upload_and_run R file st = (res, st', tr) →
  accepted file = true →
  (∀ f name, file = Some f → filename f = Some name →
             endswith (secure_filename R name) ".xlsx" = false) →
  (∀ poll reply body,
     poll ∈ polls → answer poll = inr reply → reply_json reply = inr body →
     ∃ s, (s = pipeline_status st' ∨ EmitStatus s ∈ tr) ∧ body = status_json s) →
  wait_for_pipeline polls ≠ Some true.
Proof.
  intros H Hacc Hcsv Hpolls.
  assert (∀ s, s = pipeline_status st' ∨ EmitStatus s ∈ tr →
               status (phases s conversion) = pending) as Hpending.
  { apply upload_and_run_inv in H
      as [(resp & fn & st1 & tr1 & tr2 & Hup & Hrun & -> & ->)|(r & Hup & Hr & ->)].
    - pose proof (upload_file_cases R _ _ _ _ _ Hup) as (_ & Hv & Hb).
      apply upload_file_started in Hup as (f & name & t & -> & Hname & _ & -> & _ & Hps & ->).
      apply csv_run_leaves_conversion in Hrun as [Hend Hshown]; [|by eapply Hcsv|done..].
      intros s [->|[[[=]|[[= ->]|Hs]%elem_of_cons]%elem_of_cons|Hs]%elem_of_app]; auto.
      + by rewrite Hps.
      + by apply elem_of_nil in Hs.
    - apply upload_file_not_started in Hup as (-> & _ & Hyes); [|done].
      destruct (Hyes Hacc) as [Hps _].
      intros s [->|Hs]; [by rewrite Hps|by apply elem_of_nil in Hs]. }
  clear H. induction polls as [|poll polls IH]; [done|].
  cbn [wait_for_pipeline].
  destruct (in_time poll); [|done].
  destruct (answer poll) as [e|reply] eqn:Ha; [done|].
  assert (wait_for_pipeline polls ≠ Some true) as Hrest.
  { apply IH. intros p r b Hp. apply Hpolls. by apply list_elem_of_further. }
  destruct (Nat.eqb (reply_code reply) 200); [|done].
  destruct (reply_json reply) as [e|body] eqn:Hj; [done|].
  destruct (Hpolls poll reply body (list_elem_of_here _ _) Ha Hj) as (s & Hs & ->).
  pose proof (check_status_needs_conversion s (Hpending s Hs)) as Hcheck.
  destruct (check_status (status_json s)) as [[]|]; done.
Qed.

End Waiting.

Lemma snapshots_app t1 t2 : snapshots (t1 ++ t2) = snapshots t1 ++ snapshots t2.
Proof. apply omap_app. Qed.

Lemma no_stage_worker_reports {W A : Type} (m : M W A) :
  emits no_stage_worker m → reports m.
Proof.
  intros Hm st r st' tr H cmd t f0 result f1 p msg He Hp _.
  apply Hm in H. rewrite Forall_forall in H. apply H in He. cbn in He. congruence.
Qed.

Lemma reports_bind {W A B : Type} (m : M W A) (k : A → M W B) :
  reports m → (∀ a, reports (k a)) → reports (bind m k).
Proof.
  intros Hm Hk st r st' tr H cmd t f0 result f1 p msg He Hp Hmsg.
  apply bind_inv in H as (r1 & st1 & tr1 & H1 & H).
  destruct r1 as [a| |e].
  - destruct H as (tr2 & H2 & ->).
    apply elem_of_app in He as [He|He].
    + by destruct (Hm _ _ _ _ H1 _ _ _ _ _ _ _ He Hp Hmsg) as [? _].
    + destruct (Hk a _ _ _ _ H2 _ _ _ _ _ _ _ He Hp Hmsg) as (-> & Hentry & Hlast).
      split; [done|]. split; [done|].
      rewrite snapshots_app. destruct (snapshots tr2) as [|s l] eqn:E; [done|].
      rewrite <- Hlast. apply last_app_cons.
  - injection H as <- <- <-.
    by destruct (Hm _ _ _ _ H1 _ _ _ _ _ _ _ He Hp Hmsg) as (_ & ? & ?).
  - injection H as <- <- <-. by destruct (Hm _ _ _ _ H1 _ _ _ _ _ _ _ He Hp Hmsg) as [? _].
Qed.

Ltac find_worker He :=
  repeat (apply elem_of_cons in He as [He|He]; [try discriminate He|]);
  try (by apply elem_of_nil in He).

Ltac reported :=
  repeat match goal with
         | H : (_ =? _)%Z = _ |- _ => rewrite H in *; clear H
         end;
  first
    [ discriminate
    | repeat match goal with
             | H : Some _ = Some _ |- _ => injection H as <-
             end;
      split; [reflexivity|split; [|reflexivity]];
      eexists; cbn; unfold set_phase; by rewrite decide_True ].

Section Failures.

Context {W : Type} (R : Runtime W).

Lemma convert_excel_reports h fn : reports (convert_excel R h fn).
Proof.
  intros [ps0 fs0 w0] r st' tr H cmd t f0 result f1 p msg He Hp Hmsg.
  unfold convert_excel in H. exec H; find_worker He.
  all: injection He as -> -> -> -> ->.
  all: change (stage_of_image (image_of (converter_cmd h))) with (Some conversion) in Hp.
  all: injection Hp as <-; cbn [failure_message] in Hmsg.
  all: try match goal with e : exn |- _ => destruct e end.
  all: reported.
Qed.

Lemma phase_cleaning_reports h fn : reports (phase_cleaning R h fn).
Proof.
  intros [ps0 fs0 w0] r st' tr H cmd t f0 result f1 p msg He Hp Hmsg.
  unfold phase_cleaning in H. exec H; find_worker He.
  all: injection He as -> -> -> -> ->.
  all: change (stage_of_image (image_of (cleaning_cmd h fn))) with (Some cleaning) in Hp.
  all: injection Hp as <-; cbn [failure_message] in Hmsg.
  all: try match goal with e : exn |- _ => destruct e end.
  all: reported.
Qed.

Lemma phase_training_reports h : reports (phase_training R h).
Proof.
  intros [ps0 fs0 w0] r st' tr H cmd t f0 result f1 p msg He Hp Hmsg.
  unfold phase_training in H. exec H; find_worker He.
  all: injection He as -> -> -> -> ->.
  all: change (stage_of_image (image_of (training_cmd h))) with (Some training) in Hp.
  all: injection Hp as <-; cbn [failure_message] in Hmsg.
  all: try match goal with e : exn |- _ => destruct e end.
  all: reported.
Qed.

Lemma rename_csv_reports fn : reports (rename_csv R fn).
Proof.
  apply no_stage_worker_reports. unfold rename_csv. survey ltac:(intros; exact I).
Qed.

Lemma phase_inference_reports h : reports (phase_inference R h).
Proof.
  apply no_stage_worker_reports. unfold phase_inference, stop_inference_service.
  survey ltac:(intros; first [exact I | reflexivity]).
Qed.

(** X23.  When the worker of a stage (converter, cleaning, training) fails,
    the run says how: on a timeout, on any other exception of
    [subprocess.run] and on an exit code other than 0, the phase of the
    stage is in error at the end of the run, with the message of that
    failure (for an exit code: the text the worker wrote to its standard
    error), and that status is the last one broadcast. *)
Theorem worker_failure_is_reported fn st :
  let '(st', tr) := run_pipeline R fn st in
  ∀ cmd t f0 result f1 p msg,
    Subprocess cmd t f0 result f1 ∈ tr →
    stage_of_image (image_of cmd) = Some p →
    failure_message p result = Some msg →
    (∃ ts, phases (pipeline_status st') p
           = {| status := error; timestamp := Some ts; message := msg |}) ∧
    last (snapshots tr) = Some (pipeline_status st').
Proof.
  destruct (run_pipeline R fn st) as [st' tr] eqn:H.
  intros cmd t f0 result f1 p msg He Hp Hmsg.
  unfold run_pipeline in H.
  destruct (run_pipeline_body R _ fn st) as [[r st1] tr1] eqn:E.
  assert (reports (run_pipeline_body R (get_host_data_path R) fn)) as Hbody.
  { unfold run_pipeline_body. apply reports_bind.
    { destruct (endswith fn ".xlsx");
        [apply convert_excel_reports|apply rename_csv_reports]. }
    intros fn'. apply reports_bind; [apply phase_cleaning_reports|].
    intros _. apply reports_bind; [apply phase_training_reports|].
    intros _. apply phase_inference_reports. }
  destruct r as [a| |e].
  - injection H as <- <-. by destruct (Hbody _ _ _ _ E _ _ _ _ _ _ _ He Hp Hmsg).
  - injection H as <- <-. by destruct (Hbody _ _ _ _ E _ _ _ _ _ _ _ He Hp Hmsg).
  - destruct (add_log R _ _ st1) as [[r2 st2] tr2] eqn:E2.
    injection H as <- <-.
    apply elem_of_app in He as [He|He].
    + by destruct (Hbody _ _ _ _ E _ _ _ _ _ _ _ He Hp Hmsg).
    + destruct st1 as [ps1 fs1 w1]. unfold_ops E2. injection E2 as <- <- <-.
      find_worker He.
Qed.

End Failures.

Section ExcelRename.

Context {W : Type} (R : Runtime W).

(** The renaming does not look at the status record. *)
Lemma replace_file_any_status a b ps1 ps2 f w r st' tr :
  replace_file R a b {| pipeline_status := ps1; fs := f; world := w |} = (r, st', tr) →
  replace_file R a b {| pipeline_status := ps2; fs := f; world := w |}
  = (r, {| pipeline_status := ps2; fs := fs st'; world := w |}, tr).
Proof.
  intros H. unfold replace_file in *.
  cbv beta iota zeta delta
      [bind ret os_path_exists put_fs with_fault remove_fs os_remove os_rename
       pipeline_status fs world] in *.
  cbn [app] in *.
  repeat (inner_match H;
          cbv beta iota zeta delta
              [bind ret os_path_exists put_fs with_fault remove_fs os_remove os_rename
               pipeline_status fs world] in *;
          cbn [app] in *);
    injection H as <- <- <-; reflexivity.
Qed.

(** X24.  An Excel upload that cannot be given the name [OnlineRetail.xlsx]
    ends the run at once, unlike an upload of another kind, whose run
    goes on under the name of the upload: when the renaming raises,
    nothing is started (no worker, no request), the conversion phase is
    in error with the text of the exception, that status is the last one
    broadcast, and the files are as the failed renaming left them. *)
Theorem failed_excel_rename_stops_the_run fn st e st1 tr1 :
  endswith fn ".xlsx" = true →
  fn ≠ "OnlineRetail.xlsx" →
  is_Some (fs st !! raw_file fn) →
  replace_file R (raw_file fn) (raw_file "OnlineRetail.xlsx") st = (Raise e, st1, tr1) →
  let '(st', tr) := run_pipeline R fn st in
  (∀ ev, ev ∈ tr → is_action ev = false) ∧
  (∃ ts, phases (pipeline_status st') conversion
         = {| status := error; timestamp := Some ts;
              message := "Errore nel rinominare il file: " +:+ exn_str e |}) ∧
  (∀ p, p ≠ conversion → phases (pipeline_status st') p = phases (pipeline_status st) p) ∧
  last (snapshots tr) = Some (pipeline_status st') ∧
  fs st' = fs st1.
Proof.
  intros Hext Hne [x Hx] Hraise.
  destruct (run_pipeline R fn st) as [st' tr] eqn:H.
  unfold run_pipeline, run_pipeline_body in H. rewrite Hext in H.
  destruct (bind _ _ st) as [[r stb] trb] eqn:E.
  apply bind_inv in E as (r1 & s1 & t1 & E1 & E).
  destruct st as [ps0 fs0 w0]. cbn [fs] in Hx.
  unfold convert_excel in E1.
  apply bind_inv in E1 as (r2 & s2 & t2 & E2 & E1).
  unfold_ops E2. injection E2 as <- <- <-.
  destruct E1 as (t3 & E1 & ->).
  apply bind_inv in E1 as (r2 & s2 & t2 & E2 & E1).
  unfold_ops E2. injection E2 as <- <- <-.
  destruct E1 as (t4 & E1 & ->).
  unfold exists_fs in E1. rewrite Hx in E1. cbn [negb] in E1. cbv zeta in E1.
  apply String.eqb_neq in Hne. rewrite Hne in E1. cbn [negb] in E1.
  apply bind_inv in E1 as (r3 & s3 & t5 & E3 & E1).
  apply bind_inv in E3 as (r4 & s4 & t6 & E4 & E3).
  unfold_ops E4. injection E4 as <- <- <-.
  destruct E3 as (t7 & E3 & ->).
  apply try_except_inv in E3 as (r5 & s5 & t8 & E5 & E3).
  apply bind_inv in E5 as (r6 & s6 & t9 & E6 & E5).
  destruct (replace_file_fs_only R _ _ _ _ _ _ Hraise) as (-> & Hps1 & Hw1 & _).
  destruct st1 as [ps1 fs1 w1]. cbn [pipeline_status fs world] in Hps1, Hw1. subst ps1 w1.
  destruct (replace_file_fs_only R _ _ _ _ _ _ E6) as (-> & Hps6 & Hw6 & _).
  apply (replace_file_any_status _ _ _ ps0) in E6. rewrite Hraise in E6.
  destruct s6 as [ps6 fs6 w6]. cbn [pipeline_status fs world] in *. subst ps6 w6.
  injection E6 as <- <-. injection E5 as <- <- <-.
  destruct E3 as (t10 & E3 & ->).
  exec E3. injection E1 as <- <- <-. injection E as <- <- <-.
  injection H as <- <-. cbn [app].
  split; [|split; [|split; [|split]]].
  - intros ev Hev. repeat (apply elem_of_cons in Hev as [->|Hev]; [done|]).
    by apply elem_of_nil in Hev.
  - eexists. cbn. unfold set_phase. by rewrite decide_True.
  - intros p Hp. cbn. unfold set_phase.
    repeat (rewrite decide_False by done). reflexivity.
  - reflexivity.
  - reflexivity.
Qed.

End ExcelRename.

Section MissingUpload.

Context {W : Type} (R : Runtime W).

(** X25.  A run on a name under which nothing is in [raw] starts nothing
    and says so: for a name that ends in [.xlsx] the conversion phase is
    in error with "File <name> non trovato", for any other name the
    cleaning phase with "File CSV <name> non trovato"; that status is the
    last one broadcast.  No file appears; the only file that can have
    gone is a stale [OnlineRetail.csv], which the attempt to rename
    removes first. *)
Theorem missing_upload_is_reported fn st :
  fs st !! raw_file fn = None →
  let '(st', tr) := run_pipeline R fn st in
  let excel := endswith fn ".xlsx" in
  let p := if excel then conversion else cleaning in
  let msg := if excel then "File " +:+ fn +:+ " non trovato"
             else "File CSV " +:+ fn +:+ " non trovato" in
  (∀ ev, ev ∈ tr → is_action ev = false) ∧
  (∃ ts, phases (pipeline_status st') p
         = {| status := error; timestamp := Some ts; message := msg |}) ∧
  last (snapshots tr) = Some (pipeline_status st') ∧
  (∀ q, fs st' !! q = fs st !! q ∨
        (q = raw_file "OnlineRetail.csv" ∧ excel = false ∧ fs st' !! q = None)).
Proof.
  intros Hx. destruct (run_pipeline R fn st) as [st' tr] eqn:H.
  unfold run_pipeline, run_pipeline_body in H.
  destruct (bind _ _ st) as [[r stb] trb] eqn:E.
  destruct st as [ps0 fs0 w0]. cbn [fs] in Hx.
  destruct (endswith fn ".xlsx") eqn:Hext; cbv zeta.
  - apply bind_inv in E as (r1 & s1 & t1 & E1 & E).
    unfold convert_excel in E1.
    apply bind_inv in E1 as (r2 & s2 & t2 & E2 & E1).
    unfold_ops E2. injection E2 as <- <- <-.
    destruct E1 as (t3 & E1 & ->).
    apply bind_inv in E1 as (r2 & s2 & t2 & E2 & E1).
    unfold_ops E2. injection E2 as <- <- <-.
    destruct E1 as (t4 & E1 & ->).
    unfold exists_fs in E1. rewrite Hx in E1. cbn [negb] in E1.
    exec E1. injection E as <- <- <-. injection H as <- <-. cbn [app fs].
    split; [|split; [|split]].
    + intros ev Hev. repeat (apply elem_of_cons in Hev as [->|Hev]; [done|]).
      by apply elem_of_nil in Hev.
    + eexists. cbn. unfold set_phase. by rewrite decide_True.
    + reflexivity.
    + by left.
  - apply bind_inv in E as (r1 & s1 & t1 & E1 & E).
    assert (fs s1 !! raw_file fn = None ∧ r1 = Val fn ∧
            (∀ ev, ev ∈ t1 → is_action ev = false) ∧ snapshots t1 = [] ∧
            ∀ q, fs s1 !! q = fs0 !! q ∨
                 (q = raw_file "OnlineRetail.csv" ∧ fs s1 !! q = None)) as Hrename.
    { clear E H. unfold rename_csv in E1.
      destruct (String.eqb fn "OnlineRetail.csv") eqn:Hc; cbn [negb] in E1.
      - exec_precisely E1. cbn [fs]. repeat split; try done; auto.
        by intros ev ?%elem_of_nil.
      - apply String.eqb_neq in Hc.
        assert (raw_file "OnlineRetail.csv" ≠ raw_file fn) as Hne by (by intros [= <-]).
        exec_precisely E1; unfold exists_fs in *; simplify_map_eq.
        all: cbn [fs]; repeat split; try done.
        all: try (intros ev Hev; repeat (apply elem_of_cons in Hev as [->|Hev]; [done|]);
                  by apply elem_of_nil in Hev).
        all: try (by rewrite lookup_delete_ne).
        all: try (by intros q; left).
        all: intros q; destruct (decide (q = raw_file "OnlineRetail.csv")) as [->|Hq];
          [right; split; [done|apply lookup_delete_eq]
          |left; by rewrite lookup_delete_ne]. }
    destruct Hrename as (Hx1 & -> & Hquiet & Hsnap & Hfs).
    destruct E as (t2 & E & ->).
    apply bind_inv in E as (r2 & s2 & t3 & E2 & E).
    destruct s1 as [ps1 fs1 w1]. cbn [fs] in Hx1, Hfs.
    unfold phase_cleaning in E2.
    apply bind_inv in E2 as (r3 & s3 & t4 & E3 & E2).
    unfold_ops E3. injection E3 as <- <- <-.
    destruct E2 as (t5 & E2 & ->).
    apply bind_inv in E2 as (r3 & s3 & t4 & E3 & E2).
    unfold_ops E3. injection E3 as <- <- <-.
    destruct E2 as (t6 & E2 & ->).
    unfold exists_fs in E2. rewrite Hx1 in E2. cbn [negb] in E2.
    exec E2. injection E as <- <- <-. injection H as <- <-. cbn [fs].
    split; [|split; [|split]].
    + intros ev [Hev|Hev]%elem_of_app; [auto|].
      repeat (apply elem_of_cons in Hev as [->|Hev]; [done|]).
      by apply elem_of_nil in Hev.
    + eexists. cbn. unfold set_phase. by rewrite decide_True.
    + rewrite snapshots_app, Hsnap. reflexivity.
    + intros q. destruct (Hfs q) as [?|[? ?]]; auto.
Qed.

End MissingUpload.

Lemma py_all_statuses word ps (l : list Phase) :
  py_all (status_is word) (map (λ p, phase_json (phases ps p)) l)
  = inr (forallb (λ p, String.eqb (status_name (status (phases ps p))) word) l).
Proof.
  induction l as [|q l IH]; [done|].
  cbn [map py_all forallb]. unfold status_is at 1, phase_json at 1.
  cbn [assoc String.eqb Ascii.eqb Bool.eqb].
  destruct (String.eqb (status_name (status (phases ps q))) word); [exact IH|done].
Qed.

Lemma py_any_statuses word ps (l : list Phase) :
  py_any (status_is word) (map (λ p, phase_json (phases ps p)) l)
  = inr (existsb (λ p, String.eqb (status_name (status (phases ps p))) word) l).
Proof.
  induction l as [|q l IH]; [done|].
  cbn [map py_any existsb]. unfold status_is at 1, phase_json at 1.
  cbn [assoc String.eqb Ascii.eqb Bool.eqb].
  destruct (String.eqb (status_name (status (phases ps q))) word); [done|exact IH].
Qed.

Lemma check_status_of_record ps :
  check_status (status_json ps)
  = if existsb (λ p, status_eqb (status (phases ps p)) error) all_phases then Some false
    else if forallb (λ p, status_eqb (status (phases ps p)) completed) all_phases
         then Some true
         else None.
Proof.
  unfold check_status, status_json, phases_values.
  cbn [assoc String.eqb Ascii.eqb Bool.eqb].
  rewrite map_map. cbn [snd].
  rewrite py_all_statuses, py_any_statuses.
  assert (∀ s w, String.eqb (status_name s) (status_name w) = status_eqb s w) as Hname.
  { intros [] []; reflexivity. }
  change "error" with (status_name error). change "completed" with (status_name completed).
  cbn [all_phases forallb existsb]. by rewrite !Hname.
Qed.

(** X26.  What the test script makes of a status it is answered with in
    time: with a phase in error it returns [False]; with no phase in
    error and all five completed it returns [True]; otherwise it goes on
    polling. *)
Theorem script_reads_the_status ps rest :
  let verdict := wait_for_pipeline (answered_with ps :: rest) in
  ((∃ p, status (phases ps p) = error) → verdict = Some false) ∧
  ((∀ p, status (phases ps p) = completed) → verdict = Some true) ∧
  ((∀ p, status (phases ps p) ≠ error) → (∃ p, status (phases ps p) ≠ completed) →
   verdict = wait_for_pipeline rest).
Proof.
  cbn [wait_for_pipeline answered_with in_time answer reply_code reply_json Nat.eqb].
  rewrite check_status_of_record.
  split; [|split].
  - intros [p Hp].
    assert (existsb (λ p, status_eqb (status (phases ps p)) error) all_phases = true) as ->;
      [|done].
    apply existsb_exists. exists p. split; [apply in_all_phases|].
    unfold status_eqb. by apply bool_decide_eq_true_2.
  - intros Hall.
    assert (existsb (λ p, status_eqb (status (phases ps p)) error) all_phases = false) as ->.
    { apply not_true_is_false. intros [p [_ Hp]]%existsb_exists.
      apply bool_decide_eq_true_1 in Hp. by rewrite Hall in Hp. }
    assert (forallb (λ p, status_eqb (status (phases ps p)) completed) all_phases = true)
      as ->; [|done].
    apply forallb_forall. intros p _. unfold status_eqb. by apply bool_decide_eq_true_2.
  - intros Hnone [p Hp].
    assert (existsb (λ p, status_eqb (status (phases ps p)) error) all_phases = false) as ->.
    { apply not_true_is_false. intros [q [_ Hq]]%existsb_exists.
      apply bool_decide_eq_true_1 in Hq. by apply (Hnone q). }
    assert (forallb (λ p, status_eqb (status (phases ps p)) completed) all_phases = false)
      as ->; [|done].
    apply not_true_is_false. intros Hall. rewrite forallb_forall in Hall.
    specialize (Hall p (in_all_phases p)). by apply bool_decide_eq_true_1 in Hall.
Qed.

(** ** At work *)

Lemma run_result {A B C} (out : A * B * C) (a : A) :
  out.1.1 = a → out = (a, out.1.2, out.2).
Proof. intros <-. apply triple_eta. Qed.

(** [run_keeps_upload_entry] at work on [good_run] *)
Lemma run_keeps_upload_entry_witness :
  ∃ f name t,
    Demo.csv_upload "sales.csv" = Some f ∧ filename f = Some name ∧
    let entry := {| status := completed; timestamp := Some t;
                    message := uploaded_message name |} in
    phases (pipeline_status good_run.1.2) upload = entry ∧
    ∀ s, EmitStatus s ∈ good_run.2 → phases s upload = entry.
Proof.
  assert (good_run.1.1
          = Val (jsonify (JObj [("success", JBool true); ("filename", JStr "sales.csv")])))
    as Hres by (by vm_compute).
  exact (run_keeps_upload_entry (Demo.runtime Demo.working true)
           (Demo.csv_upload "sales.csv") (Demo.start Demo.empty_dirs) _
           good_run.1.2 good_run.2 (run_result good_run _ Hres) eq_refl).
Defined.

(** [pending_iff_untouched] at work on [good_run] *)
Lemma pending_iff_untouched_witness :
  tidy (pipeline_status good_run.1.2) ∧ ∀ s, EmitStatus s ∈ good_run.2 → tidy s.
Proof.
  apply (pending_iff_untouched (Demo.runtime Demo.working true)
           (Demo.csv_upload "sales.csv") (Demo.start Demo.empty_dirs)
           good_run.1.1 good_run.1.2 good_run.2 (triple_eta good_run)).
  reflexivity.
Defined.

(** [accepted_upload_is_saved] at work on [sales.csv] *)
Lemma accepted_upload_is_saved_witness :
  fs saved_upload.1.2 !! raw_file "sales.csv" = Some (File "x,y").
Proof.
  destruct (accepted_upload_is_saved (Demo.runtime Demo.working true)
              {| filename := Some "sales.csv"; content := "x,y" |} "sales.csv"
              (Demo.start Demo.empty_dirs)
              (jsonify (JObj [("success", JBool true); ("filename", JStr "sales.csv")]))
              (Some "sales.csv") saved_upload.1.2 saved_upload.2)
    as (_ & H & _).
  - reflexivity.
  - by vm_compute.
  - apply (run_result saved_upload). by vm_compute.
  - reflexivity.
  - exact H.
Defined.

(** [clear_leaves_no_file] at work on [nested_files] *)
Lemma clear_leaves_no_file_witness :
  isfile_fs (raw_file "a.csv") (fs cleared.1.2) = false.
Proof.
  apply (clear_leaves_no_file (Demo.runtime Demo.working true) nested_files
           (jsonify (JObj [("success", JBool true)])) cleared.1.2 cleared.2
           stopped.1.1 stopped.1.2 stopped.2).
  - apply (run_result cleared). by vm_compute.
  - reflexivity.
  - apply (triple_eta stopped).
  - by vm_compute.
  - exists "raw", "a.csv". split; [apply list_elem_of_here|reflexivity].
Defined.


(** [ready_iff_completed_at_rest] at work on [good_run] *)
Lemma ready_iff_completed_at_rest_witness :
  model_ready (pipeline_status good_run.1.2) = true
  ↔ status (phases (pipeline_status good_run.1.2) inference) = completed.
Proof.
  apply (ready_iff_completed_at_rest (Demo.runtime Demo.working true)
           (Demo.csv_upload "sales.csv") (Demo.start Demo.empty_dirs)
           good_run.1.1 good_run.1.2 good_run.2 first_broadcast (triple_eta good_run)).
  apply (list_elem_of_lookup_2 _ 1%nat). by vm_compute.
Defined.

(** [broadcasts_never_ready] at work on [good_run] *)
Lemma broadcasts_never_ready_witness : model_ready first_broadcast = false.
Proof.
  apply (broadcasts_never_ready (Demo.runtime Demo.working true)
           (Demo.csv_upload "sales.csv") (Demo.start Demo.empty_dirs)
           good_run.1.1 good_run.1.2 good_run.2 first_broadcast (triple_eta good_run)).
  apply (list_elem_of_lookup_2 _ 1%nat). by vm_compute.
Defined.

(** [uncaught_exception_sets_no_error] at work on [crashed_body] *)
Lemma uncaught_exception_sets_no_error_witness :
  (∀ p, status (phases (pipeline_status crashed_body.1.2) p) ≠ error) ∧
  (∃ p, status (phases (pipeline_status crashed_body.1.2) p) = running).
Proof.
  apply (uncaught_exception_sets_no_error (Demo.runtime_with no_mkdir Demo.working true)
           "/app/data" "sales.csv"
           (upload_file (Demo.runtime_with no_mkdir Demo.working true)
                        (Demo.csv_upload "sales.csv") (Demo.start no_processed_dir)).1.2
           (OSError "Permission denied")
           crashed_body.1.2 crashed_body.2).
  - by vm_compute.
  - apply (run_result crashed_body). by vm_compute.
Defined.

(** [wait_never_passes_without_conversion] at work: after [good_run], in
    which every stage that was run is completed, the script still
    waits. *)
Lemma wait_never_passes_without_conversion_witness :
  wait_for_pipeline poll_after_good_run ≠ Some true.
Proof.
  apply (wait_never_passes_without_conversion (Demo.runtime Demo.working true)
           (Demo.csv_upload "sales.csv") (Demo.start Demo.empty_dirs)
           good_run.1.1 good_run.1.2 good_run.2 poll_after_good_run
           (triple_eta good_run)).
  - reflexivity.
  - intros f name [= <-] [= <-]. reflexivity.
  - intros poll reply body ->%list_elem_of_singleton [= <-] [= <-].
    exists (pipeline_status good_run.1.2). split; [by left|reflexivity].
Defined.

(** [failed_excel_rename_stops_the_run] at work: the renaming of
    [book.xlsx] is refused. *)
Lemma failed_excel_rename_stops_the_run_witness :
  let '(st', tr) := run_pipeline no_rename_runtime "book.xlsx" excel_uploaded in
  (∀ ev, ev ∈ tr → is_action ev = false) ∧
  (∃ ts, phases (pipeline_status st') conversion
         = {| status := error; timestamp := Some ts;
              message := "Errore nel rinominare il file: "
                           +:+ exn_str (OSError "Permission denied") |}) ∧
  (∀ p, p ≠ conversion →
        phases (pipeline_status st') p = phases (pipeline_status excel_uploaded) p) ∧
  last (snapshots tr) = Some (pipeline_status st') ∧
  fs st' = fs excel_uploaded.
Proof.
  apply (failed_excel_rename_stops_the_run no_rename_runtime "book.xlsx" excel_uploaded
           (OSError "Permission denied") excel_uploaded []).
  - reflexivity.
  - discriminate.
  - vm_compute. by eexists.
  - by vm_compute.
Defined.

(** [missing_upload_is_reported] at work on [ghost_run]: nothing is
    started, and the stale file is gone. *)
Lemma missing_upload_is_reported_witness :
  fs ghost_run.1 !! raw_file "OnlineRetail.csv" = None ∧
  let '(st', tr) := ghost_run in
  (∀ ev, ev ∈ tr → is_action ev = false) ∧
  (∃ ts, phases (pipeline_status st') cleaning
         = {| status := error; timestamp := Some ts;
              message := "File CSV ghost.csv non trovato" |}) ∧
  last (snapshots tr) = Some (pipeline_status st') ∧
  (∀ q, fs st' !! q = sales_renamed !! q ∨
        (q = raw_file "OnlineRetail.csv" ∧ false = false ∧ fs st' !! q = None)).
Proof.
  split; [by vm_compute|].
  apply (missing_upload_is_reported (Demo.runtime Demo.working true) "ghost.csv"
           (Demo.start sales_renamed)).
  by vm_compute.
Defined.
